(** * Health dashboard client pipeline: a shallow embedding

    The JavaScript modules [HealthDashboard], [HealthRiskPredictor],
    [SymptomTimeline] and [FamilyProfiles] (static/js) are embedded as Rocq
    functions.  DOM effects are made explicit: a renderer returns the view it
    builds, an action threads a page state and a log of issued requests. *)

From Stdlib Require Import List String Ascii Bool ZArith QArith Lia.
From Stdlib Require Import Permutation Sorting.Sorted.
Import ListNotations.

Local Open Scope string_scope.
Local Open Scope list_scope.
Local Open Scope Z_scope.

(** String concatenation, as [+] and template literals perform it. *)
Infix "+++" := String.append (at level 60, right associativity).

(** ** JavaScript values and built-ins used by the modules *)

Module JS.

(** A JavaScript number.  Every finite double is a rational, and the
    comparisons the code performs against integer literals are exact, so the
    finite part is modelled by [Q]. *)
Inductive number : Type :=
| Num (q : Q)
| NaN
| PosInf
| NegInf.

(** [a <= b]; any comparison involving [NaN] is false. *)
Definition le (a b : number) : bool :=
  match a, b with
  | Num p, Num q => Qle_bool p q
  | Num _, PosInf => true
  | NegInf, Num _ => true
  | NegInf, NegInf => true
  | NegInf, PosInf => true
  | PosInf, PosInf => true
  | _, _ => false
  end.

(** [a < b]. *)
Definition lt (a b : number) : bool :=
  match a, b with
  | Num p, Num q => negb (Qle_bool q p)
  | Num _, PosInf => true
  | NegInf, Num _ => true
  | NegInf, PosInf => true
  | _, _ => false
  end.

(** [a > b]. *)
Definition gt (a b : number) : bool := lt b a.

Definition of_Z (z : Z) : number := Num (inject_Z z).

(** The primitive values that reach the templates and the guards. *)
Inductive value : Type :=
| VUndefined
| VNull
| VBool (b : bool)
| VNumber (n : number)
| VString (s : string).

(** ToBoolean. *)
Definition truthy (v : value) : bool :=
  match v with
  | VUndefined | VNull => false
  | VBool b => b
  | VNumber (Num q) => negb (Qeq_bool q 0)
  | VNumber NaN => false
  | VNumber _ => true
  | VString s => negb (String.eqb s "")
  end.

(** [v === 'lit'] for a string literal. *)
Definition is_string (v : value) (lit : string) : bool :=
  match v with
  | VString s => String.eqb s lit
  | _ => false
  end.

(** [a || b]. *)
Definition or_else (a b : value) : value := if truthy a then a else b.

(** A JSON field that holds a string when present: [undefined] (absent),
    [null], or the string. *)
Inductive optstr : Type :=
| Undef
| Null
| Str (s : string).

Definition present (v : optstr) : bool :=
  match v with
  | Str s => negb (String.eqb s "")
  | _ => false
  end.

(** The property key such a field yields in [obj[field]] (ToString). *)
Definition to_key (v : optstr) : string :=
  match v with
  | Undef => "undefined"
  | Null => "null"
  | Str s => s
  end.

Definition to_value (v : optstr) : value :=
  match v with
  | Undef => VUndefined
  | Null => VNull
  | Str s => VString s
  end.

(** [checked?.value || dflt] for an optional control value. *)
Definition or_default (v : option string) (dflt : string) : string :=
  match v with
  | Some s => if String.eqb s "" then dflt else s
  | None => dflt
  end.

(** Built-ins of the host whose full definition lies outside the modules.
    [parseDate s] is the time value of [new Date(s)] in milliseconds, [None]
    for an Invalid Date; [localeDate] and [isoString] are
    [toLocaleDateString] and [toISOString] on a valid time value. *)
Record host : Type := {
  toNumber : string -> number;
  parseInt : value -> number;
  parseFloat : string -> number;
  parseDate : string -> option Z;
  localeDate : Z -> string;
  isoString : Z -> string
}.

(** [new Date(v)] for an optional string field: [new Date(undefined)] is
    invalid, [new Date(null)] is the epoch. *)
Definition newDate (h : host) (v : optstr) : option Z :=
  match v with
  | Undef => None
  | Null => Some 0
  | Str s => parseDate h s
  end.

(** [d1 - d2] on two dates: NaN ([None]) as soon as one is invalid. *)
Definition date_diff (d1 d2 : option Z) : option Z :=
  match d1, d2 with
  | Some a, Some b => Some (a - b)
  | _, _ => None
  end.

(** [date.toLocaleDateString()]. *)
Definition toLocaleDateString (h : host) (d : option Z) : string :=
  match d with
  | Some t => localeDate h t
  | None => "Invalid Date"
  end.

(** *** Array.prototype.sort

    The comparator returns a number, [None] standing for NaN, which the
    language treats as [+0].  The sort is stable; it is modelled by a stable
    insertion sort.  For a consistent comparator (here: every compared date is
    valid) the language fixes the result, whatever the engine's algorithm.
    For an inconsistent one (some compared date is invalid) the language
    only promises a rearrangement of the array: the statements below that
    speak of an order assume valid dates, the others hold of any
    rearrangement. *)
Section Sort.
Context {A : Type}.
Variable cmp : A -> A -> option Z.

Definition precedes (a b : A) : bool :=
  match cmp a b with
  | Some v => v <? 0
  | None => false
  end.

Fixpoint insert (a : A) (l : list A) : list A :=
  match l with
  | [] => [a]
  | b :: l' => if precedes a b then a :: b :: l' else b :: insert a l'
  end.

Definition sort (l : list A) : list A :=
  fold_left (fun acc a => insert a acc) l [].
End Sort.

(** *** Plain objects used as maps from keys to arrays *)

(** The names a plain object inherits from [Object.prototype]: [o[k]] at such
    a name, without an own property, reads the inherited member (a function,
    or the prototype itself for [__proto__]), which is truthy and has no
    [push]. *)
Definition inheritedNames : list string :=
  ["constructor"; "__proto__"; "hasOwnProperty"; "isPrototypeOf";
   "propertyIsEnumerable"; "toLocaleString"; "toString"; "valueOf";
   "__defineGetter__"; "__defineSetter__"; "__lookupGetter__";
   "__lookupSetter__"].

Definition inherited (k : string) : bool := existsb (String.eqb k) inheritedNames.

(** What [table[k] || fallback] hands on, for a table of strings: a string,
    or the member of [Object.prototype] of that name. *)
Inductive shown : Type :=
| Chars (s : string)
| Builtin (name : string).

(** The own properties of an object, in creation order. *)
Definition obj (B : Type) : Type := list (string * list B).

Fixpoint get {B} (o : obj B) (k : string) : option (list B) :=
  match o with
  | [] => None
  | (k', l) :: o' => if String.eqb k' k then Some l else get o' k
  end.

(** [if (!o[k]) o[k] = []] for a key that names no inherited member (see
    [group] for the other keys). *)
Definition ensure {B} (o : obj B) (k : string) : obj B :=
  match get o k with
  | Some _ => o
  | None => o ++ [(k, [])]
  end.

(** [o[k].push(v)] on an existing array. *)
Fixpoint append {B} (o : obj B) (k : string) (v : B) : obj B :=
  match o with
  | [] => []
  | (k', l) :: o' =>
      if String.eqb k' k then (k', l ++ [v]) :: o'
      else (k', l) :: append o' k v
  end.

(** [if (!o[k]) o[k] = []; o[k].push(v)] on an object built from [{}], for
    any key: at the name of an inherited member the guard reads that member,
    nothing is created and [push] throws a TypeError ([None]). *)
Definition group {B} (o : obj B) (k : string) (v : B) : option (obj B) :=
  if inherited k then None else Some (append (ensure o k) k v).

(** The loop shared by the grouping code: each array element selects a key
    and the value pushed under it, or is skipped.  The keys name no
    inherited member: they are day strings printed by the host, or the
    statements say so. *)
Definition collect {A B} (sel : A -> option (string * B)) (l : list A) : obj B :=
  fold_left
    (fun o a =>
       match sel a with
       | Some (k, v) => append (ensure o k) k v
       | None => o
       end)
    l [].

(** The values pushed under key [k], in array order. *)
Fixpoint picks {A B} (sel : A -> option (string * B)) (k : string) (l : list A)
  : list B :=
  match l with
  | [] => []
  | a :: l' =>
      match sel a with
      | Some (k', v) => if String.eqb k' k then v :: picks sel k l' else picks sel k l'
      | None => picks sel k l'
      end
  end.

Definition digit (c : ascii) : option N :=
  let n := N_of_ascii c in
  if ((48 <=? n) && (n <=? 57))%N then Some (n - 48)%N else None.

Fixpoint decimal (s : string) (acc : N) : option N :=
  match s with
  | EmptyString => Some acc
  | String c s' =>
      match digit c with
      | Some d => decimal s' (10 * acc + d)%N
      | None => None
      end
  end.

(** A key is an array index when it is the canonical decimal form of an
    integer below 2^32 - 1. *)
Definition array_index (s : string) : option N :=
  match s with
  | EmptyString => None
  | String c rest =>
      if Ascii.eqb c "0"%char
      then (if String.eqb rest "" then Some 0%N else None)
      else match decimal s 0 with
           | Some n => if (n <? 4294967295)%N then Some n else None
           | None => None
           end
  end.

Definition is_index (s : string) : bool :=
  match array_index s with Some _ => true | None => false end.

Definition index_cmp (a b : string) : option Z :=
  match array_index a, array_index b with
  | Some m, Some n => Some (Z.of_N m - Z.of_N n)
  | _, _ => None
  end.

(** Property order of an ordinary object: array indices in ascending numeric
    order, then the other string keys in creation order. *)
Definition own_order {B} (o : obj B) : obj B :=
  sort (fun a b => index_cmp (fst a) (fst b))
       (filter (fun e => is_index (fst e)) o)
  ++ filter (fun e => negb (is_index (fst e))) o.

(** [Object.keys(o)]. *)
Definition keys {B} (o : obj B) : list string := map fst (own_order o).

(** [Object.entries(o)]. *)
Definition entries {B} (o : obj B) : list (string * list B) := own_order o.

(** *** URLSearchParams

    The application/x-www-form-urlencoded serializer on byte strings. *)
Definition unreserved (c : ascii) : bool :=
  let n := N_of_ascii c in
  (((48 <=? n) && (n <=? 57)) || ((65 <=? n) && (n <=? 90))
   || ((97 <=? n) && (n <=? 122))
   || (n =? 42) || (n =? 45) || (n =? 46) || (n =? 95))%N.

Definition hex_digit (n : N) : ascii :=
  ascii_of_N (if (n <? 10)%N then 48 + n else 55 + n)%N.

Fixpoint urlencode (s : string) : string :=
  match s with
  | EmptyString => EmptyString
  | String c s' =>
      let n := N_of_ascii c in
      if unreserved c then String c (urlencode s')
      else if (n =? 32)%N then String "+"%char (urlencode s')
      else String "%"%char
             (String (hex_digit (n / 16))
                (String (hex_digit (n mod 16)) (urlencode s')))
  end.

(** [params.toString()] for the appended pairs. *)
Definition serialize (params : list (string * string)) : string :=
  String.concat "&"
    (map (fun p => urlencode (fst p) +++ "=" +++ urlencode (snd p)) params).

(** *** Views and effects *)

Set Warnings "-register-all".

(** Markup built by the templates: text, an interpolated value, or an element
    with its class attribute and children. *)
Inductive html : Type :=
| Text (s : string)
| Show (v : value)
| Elem (tag : string) (cls : string) (kids : list html).

Inductive log_entry : Type :=
| Log (s : string)
| Warn (s : string)
| Error (s : string).

(** A call of [fetch]. *)
Record request (B : Type) : Type := {
  method : string;
  url : string;
  body : option B
}.
Arguments method {B}.
Arguments url {B}.
Arguments body {B}.

(** How a [fetch] settles: the promise rejects, or a response arrives with
    its [ok] flag and a body that parses as JSON ([Some]) or does not. *)
Inductive settled (J : Type) : Type :=
| Rejected
| Response (ok : bool) (status : Z) (json : option J).
Arguments Rejected {J}.
Arguments Response {J}.

(** What the chain [.then(check ok; json()).then(...)] hands on. *)
Definition unwrap {J} (r : settled J) : option J :=
  match r with
  | Response true _ (Some j) => Some j
  | _ => None
  end.

(** [s.includes(sub)]. *)
Fixpoint includes (s sub : string) : bool :=
  String.prefix sub s
  || match s with
     | EmptyString => false
     | String _ s' => includes s' sub
     end.

(** The characters [encodeURIComponent] leaves as they are. *)
Definition uri_unreserved (c : ascii) : bool :=
  let n := N_of_ascii c in
  (((48 <=? n) && (n <=? 57)) || ((65 <=? n) && (n <=? 90))
   || ((97 <=? n) && (n <=? 122))
   || (n =? 45) || (n =? 95) || (n =? 46) || (n =? 33) || (n =? 126)
   || (n =? 42) || (n =? 39) || (n =? 40) || (n =? 41))%N.

(** [encodeURIComponent] on byte strings. *)
Fixpoint encodeURIComponent (s : string) : string :=
  match s with
  | EmptyString => EmptyString
  | String c s' =>
      let n := N_of_ascii c in
      if uri_unreserved c then String c (encodeURIComponent s')
      else String "%"%char
             (String (hex_digit (n / 16))
                (String (hex_digit (n mod 16)) (encodeURIComponent s')))
  end.

End JS.

(** ** static/js/health_dashboard.js *)

Module HealthDashboard.

(** [getSeverityClass] (lines 745-749). *)
Definition getSeverityClass (severity : JS.number) : string :=
  if JS.le severity (JS.of_Z 3) then "success"
  else if JS.le severity (JS.of_Z 6) then "warning"
  else "danger".

(** The [riskClass] chain of [renderRiskAssessments] (lines 343-347): four
    successive [if]s over an initial value. *)
Definition riskClass (risk_level : JS.value) : string :=
  let c := "secondary" in
  let c := if JS.is_string risk_level "low" then "success" else c in
  let c := if JS.is_string risk_level "moderate" then "warning" else c in
  let c := if JS.is_string risk_level "high" then "danger" else c in
  let c := if JS.is_string risk_level "critical" then "dark" else c in
  c.

(** *** [renderSymptomsSummary] (lines 247-308) *)

Record symptom : Type := {
  date : JS.optstr;
  symptom_name : JS.value;
  severity : JS.number
}.

(** Lines 253-259: [symptomsByDate[symptom.date]] collects the symptoms of
    one date string, in input order.  The date strings are taken to name no
    inherited member: at such a name the [push] of line 258 throws (see
    [JS.group]) and nothing is rendered.  No host reads such a name as a
    date. *)
Definition symptomsByDate (symptoms : list symptom) : JS.obj symptom :=
  fold_left
    (fun o s =>
       let k := JS.to_key (date s) in
       JS.append (JS.ensure o k) k s)
    symptoms [].

(** The comparator of lines 262-264: [new Date(b) - new Date(a)]. *)
Definition byDateDesc (h : JS.host) (a b : string) : option Z :=
  JS.date_diff (JS.parseDate h b) (JS.parseDate h a).

(** Lines 262-264. *)
Definition sortedDates (h : JS.host) (symptoms : list symptom) : list string :=
  JS.sort (byDateDesc h) (JS.keys (symptomsByDate symptoms)).

(** One rendered date group: its key, the heading shown, and the symptoms
    listed under it. *)
Record date_group : Type := {
  group_date : string;
  heading : string;
  items : list symptom
}.

Definition symptomItem (s : symptom) : JS.html :=
  JS.Elem "div" "list-group-item d-flex justify-content-between align-items-center"
    [JS.Elem "span" "" [JS.Show (symptom_name s)];
     JS.Elem "span" ("badge bg-" +++ getSeverityClass (severity s) +++ " rounded-pill")
       [JS.Show (JS.VNumber (severity s))]].

(** Lines 293-303: the list items of one date group. *)
Definition groupItems (g : date_group) : list JS.html :=
  map symptomItem (items g).

(** The date groups appended to [recentSymptomsContainer]; nothing is
    rendered for a missing or empty array.  Only the 7 first dates are kept
    (line 279). *)
Definition renderSymptomsSummary (h : JS.host) (symptoms : option (list symptom))
  : list date_group :=
  match symptoms with
  | None | Some [] => []
  | Some l =>
      let by_date := symptomsByDate l in
      let recentDates := firstn 7 (sortedDates h l) in
      map (fun d =>
             {| group_date := d;
                heading := JS.toLocaleDateString h (JS.parseDate h d);
                items := match JS.get by_date d with
                         | Some ss => ss
                         | None => []
                         end |})
          recentDates
  end.

(** *** [renderMetricsCharts] (lines 149-244) *)

Record sample : Type := {
  sample_date : string;
  value : JS.number
}.

Record metric : Type := {
  type : string;
  unit : JS.optstr;
  data : list sample
}.

Definition is_lower (c : ascii) : bool :=
  let n := N_of_ascii c in ((97 <=? n) && (n <=? 122))%N.

Definition is_word (c : ascii) : bool :=
  let n := N_of_ascii c in
  (((48 <=? n) && (n <=? 57)) || ((65 <=? n) && (n <=? 90))
   || ((97 <=? n) && (n <=? 122)) || (n =? 95))%N.

Definition upper (c : ascii) : ascii :=
  if is_lower c then ascii_of_N (N_of_ascii c - 32) else c.

(** [.replace(/_/g, ' ')]. *)
Fixpoint spaces (s : string) : string :=
  match s with
  | EmptyString => EmptyString
  | String c s' =>
      String (if Ascii.eqb c "_"%char then " "%char else c) (spaces s')
  end.

(** [.replace(/\b\w/g, l => l.toUpperCase())]; [inside] tells whether the
    previous character is a word character. *)
Fixpoint capitalize (inside : bool) (s : string) : string :=
  match s with
  | EmptyString => EmptyString
  | String c s' =>
      String (if andb (is_word c) (negb inside) then upper c else c)
             (capitalize (is_word c) s')
  end.

Definition metricNames : list (string * string) :=
  [("heart_rate", "Heart Rate"); ("steps", "Steps");
   ("blood_glucose", "Blood Glucose");
   ("systolic_bp", "Systolic Blood Pressure");
   ("diastolic_bp", "Diastolic Blood Pressure");
   ("sleep_duration", "Sleep Duration"); ("weight", "Weight");
   ("temperature", "Body Temperature");
   ("oxygen_saturation", "Oxygen Saturation")].

Definition metricColors : list (string * string) :=
  [("heart_rate", "255, 99, 132"); ("steps", "54, 162, 235");
   ("blood_glucose", "255, 206, 86"); ("systolic_bp", "75, 192, 192");
   ("diastolic_bp", "153, 102, 255"); ("sleep_duration", "255, 159, 64");
   ("weight", "199, 199, 199"); ("temperature", "83, 144, 217");
   ("oxygen_saturation", "0, 184, 148")].

Fixpoint lookup (table : list (string * string)) (k : string) : option string :=
  match table with
  | [] => None
  | (k', v) :: t => if String.eqb k' k then Some v else lookup t k
  end.

(** [table[k] || fallback] for a table written as an object literal: the
    string of the table, else the member inherited from [Object.prototype]
    when [k] names one (it is truthy), else the fallback. *)
Definition lookupOr (table : list (string * string)) (k : string)
  (fallback : string) : JS.shown :=
  match lookup table k with
  | Some v => JS.Chars v
  | None => if JS.inherited k then JS.Builtin k else JS.Chars fallback
  end.

(** [formatMetricName] (lines 685-699). *)
Definition formatMetricName (metricType : string) : JS.shown :=
  lookupOr metricNames metricType (capitalize false (spaces metricType)).

(** [getMetricColor] (lines 701-715); [alpha] is the text of the number. *)
Definition getMetricColor (metricType : string) (alpha : string) : JS.shown :=
  lookupOr
    (map (fun e => (fst e, "rgba(" +++ snd e +++ ", " +++ alpha +++ ")"))
         metricColors)
    metricType ("rgba(128, 128, 128, " +++ alpha +++ ")").

(** The [chartData] of one metric panel (lines 199-209): labels and values
    are mapped from [metric.data] position by position.  The label of the
    dataset is the template [`${chart_name} (${chart_unit})`]. *)
Record metric_chart : Type := {
  canvas : nat;
  chart_labels : list string;
  chart_name : JS.shown;
  chart_unit : string;
  chart_values : list JS.number;
  borderColor : JS.shown;
  backgroundColor : JS.shown
}.

Definition metricChart (index : nat) (m : metric) : metric_chart :=
  {| canvas := index;
     chart_labels := map sample_date (data m);
     chart_name := formatMetricName (type m);
     chart_unit := if JS.present (unit m) then JS.to_key (unit m) else "";
     chart_values := map value (data m);
     borderColor := getMetricColor (type m) "1";
     backgroundColor := getMetricColor (type m) "0.1" |}.

Fixpoint indexed {A} (i : nat) (l : list A) : list (nat * A) :=
  match l with
  | [] => []
  | a :: l' => (i, a) :: indexed (S i) l'
  end.

(** The charts created by [metrics.forEach((metric, index) => ...)]; none
    for a missing or empty array (the no-data card is shown instead). *)
Definition renderMetricsCharts (metrics : option (list metric)) : list metric_chart :=
  match metrics with
  | None => []
  | Some l => map (fun im => metricChart (fst im) (snd im)) (indexed 0 l)
  end.

(** *** [renderDashboard] and [renderSymptomChart] of the page script
    (lines 867-959) *)

Record health_symptom : Type := {
  symptom_field : JS.optstr;
  severity_field : JS.value;
  notes : JS.value;
  datetime : JS.optstr
}.

Record chart_point : Type := {
  x : option Z;
  y : JS.number
}.

Record series : Type := {
  label : string;
  points : list chart_point;
  series_borderColor : string;
  series_backgroundColor : string
}.

Definition colorList : list string :=
  ["#5E936C"; "#FF6B6B"; "#4ECDC4"; "#FFD166";
   "#6C63FF"; "#FFB6B9"; "#A8E6CF"; "#FF8C42"].

(** Lines 899-906: points grouped by symptom name; [None] when the [push]
    of line 902 throws, which it does for a name that is an inherited
    member. *)
Definition grouped (h : JS.host) (symptoms : list health_symptom)
  : option (JS.obj chart_point) :=
  fold_left
    (fun acc s =>
       match acc with
       | Some o =>
           JS.group o (JS.to_key (symptom_field s))
             {| x := JS.newDate h (datetime s);
                y := JS.parseInt h (severity_field s) |}
       | None => None
       end)
    symptoms (Some []).

(** The comparator of line 914: [a.x - b.x]. *)
Definition byTime (a b : chart_point) : option Z := JS.date_diff (x a) (x b).

(** Lines 912-921: one dataset per symptom name, its points sorted by time,
    its colour taken from the palette by position. *)
Definition datasets (g : JS.obj chart_point) : list series :=
  map (fun ie =>
         let i := fst ie in
         let color := nth (i mod 8)%nat colorList "" in
         {| label := fst (snd ie);
            points := JS.sort byTime (snd (snd ie));
            series_borderColor := color;
            series_backgroundColor := color +++ "33" |})
      (indexed 0 (JS.entries g)).

(** [renderSymptomChart]: the datasets the chart is created with, [None]
    when the grouping throws.  The chart canvas is taken to be on the page
    (line 896 returns otherwise). *)
Definition renderSymptomChart (h : JS.host) (symptoms : list health_symptom)
  : option (list series) :=
  match grouped h symptoms with
  | Some g => Some (datasets g)
  | None => None
  end.

(** The comparator of line 873: [new Date(b.datetime) - new Date(a.datetime)]. *)
Definition byDatetimeDesc (h : JS.host) (a b : health_symptom) : option Z :=
  JS.date_diff (JS.newDate h (datetime b)) (JS.newDate h (datetime a)).

(** [renderDashboard] sorts the symptoms in place, most recent first, and
    hands the same array to [renderSymptomChart] (lines 872-891). *)
Definition dashboardSymptomChart (h : JS.host) (symptoms : list health_symptom)
  : option (list series) :=
  renderSymptomChart h (JS.sort (byDatetimeDesc h) symptoms).

(** *** [addHealthMetric] (lines 488-548) *)

(** The fields of the add-metric form. *)
Record metric_form : Type := {
  metricType : string;
  metricValue : string;
  metricUnit : string;
  metricDate : string
}.

Record metric_body : Type := {
  metric_type : string;
  body_value : JS.number;
  body_unit : string;
  source : string;
  recorded_at : option string
}.

(** The part of the page the action reads or writes.  [notifications] holds
    the calls of [showNotification] (message, type); [submit_enabled] is the
    state of the form's trigger control, which the action never touches;
    [uncaught] counts exceptions that escape the handler. *)
Record page : Type := {
  form : metric_form;
  form_defaults : metric_form;
  submit_enabled : bool;
  modal_open : bool;
  dashboardStartDate : string;
  dashboardEndDate : string;
  loading : bool;
  notifications : list (string * string);
  console : list JS.log_entry;
  requests : list (JS.request metric_body);
  uncaught : nat
}.

Definition showNotification (message type : string) (p : page) : page :=
  {| form := form p; form_defaults := form_defaults p;
     submit_enabled := submit_enabled p; modal_open := modal_open p;
     dashboardStartDate := dashboardStartDate p;
     dashboardEndDate := dashboardEndDate p; loading := loading p;
     notifications := notifications p ++ [(message, type)];
     console := console p; requests := requests p; uncaught := uncaught p |}.

Definition logError (message : string) (p : page) : page :=
  {| form := form p; form_defaults := form_defaults p;
     submit_enabled := submit_enabled p; modal_open := modal_open p;
     dashboardStartDate := dashboardStartDate p;
     dashboardEndDate := dashboardEndDate p; loading := loading p;
     notifications := notifications p;
     console := console p ++ [JS.Error message];
     requests := requests p; uncaught := uncaught p |}.

Definition fetch (r : JS.request metric_body) (p : page) : page :=
  {| form := form p; form_defaults := form_defaults p;
     submit_enabled := submit_enabled p; modal_open := modal_open p;
     dashboardStartDate := dashboardStartDate p;
     dashboardEndDate := dashboardEndDate p; loading := loading p;
     notifications := notifications p; console := console p;
     requests := requests p ++ [r]; uncaught := uncaught p |}.

Definition throw (p : page) : page :=
  {| form := form p; form_defaults := form_defaults p;
     submit_enabled := submit_enabled p; modal_open := modal_open p;
     dashboardStartDate := dashboardStartDate p;
     dashboardEndDate := dashboardEndDate p; loading := loading p;
     notifications := notifications p; console := console p;
     requests := requests p; uncaught := S (uncaught p) |}.

(** The query part shared by the two date-filtered fetches (dashboard lines
    43-50, timeline lines 135-142). *)
Definition dateQuery (startDate endDate : string) : string :=
  let params :=
    (if String.eqb startDate "" then [] else [("start_date", startDate)])
    ++ (if String.eqb endDate "" then [] else [("end_date", endDate)]) in
  let q := JS.serialize params in
  if String.eqb q "" then "" else "?" +++ q.

(** [fetchDashboardData] (lines 33-62), up to the issued request. *)
Definition fetchDashboardData (userId : string) (p : page) : page :=
  let p :=
    {| form := form p; form_defaults := form_defaults p;
       submit_enabled := submit_enabled p; modal_open := modal_open p;
       dashboardStartDate := dashboardStartDate p;
       dashboardEndDate := dashboardEndDate p; loading := true;
       notifications := notifications p; console := console p;
       requests := requests p; uncaught := uncaught p |} in
  fetch {| JS.method := "GET";
           JS.url := "/api/users/" +++ userId +++ "/health-dashboard"
                       +++ dateQuery (dashboardStartDate p) (dashboardEndDate p);
           JS.body := None |} p.

(** Lines 532-542: the success handler (the modal instance exists). *)
Definition metricAdded (userId : string) (p : page) : page :=
  let p :=
    {| form := form_defaults p; form_defaults := form_defaults p;
       submit_enabled := submit_enabled p; modal_open := false;
       dashboardStartDate := dashboardStartDate p;
       dashboardEndDate := dashboardEndDate p; loading := loading p;
       notifications := notifications p; console := console p;
       requests := requests p; uncaught := uncaught p |} in
  fetchDashboardData userId
    (showNotification "Health metric added successfully" "success" p).

(** Lines 544-547: the [catch] handler. *)
Definition metricFailed (p : page) : page :=
  showNotification "Error adding health metric. Please try again." "error"
    (logError "Error adding health metric:" p).

(** Lines 494-503: the message of the validation that rejects the form. *)
Definition validateMetric (h : JS.host) (f : metric_form) : option string :=
  if String.eqb (metricType f) "" then Some "Please select a metric type"
  else if String.eqb (metricValue f) ""
       then Some "Please enter a valid metric value"
  else match JS.toNumber h (metricValue f) with
       | JS.NaN => Some "Please enter a valid metric value"
       | _ => None
       end.

(** [addHealthMetric]: the synchronous part, then the settlement of the POST.
    [new Date(metricDate).toISOString()] throws on an invalid date, before
    any request is made. *)
Definition addHealthMetric {J} (h : JS.host) (userId : string)
  (settle : JS.settled J) (p : page) : page :=
  let f := form p in
  match validateMetric h f with
  | Some message => showNotification message "error" p
  | None =>
      let send (stamp : option string) :=
        let p :=
          fetch {| JS.method := "POST";
                   JS.url := "/api/users/" +++ userId +++ "/health-metrics";
                   JS.body := Some {| metric_type := metricType f;
                                      body_value := JS.parseFloat h (metricValue f);
                                      body_unit := metricUnit f;
                                      source := "manual";
                                      recorded_at := stamp |} |} p in
        match JS.unwrap settle with
        | Some _ => metricAdded userId p
        | None => metricFailed p
        end in
      if String.eqb (metricDate f) "" then send None
      else match JS.parseDate h (metricDate f) with
           | Some t => send (Some (JS.isoString h t))
           | None => throw p
           end
  end.

(** *** [addSampleMetrics] (lines 602-682) *)

(** The settlement of the batch POST (lines 659-681).  The batch itself is
    drawn at random and is not modelled. *)
Definition sampleMetricsSettled {J} (userId : string) (settle : JS.settled J)
  (p : page) : page :=
  match JS.unwrap settle with
  | Some _ =>
      fetchDashboardData userId
        (showNotification "Device data synced successfully" "success" p)
  | None => logError "Error syncing device data:" p
  end.

(** *** [renderHealthSummary] (lines 95-146): the class of the BMI badge *)

(** Lines 97-109.  The category is [userInfo.bmi_category || 'N/A']; on a
    truthy value that is not a string the call of [includes] throws
    ([None]). *)
Definition bmiClass (bmi_category : JS.value) : option string :=
  match JS.or_else bmi_category (JS.VString "N/A") with
  | JS.VString c =>
      Some (if String.eqb c "Normal weight" then "success"
            else if String.eqb c "Underweight" then "info"
            else if String.eqb c "Overweight" then "warning"
            else if JS.includes c "Obese" then "danger"
            else "secondary")
  | _ => None
  end.

(** *** Device helpers (lines 717-743) *)

Definition deviceIcons : list (string * string) :=
  [("fitbit", "watch"); ("apple_watch", "watch");
   ("google_fit", "mobile-alt"); ("samsung_health", "mobile-alt");
   ("garmin", "watch"); ("withings", "weight"); ("manual", "clipboard")].

Definition deviceNames : list (string * string) :=
  [("fitbit", "Fitbit"); ("apple_watch", "Apple Watch");
   ("google_fit", "Google Fit"); ("samsung_health", "Samsung Health");
   ("garmin", "Garmin"); ("withings", "Withings");
   ("manual", "Manual Entry")].

(** [getDeviceIcon] (lines 717-729). *)
Definition getDeviceIcon (deviceType : string) : JS.shown :=
  lookupOr deviceIcons deviceType "microchip".

(** [formatDeviceName] (lines 731-743). *)
Definition formatDeviceName (deviceType : string) : JS.shown :=
  lookupOr deviceNames deviceType (capitalize false (spaces deviceType)).

(** *** The symptom cards of [renderDashboard] (lines 872-889) *)

(** One card: the symptom, its severity badge, its notes
    ([s.notes || 'No notes.']) and the date shown. *)
Record symptom_card : Type := {
  card_symptom : JS.value;
  card_severity : JS.value;
  card_notes : JS.value;
  card_time : option Z
}.

Definition symptomCard (h : JS.host) (s : health_symptom) : symptom_card :=
  {| card_symptom := JS.to_value (symptom_field s);
     card_severity := severity_field s;
     card_notes := JS.or_else (notes s) (JS.VString "No notes.");
     card_time := JS.newDate h (datetime s) |}.

Inductive timeline_view : Type :=
| NoSymptomsYet
| Cards (cards : list symptom_card).

(** Lines 872-889: [data.symptoms || []] is sorted most recent first and
    mapped to cards; an empty array shows the message instead. *)
Definition symptomTimeline (h : JS.host) (symptoms : option (list health_symptom))
  : timeline_view :=
  let symptoms := match symptoms with Some l => l | None => [] end in
  match JS.sort (byDatetimeDesc h) symptoms with
  | [] => NoSymptomsYet
  | sorted => Cards (map (symptomCard h) sorted)
  end.

(** *** [handleAddSymptom] of the page script (lines 961-988) *)

Record quick_form : Type := {
  symptomName : string;
  quickSeverity : string;
  quickNotes : string
}.

Record quick_body : Type := {
  q_symptom : string;
  q_severity : string;
  q_notes : string;
  q_datetime : string
}.

(** [alerts] holds the messages shown with [alert]; [refreshes] counts the
    calls of [fetchData]. *)
Record quick_page : Type := {
  quick : quick_form;
  quick_defaults : quick_form;
  quick_modal_open : bool;
  alerts : list string;
  quick_console : list JS.log_entry;
  quick_requests : list (JS.request quick_body);
  refreshes : nat
}.

(** The form is posted as it is, with the current time [now]; the response
    is only tested for [ok] (its body is not read). *)
Definition handleAddSymptom {J} (now : string) (settle : JS.settled J)
  (p : quick_page) : quick_page :=
  let f := quick p in
  let sent :=
    quick_requests p
    ++ [{| JS.method := "POST"; JS.url := "/api/user/symptom";
           JS.body := Some {| q_symptom := symptomName f;
                              q_severity := quickSeverity f;
                              q_notes := quickNotes f;
                              q_datetime := now |} |}] in
  match settle with
  | JS.Response true _ _ =>
      {| quick := quick_defaults p; quick_defaults := quick_defaults p;
         quick_modal_open := false; alerts := alerts p;
         quick_console := quick_console p; quick_requests := sent;
         refreshes := S (refreshes p) |}
  | _ =>
      {| quick := quick p; quick_defaults := quick_defaults p;
         quick_modal_open := quick_modal_open p;
         alerts := alerts p ++ ["Could not add symptom. Please try again."];
         quick_console := quick_console p ++ [JS.Error "Error adding symptom:"];
         quick_requests := sent; refreshes := refreshes p |}
  end.

(** *** The hospital finder of the page script (lines 1026-1130) *)

Record hospital : Type := {
  hospital_name : string;
  hospital_address : string;
  hospital_lat : JS.number;
  hospital_lon : JS.number
}.

(** The text of an error: a literal of the code, or the message of an
    exception raised by the engine (a failed fetch, a body that is not JSON,
    a type error). *)
Inductive error_text : Type :=
| Literal (s : string)
| EngineMessage.

Inductive hospital_entry : Type :=
| HospitalLink (href name address : string)
| NoHospitals
| ErrorEntry (message : error_text).

(** The JSON body of the hospital response: an array of hospitals, or an
    object with an optional [error] field. *)
Inductive hospital_json : Type :=
| HospitalArray (hospitals : list hospital)
| ErrorObject (error : JS.optstr).

(** The button carries one of the three labels of the handler. *)
Inductive finder_label : Type :=
| FindNearbyHospitals
| FindingLocation
| FindingHospitals.

(** [map_center] is [None] until the map is created; [userMarker] and
    [hospitalMarkers] are the markers on the map. *)
Record finder : Type := {
  find_disabled : bool;
  find_label : finder_label;
  mapError : string;
  hospitalList : list hospital_entry;
  map_visible : bool;
  map_center : option (JS.number * JS.number);
  userMarker : option (JS.number * JS.number);
  hospitalMarkers : list (JS.number * JS.number * string);
  finder_console : list JS.log_entry
}.

(** [renderMap] (lines 1079-1094). *)
Definition renderMap (userLat userLon : JS.number) (f : finder) : finder :=
  {| find_disabled := find_disabled f; find_label := find_label f;
     mapError := mapError f; hospitalList := hospitalList f;
     map_visible := true;
     map_center := Some (userLat, userLon);
     userMarker := Some (userLat, userLon);
     hospitalMarkers := hospitalMarkers f;
     finder_console := finder_console f |}.

Definition googleMapsLink (hp : hospital) : string :=
  "https://www.google.com/maps/search/?api=1&query="
    +++ JS.encodeURIComponent (hospital_name hp +++ ", " +++ hospital_address hp).

(** [renderHospitalDetails] (lines 1097-1130) on an array: the old markers
    and the old list are dropped first. *)
Definition renderHospitalDetails (hospitals : list hospital) (f : finder) : finder :=
  {| find_disabled := find_disabled f; find_label := find_label f;
     mapError := mapError f;
     hospitalList :=
       match hospitals with
       | [] => [NoHospitals]
       | _ => map (fun hp => HospitalLink (googleMapsLink hp) (hospital_name hp)
                               (hospital_address hp))
                  hospitals
       end;
     map_visible := map_visible f; map_center := map_center f;
     userMarker := userMarker f;
     hospitalMarkers :=
       map (fun hp => (hospital_lat hp, hospital_lon hp, hospital_name hp))
           hospitals;
     finder_console := finder_console f |}.

Definition setFinder (disabled : bool) (label : finder_label) (f : finder) : finder :=
  {| find_disabled := disabled; find_label := label;
     mapError := mapError f; hospitalList := hospitalList f;
     map_visible := map_visible f; map_center := map_center f;
     userMarker := userMarker f; hospitalMarkers := hospitalMarkers f;
     finder_console := finder_console f |}.

Definition setMapError (message : string) (f : finder) : finder :=
  {| find_disabled := find_disabled f; find_label := find_label f;
     mapError := message; hospitalList := hospitalList f;
     map_visible := map_visible f; map_center := map_center f;
     userMarker := userMarker f; hospitalMarkers := hospitalMarkers f;
     finder_console := finder_console f |}.

Definition setHospitalList (l : list hospital_entry) (f : finder) : finder :=
  {| find_disabled := find_disabled f; find_label := find_label f;
     mapError := mapError f; hospitalList := l;
     map_visible := map_visible f; map_center := map_center f;
     userMarker := userMarker f; hospitalMarkers := hospitalMarkers f;
     finder_console := finder_console f |}.

Definition finderError (message : string) (f : finder) : finder :=
  {| find_disabled := find_disabled f; find_label := find_label f;
     mapError := mapError f; hospitalList := hospitalList f;
     map_visible := map_visible f; map_center := map_center f;
     userMarker := userMarker f; hospitalMarkers := hospitalMarkers f;
     finder_console := finder_console f ++ [JS.Error message] |}.

(** What the browser answers to the location request, and how the fetch
    settles once the position is known. *)
Inductive located : Type :=
| NoGeolocation
| PositionError
| Position (latitude longitude : JS.number) (settle : JS.settled hospital_json).

(** Lines 1047-1068: the [try] block, its [catch] and its [finally]. *)
Definition findHospitals (settle : JS.settled hospital_json) (f : finder) : finder :=
  let failed (message : error_text) (f : finder) :=
    setHospitalList [ErrorEntry message]
      (finderError "Error finding hospitals:" f) in
  let f :=
    match settle with
    | JS.Rejected => failed EngineMessage f
    | JS.Response _ _ None => failed EngineMessage f
    | JS.Response true _ (Some (HospitalArray hospitals)) =>
        renderHospitalDetails hospitals f
    | JS.Response true _ (Some (ErrorObject _)) =>
        failed EngineMessage
          (setHospitalList [] (* the list is emptied before [forEach] throws *)
             {| find_disabled := find_disabled f; find_label := find_label f;
                mapError := mapError f; hospitalList := hospitalList f;
                map_visible := map_visible f; map_center := map_center f;
                userMarker := userMarker f; hospitalMarkers := [];
                finder_console := finder_console f |})
    | JS.Response false _ (Some (ErrorObject e)) =>
        failed (Literal (if JS.present e then JS.to_key e
                         else "Failed to fetch hospital data.")) f
    | JS.Response false _ (Some (HospitalArray _)) =>
        failed (Literal "Failed to fetch hospital data.") f
    end in
  setFinder false FindNearbyHospitals f.

(** [handleFindHospitals] (lines 1026-1076). *)
Definition handleFindHospitals (answer : located) (f : finder) : finder :=
  let f := setFinder true FindingLocation f in
  let f := setHospitalList [] (setMapError "" f) in
  match answer with
  | NoGeolocation =>
      setFinder false FindNearbyHospitals
        (setMapError "Geolocation is not supported by your browser." f)
  | PositionError =>
      setFinder false FindNearbyHospitals
        (setMapError "Could not get your location. Please enable location services."
           (finderError "Geolocation error:" f))
  | Position latitude longitude settle =>
      findHospitals settle
        (setFinder (find_disabled f) FindingHospitals
           (renderMap latitude longitude f))
  end.

End HealthDashboard.

(** ** static/js/health_risk_predictor.js *)

Module HealthRiskPredictor.

(** The [riskClass] chain of [renderRiskAssessments] (lines 139-143). *)
Definition riskClass (risk_level : JS.value) : string :=
  let c := "secondary" in
  let c := if JS.is_string risk_level "low" then "success" else c in
  let c := if JS.is_string risk_level "moderate" then "warning" else c in
  let c := if JS.is_string risk_level "high" then "danger" else c in
  let c := if JS.is_string risk_level "critical" then "dark" else c in
  c.

(** *** [renderRiskAssessments] (lines 73-208) *)

Record risk_factor : Type := {
  factor_name : JS.value;
  impact : JS.value
}.

Record assessment : Type := {
  assessment_date : JS.optstr;
  disease_name : JS.value;
  risk_level : JS.value;
  risk_score : JS.value;
  risk_factors : list risk_factor;
  recommendations : JS.value;
  model_version : JS.value
}.

(** Line 104: the group key of an assessment.  [toLocaleDateString] does not
    throw on an invalid date, it answers "Invalid Date"; and the key, a day
    string printed by the host, names no inherited member, so that the
    [push] of line 110 does not throw either: the [catch] of lines 111-113
    is never entered. *)
Definition dateKey (h : JS.host) (a : assessment) : string :=
  JS.toLocaleDateString h (JS.newDate h (assessment_date a)).

Definition missingDate : JS.log_entry :=
  JS.Warn "Assessment missing assessment_date:".

(** Lines 95-114: the console and the groups after one assessment. *)
Definition groupStep (h : JS.host)
  (st : list JS.log_entry * JS.obj assessment) (a : assessment)
  : list JS.log_entry * JS.obj assessment :=
  if negb (JS.present (assessment_date a))
  then (fst st ++ [missingDate], snd st)
  else let k := dateKey h a in
       (fst st, JS.append (JS.ensure (snd st) k) k a).

Definition groupedAssessments (h : JS.host) (assessments : list assessment)
  : list JS.log_entry * JS.obj assessment :=
  fold_left (groupStep h) assessments ([], []).

(** The comparator of lines 117-119. *)
Definition byDateDesc (h : JS.host) (a b : string) : option Z :=
  JS.date_diff (JS.parseDate h b) (JS.parseDate h a).

Inductive view : Type :=
| NoContainer
| NoAssessments
| Groups (groups : list (string * list assessment)).

(** [renderRiskAssessments]: what is written to the console (the counts
    interpolated into the messages are left out) and what the container
    shows. *)
Definition renderRiskAssessments (h : JS.host) (container : bool)
  (assessments : option (list assessment)) : list JS.log_entry * view :=
  if negb container
  then ([JS.Error "riskAssessmentsContainer element not found"], NoContainer)
  else match assessments with
       | None | Some [] => ([JS.Log "No risk assessments found"], NoAssessments)
       | Some l =>
           let g := groupedAssessments h l in
           let sortedDates := JS.sort (byDateDesc h) (JS.keys (snd g)) in
           ([JS.Log "Rendering risk assessments"] ++ fst g
              ++ [JS.Log "Grouped assessments by dates"],
            Groups (map (fun d => (d, match JS.get (snd g) d with
                                      | Some l => l
                                      | None => []
                                      end))
                        sortedDates))
       end.

(** *** [predictRisks] (lines 211-269) *)

Record button : Type := {
  innerHTML : list JS.html;
  disabled : bool
}.

(** The checked value of each radio group of the lifestyle form. *)
Record lifestyle : Type := {
  smoking : option string;
  physical_activity : option string;
  sodium : option string;
  stress : option string;
  sleep : option string;
  alcohol : option string
}.

Record factors : Type := {
  f_smoking : string;
  f_physical_activity : string;
  f_high_sodium_diet : string;
  f_stress_level : string;
  f_sleep_quality : string;
  f_alcohol_consumption : string
}.

(** [riskAssessmentsContainer] is [None] when the element is absent, else
    its content. *)
Record page : Type := {
  riskPredictBtn : button;
  lifestyleForm : lifestyle;
  riskAssessmentsContainer : option (list JS.html);
  notifications : list (string * string);
  console : list JS.log_entry;
  requests : list (JS.request factors)
}.

Definition analyzing : list JS.html :=
  [JS.Elem "span" "spinner-border spinner-border-sm" [];
   JS.Text " Analyzing..."].

Definition loadingAssessments : list JS.html :=
  [JS.Elem "div" "text-center p-4"
     [JS.Elem "div" "spinner-border text-primary" [];
      JS.Elem "p" "mt-2" [JS.Text "Loading risk assessments..."]]].

Definition setButton (b : button) (p : page) : page :=
  {| riskPredictBtn := b; lifestyleForm := lifestyleForm p;
     riskAssessmentsContainer := riskAssessmentsContainer p;
     notifications := notifications p; console := console p;
     requests := requests p |}.

Definition showNotification (message type : string) (p : page) : page :=
  {| riskPredictBtn := riskPredictBtn p; lifestyleForm := lifestyleForm p;
     riskAssessmentsContainer := riskAssessmentsContainer p;
     notifications := notifications p ++ [(message, type)];
     console := console p ++ [JS.Log "Showing notification"];
     requests := requests p |}.

Definition log (e : JS.log_entry) (p : page) : page :=
  {| riskPredictBtn := riskPredictBtn p; lifestyleForm := lifestyleForm p;
     riskAssessmentsContainer := riskAssessmentsContainer p;
     notifications := notifications p; console := console p ++ [e];
     requests := requests p |}.

Definition fetch (r : JS.request factors) (p : page) : page :=
  {| riskPredictBtn := riskPredictBtn p; lifestyleForm := lifestyleForm p;
     riskAssessmentsContainer := riskAssessmentsContainer p;
     notifications := notifications p; console := console p;
     requests := requests p ++ [r] |}.

(** [fetchRiskAssessments] (lines 47-70), up to the issued request; [None]
    when writing to the absent container throws. *)
Definition fetchRiskAssessments (userId : string) (p : page) : option page :=
  match riskAssessmentsContainer p with
  | None => None
  | Some _ =>
      let p :=
        {| riskPredictBtn := riskPredictBtn p; lifestyleForm := lifestyleForm p;
           riskAssessmentsContainer := Some loadingAssessments;
           notifications := notifications p; console := console p;
           requests := requests p |} in
      Some (fetch {| JS.method := "GET";
                     JS.url := "/api/users/" +++ userId +++ "/risk-assessments";
                     JS.body := None |}
                  (log (JS.Log "Fetching risk assessments") p))
  end.

(** Lines 212-238: the button shows the spinner and is disabled, then the
    POST is issued. *)
Definition predictRisks_begin (userId : string) (p : page) : page :=
  let p := setButton {| innerHTML := analyzing; disabled := true |} p in
  let l := lifestyleForm p in
  let p := log (JS.Log "Sending risk prediction request") p in
  let p := log (JS.Log "Lifestyle factors:") p in
  fetch {| JS.method := "POST";
           JS.url := "/api/users/" +++ userId +++ "/predict-health-risks";
           JS.body :=
             Some {| f_smoking := JS.or_default (smoking l) "no";
                     f_physical_activity :=
                       JS.or_default (physical_activity l) "moderate";
                     f_high_sodium_diet := JS.or_default (sodium l) "no";
                     f_stress_level := JS.or_default (stress l) "moderate";
                     f_sleep_quality := JS.or_default (sleep l) "good";
                     f_alcohol_consumption :=
                       JS.or_default (alcohol l) "moderate" |} |} p.

(** Lines 261-268: the [catch] handler. *)
Definition predictionFailed (originalText : list JS.html) (p : page) : page :=
  let p := log (JS.Error "Error predicting health risks:") p in
  let p := showNotification
             "Error performing risk assessment. Please try again." "error" p in
  setButton {| innerHTML := originalText; disabled := false |} p.

(** Lines 246-260: the success handler; an exception in it (the container is
    absent) is caught by the same [catch]. *)
Definition predictionDone (userId : string) (originalText : list JS.html)
  (p : page) : page :=
  let p := log (JS.Log "Prediction result:") p in
  let p := showNotification
             "Health risk assessment completed successfully" "success" p in
  let p := setButton {| innerHTML := originalText; disabled := false |} p in
  match fetchRiskAssessments userId p with
  | Some p' => p'
  | None => predictionFailed originalText p
  end.

(** [predictRisks], from the click to the settlement of the POST. *)
Definition predictRisks {J} (userId : string) (settle : JS.settled J)
  (p : page) : page :=
  let originalText := innerHTML (riskPredictBtn p) in
  let p := predictRisks_begin userId p in
  let p := match settle with
           | JS.Response _ _ _ => log (JS.Log "Prediction response status:") p
           | JS.Rejected => p
           end in
  match JS.unwrap settle with
  | Some _ => predictionDone userId originalText p
  | None => predictionFailed originalText p
  end.

End HealthRiskPredictor.

(** ** static/js/symptom_timeline.js *)

Module SymptomTimeline.

(** [getSeverityClass] (lines 545-549). *)
Definition getSeverityClass (severity : JS.number) : string :=
  if JS.le severity (JS.of_Z 3) then "success"
  else if JS.le severity (JS.of_Z 6) then "warning"
  else "danger".

(** *** The timeline payload *)

Record point : Type := {
  x : string;
  y : option JS.number;
  record_id : JS.value;
  notes : JS.value
}.

(** [data] is [None] when the field is absent; an entry of the array is
    [None] when it is [null]. *)
Record dataset : Type := {
  label : string;
  symptom_category : JS.optstr;
  data : option (list (option point))
}.

(** [data.datasets]: absent (or falsy), a value that is not an array, or an
    array. *)
Inductive datasets_field : Type :=
| NoDatasets
| NotAnArray
| Datasets (l : list dataset).

Record timeline_data : Type := {
  labels : option (list string);
  datasets : datasets_field
}.

(** [point && point.y > 0] (line 201). *)
Definition positive (p : option point) : bool :=
  match p with
  | Some pt =>
      match y pt with
      | Some n => JS.gt n (JS.of_Z 0)
      | None => false
      end
  | None => false
  end.

(** [dataset.data && dataset.data.some(point => point && point.y > 0)]. *)
Definition hasPositive (d : dataset) : bool :=
  match data d with
  | Some pts => existsb positive pts
  | None => false
  end.

(** Lines 200-202: the datasets bound to the chart. *)
Definition chartDatasets (f : datasets_field) : list dataset :=
  match f with
  | Datasets l => filter hasPositive l
  | _ => []
  end.

(** *** [renderTimeline] (lines 168-282) *)

(** What [container.getContext('2d')] does (lines 175-183): it throws (the
    element is not a canvas), or it answers [null] or a context.  Only the
    exception is caught; [null] is not tested. *)
Inductive context_answer : Type :=
| ContextThrows
| NullContext
| Context2d.

(** The canvas: whether the element exists, and what [getContext] does. *)
Record canvas : Type := {
  container_present : bool;
  getContext : context_answer
}.

(** The canvas gives a drawing context. *)
Definition context_available (c : canvas) : bool :=
  match getContext c with
  | Context2d => true
  | _ => false
  end.

(** [Chart]: [new Chart(ctx, config)] is called (line 274); [with_context]
    tells whether [ctx] is a context ([true]) or [null]. *)
Inductive view : Type :=
| NotRendered
| CanvasUnavailable
| InvalidData
| NoData
| Chart (with_context : bool) (chart_labels : list string)
        (chart_datasets : list dataset) (height : Z).

Definition renderTimeline (c : canvas) (d : option timeline_data) : view :=
  if negb (container_present c) then NotRendered
  else match getContext c with
       | ContextThrows => CanvasUnavailable
       | _ =>
           match d with
           | None => InvalidData
           | Some d =>
               match labels d, datasets d with
               | None, _ => InvalidData
               | Some _, NoDatasets => InvalidData
               | Some ls, f =>
                   let ds := chartDatasets f in
                   match ds with
                   | [] => NoData
                   | _ => Chart (context_available c) ls ds
                            (Z.max 400 (Z.of_nat (List.length ds) * 50))
                   end
               end
           end
       end.

(** The datasets the chart is created with, if it is created. *)
Definition boundDatasets (v : view) : list dataset :=
  match v with
  | Chart _ _ ds _ => ds
  | _ => []
  end.

(** *** [updateSymptomsList] (lines 285-377) *)

(** [dataset.data.some(point => point.y > 0)] (line 309), without the guards
    of [renderTimeline]: [None] when reading [y] of a [null] entry throws.
    [some] stops at the first hit. *)
Fixpoint someAbove (pts : list (option point)) : option bool :=
  match pts with
  | [] => Some false
  | None :: _ => None
  | Some pt :: rest =>
      if positive (Some pt) then Some true else someAbove rest
  end.

Definition category (d : dataset) : string :=
  if JS.present (symptom_category d) then JS.to_key (symptom_category d)
  else "Uncategorized".

(** Lines 300-312: [None] when an exception escapes the loop.  For a
    category that names an inherited member the guard of line 304 reads that
    member, no array is created, and the [push] of line 310 throws. *)
Fixpoint categories (o : JS.obj dataset) (ds : list dataset)
  : option (JS.obj dataset) :=
  match ds with
  | [] => Some o
  | d :: rest =>
      let k := category d in
      let o := if JS.inherited k then o else JS.ensure o k in
      match data d with
      | None => None
      | Some pts =>
          match someAbove pts with
          | None => None
          | Some true =>
              if JS.inherited k then None
              else categories (JS.append o k d) rest
          | Some false => categories o rest
          end
      end
  end.

(** *** [fetchTimelineData] (lines 110-165) and [saveSymptomRecord]
    (lines 444-508) *)

Record symptom_form : Type := {
  symptomId : string;
  symptomSeverity : string;
  symptomNotes : string;
  symptomDatetime : string;
  medicationTaken : string;
  doctorVisited : bool
}.

Record record_body : Type := {
  symptom_id : JS.number;
  severity : JS.number;
  body_notes : string;
  medication_taken : string;
  doctor_visited : bool;
  recorded_at : option string
}.

(** A filter input is [None] when its element is absent.  [container] is
    [None] when the timeline element is absent, else whether it shows the
    loading state.  [notifications] holds the calls of [showNotification]. *)
Record page : Type := {
  userId : string;
  timelineStartDate : option string;
  timelineEndDate : option string;
  container : option bool;
  form : symptom_form;
  form_defaults : symptom_form;
  form_visible : bool;
  notifications : list (string * string);
  console : list JS.log_entry;
  requests : list (JS.request record_body);
  uncaught : nat
}.

Definition showNotification (message type : string) (p : page) : page :=
  {| userId := userId p; timelineStartDate := timelineStartDate p;
     timelineEndDate := timelineEndDate p; container := container p;
     form := form p; form_defaults := form_defaults p;
     form_visible := form_visible p;
     notifications := notifications p ++ [(message, type)];
     console := console p; requests := requests p; uncaught := uncaught p |}.

Definition log (e : JS.log_entry) (p : page) : page :=
  {| userId := userId p; timelineStartDate := timelineStartDate p;
     timelineEndDate := timelineEndDate p; container := container p;
     form := form p; form_defaults := form_defaults p;
     form_visible := form_visible p; notifications := notifications p;
     console := console p ++ [e]; requests := requests p;
     uncaught := uncaught p |}.

Definition fetch (r : JS.request record_body) (p : page) : page :=
  {| userId := userId p; timelineStartDate := timelineStartDate p;
     timelineEndDate := timelineEndDate p; container := container p;
     form := form p; form_defaults := form_defaults p;
     form_visible := form_visible p; notifications := notifications p;
     console := console p; requests := requests p ++ [r];
     uncaught := uncaught p |}.

Definition throw (p : page) : page :=
  {| userId := userId p; timelineStartDate := timelineStartDate p;
     timelineEndDate := timelineEndDate p; container := container p;
     form := form p; form_defaults := form_defaults p;
     form_visible := form_visible p; notifications := notifications p;
     console := console p; requests := requests p;
     uncaught := S (uncaught p) |}.

(** Lines 135-138: the pairs appended to the [URLSearchParams]; an absent
    element leaves its bound [undefined], an empty value is falsy. *)
Definition timelineParams (startDate endDate : option string)
  : list (string * string) :=
  (match startDate with
   | Some s => if String.eqb s "" then [] else [("start_date", s)]
   | None => []
   end)
  ++ (match endDate with
      | Some s => if String.eqb s "" then [] else [("end_date", s)]
      | None => []
      end).

(** Lines 134-142. *)
Definition timelineUrl (user : string) (startDate endDate : option string)
  : string :=
  let q := JS.serialize (timelineParams startDate endDate) in
  "/api/users/" +++ user +++ "/timeline"
    +++ (if String.eqb q "" then "" else "?" +++ q).

(** [fetchTimelineData], up to the issued request. *)
Definition fetchTimelineData (p : page) : page :=
  match container p with
  | None => log (JS.Error "Timeline container not found") p
  | Some _ =>
      let p :=
        {| userId := userId p; timelineStartDate := timelineStartDate p;
           timelineEndDate := timelineEndDate p; container := Some true;
           form := form p; form_defaults := form_defaults p;
           form_visible := form_visible p; notifications := notifications p;
           console := console p; requests := requests p;
           uncaught := uncaught p |} in
      fetch {| JS.method := "GET";
               JS.url := timelineUrl (userId p) (timelineStartDate p)
                           (timelineEndDate p);
               JS.body := None |}
            (log (JS.Log "Fetching timeline data") p)
  end.

(** Lines 453-462: the message of the validation that rejects the form.  The
    comparisons convert the field text to a number. *)
Definition validateSymptom (h : JS.host) (f : symptom_form) : option string :=
  if String.eqb (symptomId f) "" then Some "Please select a symptom"
  else if String.eqb (symptomSeverity f) ""
          || JS.lt (JS.toNumber h (symptomSeverity f)) (JS.of_Z 1)
          || JS.gt (JS.toNumber h (symptomSeverity f)) (JS.of_Z 10)
       then Some "Please enter a severity between 1-10"
       else None.

(** Lines 491-503: the success handler. *)
Definition symptomSaved (p : page) : page :=
  let p :=
    {| userId := userId p; timelineStartDate := timelineStartDate p;
       timelineEndDate := timelineEndDate p; container := container p;
       form := form_defaults p; form_defaults := form_defaults p;
       form_visible := false; notifications := notifications p;
       console := console p; requests := requests p;
       uncaught := uncaught p |} in
  fetchTimelineData
    (showNotification "Symptom recorded successfully" "success" p).

(** Lines 504-507: the [catch] handler. *)
Definition symptomFailed (p : page) : page :=
  showNotification "Error saving symptom record. Please try again." "error"
    (log (JS.Error "Error saving symptom record:") p).

(** [saveSymptomRecord]: the synchronous part, then the settlement of the
    POST. *)
Definition saveSymptomRecord {J} (h : JS.host) (settle : JS.settled J)
  (p : page) : page :=
  let f := form p in
  match validateSymptom h f with
  | Some message => showNotification message "error" p
  | None =>
      let send (stamp : option string) :=
        let p :=
          fetch {| JS.method := "POST";
                   JS.url := "/api/users/" +++ userId p +++ "/symptoms";
                   JS.body :=
                     Some {| symptom_id := JS.parseInt h (JS.VString (symptomId f));
                             severity :=
                               JS.parseInt h (JS.VString (symptomSeverity f));
                             body_notes := symptomNotes f;
                             medication_taken := medicationTaken f;
                             doctor_visited := doctorVisited f;
                             recorded_at := stamp |} |} p in
        match JS.unwrap settle with
        | Some _ => symptomSaved p
        | None => symptomFailed p
        end in
      if String.eqb (symptomDatetime f) "" then send None
      else match JS.parseDate h (symptomDatetime f) with
           | Some t => send (Some (JS.isoString h t))
           | None => throw p
           end
  end.

(** *** The list of [updateSymptomsList] (lines 314-376) *)

(** The first entry with [y > 0]; [None] when reading [y] of a [null] entry
    throws before one is found, [Some None] when there is none. *)
Fixpoint firstAbove (pts : list (option point)) : option (option point) :=
  match pts with
  | [] => Some None
  | None :: _ => None
  | Some pt :: rest =>
      if positive (Some pt) then Some (Some pt) else firstAbove rest
  end.

(** Lines 331-337: the loop runs from the last entry down to the first. *)
Definition lastRecord (pts : list (option point)) : option (option point) :=
  firstAbove (rev pts).

(** One entry of the list: the dataset label, the record it opens, the badge
    class and text, and the [x] of the record (shown as a locale date). *)
Record list_item : Type := {
  item_label : string;
  item_record : JS.value;
  item_class : string;
  item_severity : option JS.number;
  item_date : string
}.

Definition listItem (d : dataset) (pt : point) : list_item :=
  {| item_label := label d;
     item_record := record_id pt;
     item_class := match y pt with
                   | Some n => getSeverityClass n
                   | None => "danger"
                   end;
     item_severity := y pt;
     item_date := x pt |}.

(** Lines 329-372: the items of one category; [None] when an exception
    escapes. *)
Fixpoint listItems (ds : list dataset) : option (list list_item) :=
  match ds with
  | [] => Some []
  | d :: rest =>
      match data d with
      | None => None
      | Some pts =>
          match lastRecord pts with
          | None => None
          | Some found =>
              match listItems rest with
              | None => None
              | Some items =>
                  Some (match found with
                        | Some pt => listItem d pt :: items
                        | None => items
                        end)
              end
          end
      end
  end.

(** Lines 315-376: one group per category that has datasets. *)
Fixpoint categoryGroups (es : list (string * list dataset))
  : option (list (string * list list_item)) :=
  match es with
  | [] => Some []
  | (c, ds) :: rest =>
      match ds with
      | [] => categoryGroups rest
      | _ =>
          match listItems ds with
          | None => None
          | Some items =>
              match categoryGroups rest with
              | None => None
              | Some groups => Some ((c, items) :: groups)
              end
          end
      end
  end.

Inductive symptoms_list : Type :=
| NoSymptomsRecorded
| Listed (groups : list (string * list list_item))
| ListThrew.

(** [updateSymptomsList], the list container being on the page. *)
Definition updateSymptomsList (d : option timeline_data) : symptoms_list :=
  match d with
  | None => NoSymptomsRecorded
  | Some d =>
      match datasets d with
      | Datasets (d0 :: ds) =>
          match categories [] (d0 :: ds) with
          | None => ListThrew
          | Some o =>
              match categoryGroups (JS.entries o) with
              | None => ListThrew
              | Some groups => Listed groups
              end
          end
      | _ => NoSymptomsRecorded
      end
  end.

(** *** The script after the module (lines 609-646) *)

(** One symptom of the [/api/user/health] payload, as the list prints it. *)
Record health_entry : Type := {
  entry_datetime : JS.value;
  entry_symptom : JS.value;
  entry_severity : JS.value;
  entry_notes : JS.value
}.

(** The JSON object of [/api/user/health]: its [error] field and its
    [symptoms] array, [None] when the field is absent. *)
Record health_json : Type := {
  health_error : JS.value;
  health_symptoms : option (list health_entry)
}.

(** What [#symptomTimeline] shows. *)
Inductive timeline_list : Type :=
| ErrorLoading
| NoneRecorded
| Entries (entries : list health_entry).

(** [loadSymptomTimeline] (lines 609-631): the status of the response is
    not tested; a rejected fetch or a body that is not JSON is caught. *)
Definition loadSymptomTimeline (settle : JS.settled health_json) : timeline_list :=
  match settle with
  | JS.Response _ _ (Some data) =>
      if JS.truthy (health_error data) then ErrorLoading
      else match health_symptoms data with
           | None | Some [] => NoneRecorded
           | Some l => Entries l
           end
  | _ => ErrorLoading
  end.

(** The four inputs of the quick entry and the body posted from them. *)
Record entry_inputs : Type := {
  symptomInput : string;
  severityInput : string;
  notesInput : string;
  datetimeInput : string
}.

(** [timeline] is the content of [#symptomTimeline]; [unhandled] counts the
    promise rejections that no handler receives.  The script has no other
    means of telling the user anything. *)
Record script_page : Type := {
  inputs : entry_inputs;
  timeline : timeline_list;
  script_requests : list (JS.request entry_inputs);
  unhandled : nat
}.

(** The click handler of [#addSymptomBtn] (lines 633-644): [post] is how the
    POST settles, [reload] how the GET of [loadSymptomTimeline] does.  The
    POST is awaited without [try], and its response is not looked at. *)
Definition addSymptomClick {J} (post : JS.settled J)
  (reload : JS.settled health_json) (p : script_page) : script_page :=
  let sent :=
    script_requests p
    ++ [{| JS.method := "POST"; JS.url := "/api/user/symptom";
           JS.body := Some (inputs p) |}] in
  match post with
  | JS.Rejected =>
      {| inputs := inputs p; timeline := timeline p;
         script_requests := sent; unhandled := S (unhandled p) |}
  | JS.Response _ _ _ =>
      {| inputs := inputs p; timeline := loadSymptomTimeline reload;
         script_requests :=
           sent ++ [{| JS.method := "GET"; JS.url := "/api/user/health";
                       JS.body := None |}];
         unhandled := unhandled p |}
  end.

End SymptomTimeline.

(** ** static/js/family_profiles.js *)

Module FamilyProfiles.

(** [getSeverityClass] (lines 381-385). *)
Definition getSeverityClass (severity : JS.number) : string :=
  if JS.le severity (JS.of_Z 3) then "success"
  else if JS.le severity (JS.of_Z 6) then "warning"
  else "danger".

(** The [riskClass] chain of [renderFamilyMembers] (lines 83-87): the initial
    value is 'success' and there is no test for 'low'. *)
Definition riskClass (risk_level : JS.value) : string :=
  let c := "success" in
  let c := if JS.is_string risk_level "moderate" then "warning" else c in
  let c := if JS.is_string risk_level "high" then "danger" else c in
  let c := if JS.is_string risk_level "critical" then "dark" else c in
  c.

(** *** [renderFamilyMembers] (lines 55-150) *)

Record risk : Type := {
  risk_level : JS.value;
  disease : JS.value
}.

Record recent_symptom : Type := {
  severity : JS.number;
  symptom_name : JS.value;
  date : JS.value
}.

(** [recent_symptoms] is [None] when the field is absent. *)
Record summary : Type := {
  bmi : JS.value;
  bmi_category : JS.value;
  latest_risk_assessment : option risk;
  recent_symptoms : option (list recent_symptom)
}.

Record member : Type := {
  user_id : JS.value;
  name : JS.value;
  relationship : JS.value;
  access_level : JS.value;
  age : JS.value;
  gender : JS.value;
  health_summary : option summary
}.

(** Lines 80-95. *)
Definition healthStatus (m : member) : list JS.html :=
  match health_summary m with
  | Some hs =>
      match latest_risk_assessment hs with
      | Some r =>
          [JS.Elem "div" "mt-2"
             [JS.Elem "span" ("badge bg-" +++ riskClass (risk_level r))
                [JS.Show (risk_level r); JS.Text " risk"];
              JS.Elem "small" "text-muted ms-1" [JS.Show (disease r)]]]
      | None => []
      end
  | None => []
  end.

(** Lines 98-113. *)
Definition symptomsHtml (m : member) : list JS.html :=
  match health_summary m with
  | Some hs =>
      match recent_symptoms hs with
      | Some (s :: rest) =>
          [JS.Elem "div" "mt-2 small"
             [JS.Elem "strong" "" [JS.Text "Recent symptoms:"];
              JS.Elem "ul" "list-unstyled ms-1 mb-0"
                (map (fun s =>
                        JS.Elem "li" ""
                          [JS.Elem "span"
                             ("badge bg-" +++ getSeverityClass (severity s))
                             [JS.Show (JS.VNumber (severity s))];
                           JS.Show (symptom_name s); JS.Text " (";
                           JS.Show (date s); JS.Text ")"])
                     (s :: rest))]]
      | _ => []
      end
  | None => []
  end.

Definition isSelf (m : member) : bool := JS.is_string (relationship m) "self".

(** Lines 116-146: the card of one member. *)
Definition memberCard (m : member) : JS.html :=
  JS.Elem "div" "col-md-6 col-lg-4 mb-3"
    [JS.Elem "div" ("card h-100 " +++ (if isSelf m then "border-primary" else ""))
       [JS.Elem "div" "card-body"
          ([JS.Elem "div" "d-flex justify-content-between"
              (JS.Elem "h6" "card-title"
                 (if JS.truthy (name m) then [JS.Show (name m)]
                  else [JS.Text "User "; JS.Show (user_id m)])
               :: (if isSelf m then []
                   else [JS.Elem "span" "badge bg-info"
                           [JS.Show (relationship m)]]));
            JS.Elem "div" "mt-2 small"
              ([JS.Elem "div" ""
                  [JS.Elem "strong" "" [JS.Text "Age:"];
                   JS.Show (JS.or_else (age m) (JS.VString "N/A"))];
                JS.Elem "div" ""
                  [JS.Elem "strong" "" [JS.Text "Gender:"];
                   JS.Show (JS.or_else (gender m) (JS.VString "N/A"))]]
               ++ match health_summary m with
                  | Some hs =>
                      if JS.truthy (bmi hs)
                      then [JS.Elem "div" ""
                              [JS.Elem "strong" "" [JS.Text "BMI:"];
                               JS.Show (bmi hs); JS.Text " (";
                               JS.Show (JS.or_else (bmi_category hs)
                                          (JS.VString "N/A"));
                               JS.Text ")"]]
                      else []
                  | None => []
                  end)]
           ++ healthStatus m
           ++ (if JS.is_string (access_level m) "full" then symptomsHtml m
               else [])
           ++ (if isSelf m then []
               else [JS.Elem "div" "mt-3"
                       [JS.Elem "small" "text-muted"
                          [JS.Text "Access level: ";
                           JS.Show (access_level m)]]]))]].

(** The cards appended to [familyMembersContainer]: none for a missing or
    empty array; a member without a user id is skipped (line 75). *)
Definition renderFamilyMembers (members : option (list member)) : list JS.html :=
  match members with
  | None => []
  | Some l => map memberCard (filter (fun m => JS.truthy (user_id m)) l)
  end.

(** The same member with another [recent_symptoms] field. *)
Definition withRecentSymptoms (m : member)
  (symptoms : option (list recent_symptom)) : member :=
  {| user_id := user_id m; name := name m; relationship := relationship m;
     access_level := access_level m; age := age m; gender := gender m;
     health_summary :=
       match health_summary m with
       | Some hs =>
           Some {| bmi := bmi hs; bmi_category := bmi_category hs;
                   latest_risk_assessment := latest_risk_assessment hs;
                   recent_symptoms := symptoms |}
       | None => None
       end |}.

(** *** [formatRelationship] (lines 363-379) *)

Definition relationshipLabels : list (string * string) :=
  [("mother", "Mother"); ("father", "Father"); ("sister", "Sister");
   ("brother", "Brother"); ("daughter", "Daughter"); ("son", "Son");
   ("grandmother", "Grandmother"); ("grandfather", "Grandfather");
   ("aunt", "Aunt"); ("uncle", "Uncle"); ("cousin", "Cousin")].

Definition formatRelationship (relationship : string) : JS.shown :=
  HealthDashboard.lookupOr relationshipLabels relationship
    (HealthDashboard.capitalize false relationship).

(** *** [renderFamilyHealthHistory] (lines 153-206) *)

Record history_entry : Type := {
  condition : JS.value;
  age_at_diagnosis : JS.value;
  entry_notes : JS.value
}.

(** The content of [familyHistoryContainer]: the placeholder, or one section
    per relationship, with its heading and its conditions. *)
Inductive history_view : Type :=
| NoHistory
| History (sections : list (JS.shown * list history_entry)).

(** [history] is [None] when the payload has no such field. *)
Definition renderFamilyHealthHistory (history : option (JS.obj history_entry))
  : history_view :=
  match history with
  | None => NoHistory
  | Some o =>
      match JS.keys o with
      | [] => NoHistory
      | _ => History (map (fun e => (formatRelationship (fst e), snd e))
                          (JS.entries o))
      end
  end.

(** *** [saveFamilyMember] (lines 244-298) and [saveHealthHistory]
    (lines 301-360) *)

Record member_form : Type := {
  relativeId : string;
  relationshipType : string;
  accessLevel : string
}.

Record history_form : Type := {
  conditionName : string;
  historyRelationship : string;
  ageAtDiagnosis : string;
  historyNotes : string
}.

Inductive family_body : Type :=
| MemberBody (relative_id : JS.number) (relationship_type access_level : string)
| HistoryBody (condition_name relationship : string)
              (age : option JS.number) (notes : string).

(** [notifications] holds the calls of [showNotification]; [loading] tells
    whether the container shows the spinner of [fetchFamilyDashboard]. *)
Record page : Type := {
  memberForm : member_form;
  memberForm_defaults : member_form;
  memberModal_open : bool;
  historyForm : history_form;
  historyForm_defaults : history_form;
  historyModal_open : bool;
  loading : bool;
  notifications : list (string * string);
  console : list JS.log_entry;
  requests : list (JS.request family_body)
}.

Definition showNotification (message type : string) (p : page) : page :=
  {| memberForm := memberForm p; memberForm_defaults := memberForm_defaults p;
     memberModal_open := memberModal_open p;
     historyForm := historyForm p;
     historyForm_defaults := historyForm_defaults p;
     historyModal_open := historyModal_open p; loading := loading p;
     notifications := notifications p ++ [(message, type)];
     console := console p; requests := requests p |}.

Definition logError (message : string) (p : page) : page :=
  {| memberForm := memberForm p; memberForm_defaults := memberForm_defaults p;
     memberModal_open := memberModal_open p;
     historyForm := historyForm p;
     historyForm_defaults := historyForm_defaults p;
     historyModal_open := historyModal_open p; loading := loading p;
     notifications := notifications p;
     console := console p ++ [JS.Error message]; requests := requests p |}.

Definition fetch (r : JS.request family_body) (p : page) : page :=
  {| memberForm := memberForm p; memberForm_defaults := memberForm_defaults p;
     memberModal_open := memberModal_open p;
     historyForm := historyForm p;
     historyForm_defaults := historyForm_defaults p;
     historyModal_open := historyModal_open p; loading := loading p;
     notifications := notifications p; console := console p;
     requests := requests p ++ [r] |}.

(** [fetchFamilyDashboard] (lines 26-40), up to the issued request. *)
Definition fetchFamilyDashboard (userId : string) (p : page) : page :=
  fetch {| JS.method := "GET";
           JS.url := "/api/users/" +++ userId +++ "/family-dashboard";
           JS.body := None |}
    {| memberForm := memberForm p; memberForm_defaults := memberForm_defaults p;
       memberModal_open := memberModal_open p;
       historyForm := historyForm p;
       historyForm_defaults := historyForm_defaults p;
       historyModal_open := historyModal_open p; loading := true;
       notifications := notifications p; console := console p;
       requests := requests p |}.

(** Lines 249-258. *)
Definition validateMember (f : member_form) : option string :=
  if String.eqb (relativeId f) "" then Some "Please select a family member"
  else if String.eqb (relationshipType f) ""
       then Some "Please select a relationship type"
       else None.

(** Lines 307-316. *)
Definition validateHistory (f : history_form) : option string :=
  if String.eqb (conditionName f) "" then Some "Please enter a condition name"
  else if String.eqb (historyRelationship f) ""
       then Some "Please select a relationship"
       else None.

Definition saveFamilyMember {J} (h : JS.host) (userId : string)
  (settle : JS.settled J) (p : page) : page :=
  let f := memberForm p in
  match validateMember f with
  | Some message => showNotification message "error" p
  | None =>
      let p :=
        fetch {| JS.method := "POST";
                 JS.url := "/api/users/" +++ userId +++ "/family-members";
                 JS.body := Some (MemberBody (JS.parseInt h (JS.VString (relativeId f)))
                                    (relationshipType f) (accessLevel f)) |} p in
      match JS.unwrap settle with
      | Some _ =>
          fetchFamilyDashboard userId
            (showNotification "Family member added successfully" "success"
               {| memberForm := memberForm_defaults p;
                  memberForm_defaults := memberForm_defaults p;
                  memberModal_open := false;
                  historyForm := historyForm p;
                  historyForm_defaults := historyForm_defaults p;
                  historyModal_open := historyModal_open p;
                  loading := loading p;
                  notifications := notifications p; console := console p;
                  requests := requests p |})
      | None =>
          showNotification "Error adding family member. Please try again." "error"
            (logError "Error adding family member:" p)
      end
  end.

Definition saveHealthHistory {J} (h : JS.host) (userId : string)
  (settle : JS.settled J) (p : page) : page :=
  let f := historyForm p in
  match validateHistory f with
  | Some message => showNotification message "error" p
  | None =>
      let p :=
        fetch {| JS.method := "POST";
                 JS.url := "/api/users/" +++ userId +++ "/family-history";
                 JS.body :=
                   Some (HistoryBody (conditionName f) (historyRelationship f)
                           (if String.eqb (ageAtDiagnosis f) "" then None
                            else Some (JS.parseInt h (JS.VString (ageAtDiagnosis f))))
                           (historyNotes f)) |} p in
      match JS.unwrap settle with
      | Some _ =>
          fetchFamilyDashboard userId
            (showNotification "Family health history added successfully" "success"
               {| memberForm := memberForm p;
                  memberForm_defaults := memberForm_defaults p;
                  memberModal_open := memberModal_open p;
                  historyForm := historyForm_defaults p;
                  historyForm_defaults := historyForm_defaults p;
                  historyModal_open := false;
                  loading := loading p;
                  notifications := notifications p; console := console p;
                  requests := requests p |})
      | None =>
          showNotification
            "Error adding family health history. Please try again." "error"
            (logError "Error adding family health history:" p)
      end
  end.

End FamilyProfiles.

(** ** Reference functions, written from the specification *)

Module Reference.

(** Severity to display class, as the specification words it: 'success' up to
    3, 'warning' above 3 and up to 6, 'danger' otherwise. *)
Definition severityClass_spec (severity : JS.number) : string :=
  if JS.le severity (JS.of_Z 3) then "success"
  else if andb (JS.gt severity (JS.of_Z 3)) (JS.le severity (JS.of_Z 6))
       then "warning"
       else "danger".

(** Risk level to display class, as the specification words it. *)
Definition riskClass_spec (risk_level : JS.value) : string :=
  match risk_level with
  | JS.VString s =>
      if String.eqb s "critical" then "dark"
      else if String.eqb s "high" then "danger"
      else if String.eqb s "moderate" then "warning"
      else if String.eqb s "low" then "success"
      else "secondary"
  | _ => "secondary"
  end.

End Reference.

(** ** Predicates of the statements *)

(** Every point of the dataset is absent, lacks [y], or has [y <= 0]. *)
Definition nowherePositive (d : SymptomTimeline.dataset) : Prop :=
  forall pts p, SymptomTimeline.data d = Some pts -> In (Some p) pts ->
    SymptomTimeline.y p = None
    \/ exists n, SymptomTimeline.y p = Some n /\ JS.le n (JS.of_Z 0) = true.

(** Some point of the dataset has [y > 0]. *)
Definition somewherePositive (d : SymptomTimeline.dataset) : Prop :=
  exists pts p n, SymptomTimeline.data d = Some pts /\ In (Some p) pts
    /\ SymptomTimeline.y p = Some n /\ JS.gt n (JS.of_Z 0) = true.

(** The symptom form fails validation: no symptom chosen, no severity, or
    a severity below 1 or above 10. *)
Definition symptomFormInvalid (h : JS.host) (f : SymptomTimeline.symptom_form)
  : Prop :=
  SymptomTimeline.symptomId f = ""
  \/ SymptomTimeline.symptomSeverity f = ""
  \/ JS.lt (JS.toNumber h (SymptomTimeline.symptomSeverity f)) (JS.of_Z 1) = true
  \/ JS.gt (JS.toNumber h (SymptomTimeline.symptomSeverity f)) (JS.of_Z 10) = true.

(** The metric form fails validation: no metric type, no value, or a value
    that is not a number. *)
Definition metricFormInvalid (h : JS.host) (f : HealthDashboard.metric_form)
  : Prop :=
  HealthDashboard.metricType f = ""
  \/ HealthDashboard.metricValue f = ""
  \/ JS.toNumber h (HealthDashboard.metricValue f) = JS.NaN.

(** A filter bound that is not provided: no element, or an empty value. *)
Definition absent (bound : option string) : Prop :=
  bound = None \/ bound = Some "".

(** Every character is left as it is by the URL encoding (as in an ISO date). *)
Definition plain (s : string) : Prop :=
  Forall (fun c => JS.unreserved c = true) (list_ascii_of_string s).

(** The time a date string denotes ([0] when it denotes none). *)
Definition timeOf (h : JS.host) (k : string) : Z :=
  match JS.parseDate h k with
  | Some t => t
  | None => 0
  end.

(** The date string a symptom is grouped under. *)
Definition dateString (s : HealthDashboard.symptom) : string :=
  JS.to_key (HealthDashboard.date s).

(** Every record carries a date string that parses. *)
Definition allDated (h : JS.host) (symptoms : list HealthDashboard.symptom) : Prop :=
  Forall (fun s => JS.parseDate h (dateString s) <> None) symptoms.

(** No two date strings of the records denote the same time. *)
Definition oneStringPerDate (h : JS.host) (symptoms : list HealthDashboard.symptom)
  : Prop :=
  forall s s', In s symptoms -> In s' symptoms ->
    JS.parseDate h (dateString s) = JS.parseDate h (dateString s') ->
    dateString s = dateString s'.

(** Date groups ordered by date, most recent first; strictly so. *)
Definition mostRecentFirst (h : JS.host) (gs : list HealthDashboard.date_group)
  : Prop :=
  StronglySorted
    (fun g g' => timeOf h (HealthDashboard.group_date g)
                 >= timeOf h (HealthDashboard.group_date g'))
    gs.

Definition strictlyMostRecentFirst (h : JS.host)
  (gs : list HealthDashboard.date_group) : Prop :=
  StronglySorted
    (fun g g' => timeOf h (HealthDashboard.group_date g)
                 > timeOf h (HealthDashboard.group_date g'))
    gs.

(** The assessments that are not skipped for a missing date. *)
Definition dated (l : list HealthRiskPredictor.assessment)
  : list HealthRiskPredictor.assessment :=
  filter (fun a => JS.present (HealthRiskPredictor.assessment_date a)) l.

Definition undated (l : list HealthRiskPredictor.assessment)
  : list HealthRiskPredictor.assessment :=
  filter (fun a => negb (JS.present (HealthRiskPredictor.assessment_date a))) l.

(** The day strings the host prints can be read back by the host. *)
Definition allDaysParse (h : JS.host) (l : list HealthRiskPredictor.assessment)
  : Prop :=
  Forall (fun a => JS.parseDate h (HealthRiskPredictor.dateKey h a) <> None)
         (dated l).

(** The time of an assessment ([0] when its date denotes none). *)
Definition assessedAt (h : JS.host) (a : HealthRiskPredictor.assessment) : Z :=
  match JS.newDate h (HealthRiskPredictor.assessment_date a) with
  | Some t => t
  | None => 0
  end.

(** The host reads the day strings it prints back in date order: a later
    assessment never reads back as an earlier day, and two different day
    strings never read back as the same day. *)
Definition daysReadBack (h : JS.host) (l : list HealthRiskPredictor.assessment)
  : Prop :=
  allDaysParse h l
  /\ forall a b, In a (dated l) -> In b (dated l) ->
       (assessedAt h a <= assessedAt h b ->
        timeOf h (HealthRiskPredictor.dateKey h a)
        <= timeOf h (HealthRiskPredictor.dateKey h b))
       /\ (timeOf h (HealthRiskPredictor.dateKey h a)
           = timeOf h (HealthRiskPredictor.dateKey h b) ->
           HealthRiskPredictor.dateKey h a = HealthRiskPredictor.dateKey h b).

(** Every assessment of a group is more recent than every assessment of the
    groups that follow. *)
Definition newestDayFirst (h : JS.host)
  (gs : list (string * list HealthRiskPredictor.assessment)) : Prop :=
  StronglySorted
    (fun g g' => forall a b, In a (snd g) -> In b (snd g') ->
                   assessedAt h a > assessedAt h b)
    gs.

(** No date string is the name of a member that every object inherits. *)
Definition ownDates (symptoms : list HealthDashboard.symptom) : Prop :=
  Forall (fun s => JS.inherited (dateString s) = false) symptoms.

(** Day groups ordered by the day their headings read back as, strictly. *)
Definition daysStrictlyMostRecentFirst (h : JS.host)
  (gs : list (string * list HealthRiskPredictor.assessment)) : Prop :=
  StronglySorted (fun g g' => timeOf h (fst g) > timeOf h (fst g')) gs.

Definition daysMostRecentFirst (h : JS.host)
  (gs : list (string * list HealthRiskPredictor.assessment)) : Prop :=
  StronglySorted (fun g g' => timeOf h (fst g) >= timeOf h (fst g')) gs.

(** The groups a view shows. *)
Definition groupsOf (v : HealthRiskPredictor.view)
  : list (string * list HealthRiskPredictor.assessment) :=
  match v with
  | HealthRiskPredictor.Groups gs => gs
  | _ => []
  end.

(** Every symptom of the health payload has a valid time. *)
Definition timed (h : JS.host) (l : list HealthDashboard.health_symptom) : Prop :=
  Forall (fun s => JS.newDate h (HealthDashboard.datetime s) <> None) l.


Definition pointTime (p : HealthDashboard.chart_point) : Z :=
  match HealthDashboard.x p with
  | Some t => t
  | None => 0
  end.


(** The datasets listed under some category by [updateSymptomsList]. *)
Definition listed (o : JS.obj SymptomTimeline.dataset) : list SymptomTimeline.dataset :=
  List.concat (map snd o).

(** The keys of a grouping object as both renderers order them:
    [Object.keys(groups).sort((a, b) => new Date(b) - new Date(a))]. *)
Definition keysByDateDesc {A B} (h : JS.host) (sel : A -> option (string * B))
  (l : list A) : list string :=
  JS.sort (fun a b => JS.date_diff (JS.parseDate h b) (JS.parseDate h a))
          (JS.keys (JS.collect sel l)).

(** The name a symptom of the health payload is grouped under. *)
Definition nameOf (s : HealthDashboard.health_symptom) : string :=
  JS.to_key (HealthDashboard.symptom_field s).


(** The point [renderSymptomChart] plots for a symptom. *)
Definition pointOf (h : JS.host) (s : HealthDashboard.health_symptom)
  : HealthDashboard.chart_point :=
  {| HealthDashboard.x := JS.newDate h (HealthDashboard.datetime s);
     HealthDashboard.y := JS.parseInt h (HealthDashboard.severity_field s) |}.

Definition cardTime (c : HealthDashboard.symptom_card) : Z :=
  match HealthDashboard.card_time c with
  | Some t => t
  | None => 0
  end.

(** The characters that structure a query string, and the space. *)
Definition delimiter (c : ascii) : bool :=
  let n := N_of_ascii c in
  ((n =? 38) || (n =? 61) || (n =? 63) || (n =? 35) || (n =? 32))%N.

(** How many times a character occurs in a string. *)
Fixpoint occurrences (c : ascii) (s : string) : nat :=
  match s with
  | EmptyString => 0
  | String c' s' => (if Ascii.eqb c' c then 1 else 0) + occurrences c s'
  end.

(** ** Concrete inputs *)

Module Examples.

(** A host that knows the dates used below; the time values are those of
    [Date.parse] (a date-only ISO string denotes midnight UTC), and the day
    strings those of a host whose locale is en-US and whose zone is UTC. *)
Definition dates : list (string * Z) :=
  [("2024-01-01", 1704067200000);
   ("2024-01-01T00:00:00.000Z", 1704067200000);
   ("2024-01-02", 1704153600000);
   ("2024-01-03", 1704240000000);
   ("1/1/2024", 1704067200000);
   ("1/2/2024", 1704153600000);
   ("1/3/2024", 1704240000000)].

Fixpoint findDate (table : list (string * Z)) (s : string) : option Z :=
  match table with
  | [] => None
  | (k, t) :: rest => if String.eqb k s then Some t else findDate rest s
  end.

Definition numerals : list (string * Z) :=
  [("0", 0); ("1", 1); ("5", 5); ("7", 7); ("10", 10); ("11", 11); ("72", 72)].

Definition number_of (s : string) : JS.number :=
  match findDate numerals s with
  | Some z => JS.of_Z z
  | None => JS.NaN
  end.

Definition host : JS.host :=
  {| JS.toNumber := number_of;
     JS.parseInt := fun v => match v with
                             | JS.VNumber n => n
                             | JS.VString s => number_of s
                             | _ => JS.NaN
                             end;
     JS.parseFloat := number_of;
     JS.parseDate := findDate dates;
     JS.localeDate := fun t => if t <? 1704153600000 then "1/1/2024"
                               else if t <? 1704240000000 then "1/2/2024"
                               else "1/3/2024";
     JS.isoString := fun t => if t =? 1704067200000
                              then "2024-01-01T00:00:00.000Z"
                              else "2024-01-02T00:00:00.000Z" |}.

(** Timeline datasets: one with a positive point among zero and negative
    ones, one without any positive point. *)
Definition pt (x : string) (y : Z) : option SymptomTimeline.point :=
  Some {| SymptomTimeline.x := x; SymptomTimeline.y := Some (JS.of_Z y);
          SymptomTimeline.record_id := JS.VNumber (JS.of_Z 1);
          SymptomTimeline.notes := JS.VUndefined |}.

Definition headache : SymptomTimeline.dataset :=
  {| SymptomTimeline.label := "Headache";
     SymptomTimeline.symptom_category := JS.Str "Neurological";
     SymptomTimeline.data :=
       Some [pt "2024-01-01" 0; pt "2024-01-02" 4; pt "2024-01-03" (-1)] |}.

Definition cough : SymptomTimeline.dataset :=
  {| SymptomTimeline.label := "Cough";
     SymptomTimeline.symptom_category := JS.Undef;
     SymptomTimeline.data := Some [pt "2024-01-01" 0; pt "2024-01-02" 0] |}.

Definition readyCanvas : SymptomTimeline.canvas :=
  {| SymptomTimeline.container_present := true;
     SymptomTimeline.getContext := SymptomTimeline.Context2d |}.

(** A family member with limited access whose payload carries symptoms. *)
Definition fever : FamilyProfiles.recent_symptom :=
  {| FamilyProfiles.severity := JS.of_Z 7;
     FamilyProfiles.symptom_name := JS.VString "Fever";
     FamilyProfiles.date := JS.VString "2024-01-02" |}.

Definition sister : FamilyProfiles.member :=
  {| FamilyProfiles.user_id := JS.VNumber (JS.of_Z 2);
     FamilyProfiles.name := JS.VString "Asha";
     FamilyProfiles.relationship := JS.VString "sister";
     FamilyProfiles.access_level := JS.VString "limited";
     FamilyProfiles.age := JS.VNumber (JS.of_Z 30);
     FamilyProfiles.gender := JS.VString "female";
     FamilyProfiles.health_summary :=
       Some {| FamilyProfiles.bmi := JS.VUndefined;
               FamilyProfiles.bmi_category := JS.VUndefined;
               FamilyProfiles.latest_risk_assessment :=
                 Some {| FamilyProfiles.risk_level := JS.VString "unknown";
                         FamilyProfiles.disease := JS.VString "Diabetes" |};
               FamilyProfiles.recent_symptoms := Some [fever] |} |}.

(** Pages on which the actions are run. *)
Definition predictorPage : HealthRiskPredictor.page :=
  {| HealthRiskPredictor.riskPredictBtn :=
       {| HealthRiskPredictor.innerHTML := [JS.Text "Predict Health Risks"];
          HealthRiskPredictor.disabled := false |};
     HealthRiskPredictor.lifestyleForm :=
       {| HealthRiskPredictor.smoking := Some "yes";
          HealthRiskPredictor.physical_activity := None;
          HealthRiskPredictor.sodium := None;
          HealthRiskPredictor.stress := Some "high";
          HealthRiskPredictor.sleep := None;
          HealthRiskPredictor.alcohol := None |};
     HealthRiskPredictor.riskAssessmentsContainer := Some [];
     HealthRiskPredictor.notifications := [];
     HealthRiskPredictor.console := [];
     HealthRiskPredictor.requests := [] |}.

Definition emptyMetricForm : HealthDashboard.metric_form :=
  {| HealthDashboard.metricType := ""; HealthDashboard.metricValue := "";
     HealthDashboard.metricUnit := ""; HealthDashboard.metricDate := "" |}.

Definition dashboardPage (f : HealthDashboard.metric_form) : HealthDashboard.page :=
  {| HealthDashboard.form := f;
     HealthDashboard.form_defaults := emptyMetricForm;
     HealthDashboard.submit_enabled := true;
     HealthDashboard.modal_open := true;
     HealthDashboard.dashboardStartDate := "";
     HealthDashboard.dashboardEndDate := "";
     HealthDashboard.loading := false;
     HealthDashboard.notifications := [];
     HealthDashboard.console := [];
     HealthDashboard.requests := [];
     HealthDashboard.uncaught := 0%nat |}.

Definition heartRateForm : HealthDashboard.metric_form :=
  {| HealthDashboard.metricType := "heart_rate";
     HealthDashboard.metricValue := "72";
     HealthDashboard.metricUnit := "bpm";
     HealthDashboard.metricDate := "2024-01-01" |}.

Definition badMetricForm : HealthDashboard.metric_form :=
  {| HealthDashboard.metricType := "heart_rate";
     HealthDashboard.metricValue := "fast";
     HealthDashboard.metricUnit := "bpm";
     HealthDashboard.metricDate := "" |}.

Definition emptySymptomForm : SymptomTimeline.symptom_form :=
  {| SymptomTimeline.symptomId := ""; SymptomTimeline.symptomSeverity := "";
     SymptomTimeline.symptomNotes := ""; SymptomTimeline.symptomDatetime := "";
     SymptomTimeline.medicationTaken := "";
     SymptomTimeline.doctorVisited := false |}.

Definition severeForm : SymptomTimeline.symptom_form :=
  {| SymptomTimeline.symptomId := "1"; SymptomTimeline.symptomSeverity := "11";
     SymptomTimeline.symptomNotes := "after lunch";
     SymptomTimeline.symptomDatetime := "";
     SymptomTimeline.medicationTaken := "";
     SymptomTimeline.doctorVisited := false |}.

Definition vagueForm : SymptomTimeline.symptom_form :=
  {| SymptomTimeline.symptomId := "1"; SymptomTimeline.symptomSeverity := "bad";
     SymptomTimeline.symptomNotes := ""; SymptomTimeline.symptomDatetime := "";
     SymptomTimeline.medicationTaken := "";
     SymptomTimeline.doctorVisited := false |}.

Definition timelinePage (f : SymptomTimeline.symptom_form)
  (startDate endDate : option string) : SymptomTimeline.page :=
  {| SymptomTimeline.userId := "42";
     SymptomTimeline.timelineStartDate := startDate;
     SymptomTimeline.timelineEndDate := endDate;
     SymptomTimeline.container := Some false;
     SymptomTimeline.form := f;
     SymptomTimeline.form_defaults := emptySymptomForm;
     SymptomTimeline.form_visible := true;
     SymptomTimeline.notifications := [];
     SymptomTimeline.console := [];
     SymptomTimeline.requests := [];
     SymptomTimeline.uncaught := 0%nat |}.

(** Symptoms of the dashboard summary. *)
Definition dashboardSymptom (d : JS.optstr) (n : string) (sev : Z)
  : HealthDashboard.symptom :=
  {| HealthDashboard.date := d;
     HealthDashboard.symptom_name := JS.VString n;
     HealthDashboard.severity := JS.of_Z sev |}.

Definition coughJan1 := dashboardSymptom (JS.Str "2024-01-01") "Cough" 2.
Definition feverJan2 := dashboardSymptom (JS.Str "2024-01-02") "Fever" 7.
Definition headacheJan1 := dashboardSymptom (JS.Str "2024-01-01") "Headache" 4.
Definition nauseaJan1Utc :=
  dashboardSymptom (JS.Str "2024-01-01T00:00:00.000Z") "Nausea" 3.
Definition rashNoDate := dashboardSymptom JS.Undef "Rash" 5.

(** Risk assessments. *)
Definition assessmentOn (d : JS.optstr) (disease : string)
  : HealthRiskPredictor.assessment :=
  {| HealthRiskPredictor.assessment_date := d;
     HealthRiskPredictor.disease_name := JS.VString disease;
     HealthRiskPredictor.risk_level := JS.VString "low";
     HealthRiskPredictor.risk_score := JS.VNumber (JS.of_Z 10);
     HealthRiskPredictor.risk_factors := [];
     HealthRiskPredictor.recommendations := JS.VUndefined;
     HealthRiskPredictor.model_version := JS.VString "1.0" |}.

Definition diabetesJan1 := assessmentOn (JS.Str "2024-01-01") "Diabetes".
Definition asthmaJan2 := assessmentOn (JS.Str "2024-01-02") "Asthma".
Definition anemiaNoDate := assessmentOn JS.Null "Anemia".
Definition goutBadDate := assessmentOn (JS.Str "soon") "Gout".




(** Symptoms of the health payload. *)
Definition healthSymptom (n : string) (sev : Z) (t : string)
  : HealthDashboard.health_symptom :=
  {| HealthDashboard.symptom_field := JS.Str n;
     HealthDashboard.severity_field := JS.VNumber (JS.of_Z sev);
     HealthDashboard.notes := JS.VUndefined;
     HealthDashboard.datetime := JS.Str t |}.

Definition feverDay1 := healthSymptom "Fever" 2 "2024-01-01".
Definition feverDay2 := healthSymptom "Fever" 3 "2024-01-02".
Definition coughDay3 := healthSymptom "Cough" 1 "2024-01-03".
Definition coughDay1 := healthSymptom "Cough" 1 "2024-01-01".

(** A host with a day-first locale: it prints 3 January as "03/01/2024" and
    1 February as "01/02/2024", and reads such strings back month first, as
    1 March and 2 January. *)
Definition dayFirstDates : list (string * Z) :=
  [("2024-01-03", 1704240000000); ("2024-02-01", 1706745600000);
   ("03/01/2024", 1709251200000); ("01/02/2024", 1704153600000)].

Definition dayFirstHost : JS.host :=
  {| JS.toNumber := number_of;
     JS.parseInt := JS.parseInt host;
     JS.parseFloat := number_of;
     JS.parseDate := findDate dayFirstDates;
     JS.localeDate := fun t => if t <? 1706745600000 then "03/01/2024"
                               else "01/02/2024";
     JS.isoString := JS.isoString host |}.

Definition goutJan3 := assessmentOn (JS.Str "2024-01-03") "Gout".
Definition fluFeb1 := assessmentOn (JS.Str "2024-02-01") "Influenza".

(** A host that knows the first nine days of January 2024. *)
Definition januaryDates : list (string * Z) :=
  [("2024-01-01", 1704067200000); ("2024-01-02", 1704153600000);
   ("2024-01-03", 1704240000000); ("2024-01-04", 1704326400000);
   ("2024-01-05", 1704412800000); ("2024-01-06", 1704499200000);
   ("2024-01-07", 1704585600000); ("2024-01-08", 1704672000000);
   ("2024-01-09", 1704758400000)].

Definition januaryHost : JS.host :=
  {| JS.toNumber := number_of;
     JS.parseInt := JS.parseInt host;
     JS.parseFloat := number_of;
     JS.parseDate := findDate januaryDates;
     JS.localeDate := fun _ => "January 2024";
     JS.isoString := JS.isoString host |}.

(** One symptom on each of those nine days, oldest first. *)
Definition nineDays : list HealthDashboard.symptom :=
  map (fun d => dashboardSymptom (JS.Str (fst d)) "Cough" 2) januaryDates.

Definition absentContainerPage : HealthRiskPredictor.page :=
  {| HealthRiskPredictor.riskPredictBtn :=
       HealthRiskPredictor.riskPredictBtn predictorPage;
     HealthRiskPredictor.lifestyleForm :=
       HealthRiskPredictor.lifestyleForm predictorPage;
     HealthRiskPredictor.riskAssessmentsContainer := None;
     HealthRiskPredictor.notifications := [];
     HealthRiskPredictor.console := [];
     HealthRiskPredictor.requests := [] |}.

Definition undatedMetricForm : HealthDashboard.metric_form :=
  {| HealthDashboard.metricType := "heart_rate";
     HealthDashboard.metricValue := "72";
     HealthDashboard.metricUnit := "bpm";
     HealthDashboard.metricDate := "yesterday" |}.

Definition mildForm : SymptomTimeline.symptom_form :=
  {| SymptomTimeline.symptomId := "1"; SymptomTimeline.symptomSeverity := "5";
     SymptomTimeline.symptomNotes := ""; SymptomTimeline.symptomDatetime := "";
     SymptomTimeline.medicationTaken := "";
     SymptomTimeline.doctorVisited := false |}.

Definition mildFormDated : SymptomTimeline.symptom_form :=
  {| SymptomTimeline.symptomId := "1"; SymptomTimeline.symptomSeverity := "5";
     SymptomTimeline.symptomNotes := "";
     SymptomTimeline.symptomDatetime := "2024-01-02";
     SymptomTimeline.medicationTaken := "";
     SymptomTimeline.doctorVisited := false |}.

Definition mildFormBadDate : SymptomTimeline.symptom_form :=
  {| SymptomTimeline.symptomId := "1"; SymptomTimeline.symptomSeverity := "5";
     SymptomTimeline.symptomNotes := "";
     SymptomTimeline.symptomDatetime := "yesterday";
     SymptomTimeline.medicationTaken := "";
     SymptomTimeline.doctorVisited := false |}.

(** The page of the script, with a quick entry typed in. *)
Definition entryFever : SymptomTimeline.health_entry :=
  {| SymptomTimeline.entry_datetime := JS.VString "2024-01-01T10:00";
     SymptomTimeline.entry_symptom := JS.VString "Fever";
     SymptomTimeline.entry_severity := JS.VString "2";
     SymptomTimeline.entry_notes := JS.VString "" |}.

Definition scriptPage : SymptomTimeline.script_page :=
  {| SymptomTimeline.inputs :=
       {| SymptomTimeline.symptomInput := "Cough";
          SymptomTimeline.severityInput := "1";
          SymptomTimeline.notesInput := "";
          SymptomTimeline.datetimeInput := "2024-01-02T09:00" |};
     SymptomTimeline.timeline := SymptomTimeline.Entries [entryFever];
     SymptomTimeline.script_requests := [];
     SymptomTimeline.unhandled := 0%nat |}.

End Examples.

(** * Properties *)

(** ** Severity classes *)

Lemma le_3_le_6 (n : JS.number) :
  JS.le n (JS.of_Z 3) = true -> JS.le n (JS.of_Z 6) = true.
Proof.
  destruct n as [q | | |]; simpl; try discriminate; auto.
  rewrite !Qle_bool_iff. intros H.
  apply Qle_trans with (inject_Z 3); [exact H|].
  rewrite <- Zle_Qle. lia.
Qed.

Lemma not_le_gt (n : JS.number) (k : Z) :
  JS.le n (JS.of_Z k) = false -> JS.le n (JS.of_Z 6) = true ->
  JS.gt n (JS.of_Z k) = true.
Proof.
  destruct n as [q | | |]; simpl; try discriminate.
  intros ->. reflexivity.
Qed.

(** C10: the three [getSeverityClass] functions agree with one another and
    with the specification's wording on every JavaScript number (finite,
    infinite or NaN); being total functions, they return for every input. *)
Theorem C10_severity_class_equivalent (severity : JS.number) :
  HealthDashboard.getSeverityClass severity
    = SymptomTimeline.getSeverityClass severity
  /\ SymptomTimeline.getSeverityClass severity
    = FamilyProfiles.getSeverityClass severity
  /\ FamilyProfiles.getSeverityClass severity
    = Reference.severityClass_spec severity
  /\ (JS.le severity (JS.of_Z 3) = true ->
      HealthDashboard.getSeverityClass severity = "success")
  /\ (JS.gt severity (JS.of_Z 3) = true ->
      JS.le severity (JS.of_Z 6) = true ->
      HealthDashboard.getSeverityClass severity = "warning")
  /\ (JS.le severity (JS.of_Z 6) = false ->
      HealthDashboard.getSeverityClass severity = "danger").
Proof.
  repeat split.
  - unfold FamilyProfiles.getSeverityClass, Reference.severityClass_spec.
    destruct (JS.le severity (JS.of_Z 3)) eqn:E3; [reflexivity|].
    destruct (JS.le severity (JS.of_Z 6)) eqn:E6.
    + rewrite (not_le_gt _ _ E3 E6). reflexivity.
    + rewrite andb_false_r. reflexivity.
  - unfold HealthDashboard.getSeverityClass. intros ->. reflexivity.
  - unfold HealthDashboard.getSeverityClass. intros Hgt Hle.
    destruct (JS.le severity (JS.of_Z 3)) eqn:E3.
    + exfalso. destruct severity as [q | | |]; simpl in *; try discriminate.
      rewrite E3 in Hgt. discriminate.
    + rewrite Hle. reflexivity.
  - unfold HealthDashboard.getSeverityClass. intros H6.
    destruct (JS.le severity (JS.of_Z 3)) eqn:E3.
    + apply le_3_le_6 in E3. congruence.
    + rewrite H6. reflexivity.
Qed.

Lemma C10_witness :
  HealthDashboard.getSeverityClass (JS.of_Z 5) = "warning"
  /\ HealthDashboard.getSeverityClass (JS.of_Z 3) = "success"
  /\ HealthDashboard.getSeverityClass JS.NaN = "danger".
Proof.
  split; [|split].
  - apply (C10_severity_class_equivalent (JS.of_Z 5)); reflexivity.
  - apply (C10_severity_class_equivalent (JS.of_Z 3)); reflexivity.
  - apply (C10_severity_class_equivalent JS.NaN); reflexivity.
Defined.

(** ** Risk classes *)

Lemma dashboard_riskClass_spec (v : JS.value) :
  HealthDashboard.riskClass v = Reference.riskClass_spec v.
Proof.
  destruct v as [| | b | n | s]; reflexivity.
Qed.

Lemma predictor_riskClass_spec (v : JS.value) :
  HealthRiskPredictor.riskClass v = Reference.riskClass_spec v.
Proof.
  destruct v as [| | b | n | s]; reflexivity.
Qed.

(** On the four levels of the enumeration the family card agrees with the
    other two modules; it differs exactly where they answer 'secondary'. *)
Lemma family_riskClass_spec (v : JS.value) :
  FamilyProfiles.riskClass v =
    if String.eqb (Reference.riskClass_spec v) "secondary" then "success"
    else Reference.riskClass_spec v.
Proof.
  destruct v as [| | b | n | s]; try reflexivity.
  unfold FamilyProfiles.riskClass, Reference.riskClass_spec, JS.is_string.
  destruct (String.eqb_spec s "critical") as [-> | _]; [reflexivity|].
  destruct (String.eqb_spec s "high") as [-> | _]; [reflexivity|].
  destruct (String.eqb_spec s "moderate") as [-> | _]; [reflexivity|].
  destruct (String.eqb_spec s "low"); reflexivity.
Qed.

(** C3: the dashboard and the risk predictor map every risk level as the
    specification says, but the family card maps an unknown level, here
    "unknown", to 'success' where the specification and the two other
    modules answer 'secondary'. *)
Theorem C3_family_card_unknown_risk_level :
  FamilyProfiles.riskClass (JS.VString "unknown") = "success"
  /\ Reference.riskClass_spec (JS.VString "unknown") = "secondary"
  /\ HealthDashboard.riskClass (JS.VString "unknown") = "secondary"
  /\ HealthRiskPredictor.riskClass (JS.VString "unknown") = "secondary"
  /\ (forall v, HealthDashboard.riskClass v = Reference.riskClass_spec v)
  /\ (forall v, HealthRiskPredictor.riskClass v = Reference.riskClass_spec v).
Proof.
  repeat split; try reflexivity.
  - apply dashboard_riskClass_spec.
  - apply predictor_riskClass_spec.
Qed.

(** ** Family member cards *)

Lemma card_ignores_recent_symptoms (m : FamilyProfiles.member)
  (a : option (list FamilyProfiles.recent_symptom)) :
  JS.is_string (FamilyProfiles.access_level m) "full" = false ->
  FamilyProfiles.memberCard (FamilyProfiles.withRecentSymptoms m a)
  = FamilyProfiles.memberCard m.
Proof.
  intros H. destruct m as [uid nm rel acc ag gen hs]. simpl in H.
  unfold FamilyProfiles.memberCard, FamilyProfiles.withRecentSymptoms,
    FamilyProfiles.isSelf, FamilyProfiles.healthStatus.
  cbn [FamilyProfiles.user_id FamilyProfiles.name FamilyProfiles.relationship
       FamilyProfiles.access_level FamilyProfiles.age FamilyProfiles.gender
       FamilyProfiles.health_summary].
  rewrite H. destruct hs as [[b bc r rs]|]; reflexivity.
Qed.

(** The whole list of cards is unchanged when the [recent_symptoms] of
    members without full access are replaced. *)
Lemma family_members_noninterference (ms ms' : list FamilyProfiles.member) :
  Forall2 (fun m m' =>
             m' = m
             \/ (JS.is_string (FamilyProfiles.access_level m) "full" = false
                 /\ exists a, m' = FamilyProfiles.withRecentSymptoms m a))
          ms ms' ->
  FamilyProfiles.renderFamilyMembers (Some ms')
  = FamilyProfiles.renderFamilyMembers (Some ms).
Proof.
  unfold FamilyProfiles.renderFamilyMembers.
  induction 1 as [| m m' ms ms' Hm _ IH]; [reflexivity|].
  assert (Hu : FamilyProfiles.user_id m' = FamilyProfiles.user_id m).
  { destruct Hm as [-> | [_ [a ->]]]; reflexivity. }
  assert (Hc : FamilyProfiles.memberCard m' = FamilyProfiles.memberCard m).
  { destruct Hm as [-> | [Hl [a ->]]]; [reflexivity|].
    apply card_ignores_recent_symptoms, Hl. }
  simpl. rewrite Hu.
  destruct (JS.truthy (FamilyProfiles.user_id m)); simpl; congruence.
Qed.

(** C2: for a member whose access level is not "full", the rendered card
    does not depend on the payload's [recent_symptoms]: two payloads that
    differ only there give the same card, and the same list of cards. *)
Theorem C2_limited_access_hides_recent_symptoms
  (m : FamilyProfiles.member)
  (a b : option (list FamilyProfiles.recent_symptom)) :
  JS.is_string (FamilyProfiles.access_level m) "full" = false ->
  FamilyProfiles.memberCard (FamilyProfiles.withRecentSymptoms m a)
  = FamilyProfiles.memberCard (FamilyProfiles.withRecentSymptoms m b)
  /\ FamilyProfiles.renderFamilyMembers
       (Some [FamilyProfiles.withRecentSymptoms m a])
     = FamilyProfiles.renderFamilyMembers
         (Some [FamilyProfiles.withRecentSymptoms m b]).
Proof.
  intros H.
  assert (E : FamilyProfiles.memberCard (FamilyProfiles.withRecentSymptoms m a)
              = FamilyProfiles.memberCard (FamilyProfiles.withRecentSymptoms m b)).
  { rewrite !card_ignores_recent_symptoms by exact H. reflexivity. }
  split; [exact E|].
  unfold FamilyProfiles.renderFamilyMembers. simpl.
  destruct (JS.truthy (FamilyProfiles.user_id m)); simpl; congruence.
Qed.

Lemma C2_witness :
  FamilyProfiles.memberCard
    (FamilyProfiles.withRecentSymptoms Examples.sister (Some [Examples.fever]))
  = FamilyProfiles.memberCard
      (FamilyProfiles.withRecentSymptoms Examples.sister None)
  /\ FamilyProfiles.renderFamilyMembers
       (Some [FamilyProfiles.withRecentSymptoms Examples.sister
                (Some [Examples.fever])])
     = FamilyProfiles.renderFamilyMembers
         (Some [FamilyProfiles.withRecentSymptoms Examples.sister None]).
Proof.
  apply (C2_limited_access_hides_recent_symptoms Examples.sister).
  reflexivity.
Defined.

(** With full access the symptoms are part of the card. *)
Lemma full_access_shows_recent_symptoms :
  let m := {| FamilyProfiles.user_id := FamilyProfiles.user_id Examples.sister;
              FamilyProfiles.name := FamilyProfiles.name Examples.sister;
              FamilyProfiles.relationship := JS.VString "sister";
              FamilyProfiles.access_level := JS.VString "full";
              FamilyProfiles.age := FamilyProfiles.age Examples.sister;
              FamilyProfiles.gender := FamilyProfiles.gender Examples.sister;
              FamilyProfiles.health_summary :=
                FamilyProfiles.health_summary Examples.sister |} in
  FamilyProfiles.memberCard (FamilyProfiles.withRecentSymptoms m (Some [Examples.fever]))
  <> FamilyProfiles.memberCard (FamilyProfiles.withRecentSymptoms m None).
Proof. intros m. vm_compute. discriminate. Qed.

(** ** Failed requests *)

Lemma predictionFailed_effect (orig : list JS.html) (p : HealthRiskPredictor.page) :
  let p' := HealthRiskPredictor.predictionFailed orig p in
  HealthRiskPredictor.riskPredictBtn p'
    = {| HealthRiskPredictor.innerHTML := orig;
         HealthRiskPredictor.disabled := false |}
  /\ HealthRiskPredictor.lifestyleForm p' = HealthRiskPredictor.lifestyleForm p
  /\ HealthRiskPredictor.notifications p'
     = HealthRiskPredictor.notifications p
       ++ [("Error performing risk assessment. Please try again.", "error")]
  /\ HealthRiskPredictor.requests p' = HealthRiskPredictor.requests p.
Proof. repeat split. Qed.

(** C6: the click handler of [#addSymptomBtn] does not surface a failed
    request.  When the POST is answered with an error status, the page ends
    exactly as it does after a successful POST: the list is reloaded and
    nothing tells the user of the failure.  When the POST is rejected, the
    list and the inputs stay as they are and the rejection is received by no
    handler.  A failed sync of [addSampleMetrics] is written to the console
    only: no notification is shown. *)
Theorem C6_failed_add_symptom_is_not_surfaced {J : Type}
  (status status' : Z) (json json' : option J)
  (reload : JS.settled SymptomTimeline.health_json)
  (p : SymptomTimeline.script_page)
  (userId : string) (settle : JS.settled J) (q : HealthDashboard.page) :
  SymptomTimeline.addSymptomClick (JS.Response false status json) reload p
  = SymptomTimeline.addSymptomClick (JS.Response true status' json') reload p
  /\ (let p' := SymptomTimeline.addSymptomClick (@JS.Rejected J) reload p in
      SymptomTimeline.timeline p' = SymptomTimeline.timeline p
      /\ SymptomTimeline.inputs p' = SymptomTimeline.inputs p
      /\ SymptomTimeline.unhandled p' = S (SymptomTimeline.unhandled p)
      /\ SymptomTimeline.script_requests p'
         = SymptomTimeline.script_requests p
             ++ [{| JS.method := "POST"; JS.url := "/api/user/symptom";
                    JS.body := Some (SymptomTimeline.inputs p) |}])
  /\ (JS.unwrap settle = None ->
      let q' := HealthDashboard.sampleMetricsSettled userId settle q in
      HealthDashboard.notifications q' = HealthDashboard.notifications q
      /\ HealthDashboard.console q'
         = HealthDashboard.console q ++ [JS.Error "Error syncing device data:"]).
Proof.
  split; [|split].
  - reflexivity.
  - cbn. repeat split.
  - intros Hfail. unfold HealthDashboard.sampleMetricsSettled.
    rewrite Hfail. split; reflexivity.
Qed.

(** A POST answered with status 500, the list being reloaded from a payload
    with one symptom: the page shows that list and no error. *)
Lemma failed_add_symptom_example :
  SymptomTimeline.addSymptomClick (JS.Response false 500 (Some tt))
    (JS.Response true 200
       (Some {| SymptomTimeline.health_error := JS.VUndefined;
                SymptomTimeline.health_symptoms := Some [Examples.entryFever] |}))
    Examples.scriptPage
  = {| SymptomTimeline.inputs := SymptomTimeline.inputs Examples.scriptPage;
       SymptomTimeline.timeline := SymptomTimeline.Entries [Examples.entryFever];
       SymptomTimeline.script_requests :=
         [{| JS.method := "POST"; JS.url := "/api/user/symptom";
             JS.body := Some (SymptomTimeline.inputs Examples.scriptPage) |};
          {| JS.method := "GET"; JS.url := "/api/user/health";
             JS.body := None |}];
       SymptomTimeline.unhandled := 0%nat |}.
Proof. reflexivity. Qed.

(** A metric request that is really sent, and then fails. *)
Lemma failed_metric_request_was_sent :
  List.length
    (HealthDashboard.requests
       (HealthDashboard.addHealthMetric Examples.host "42"
          (JS.Response false 500 (Some tt))
          (Examples.dashboardPage Examples.heartRateForm))) = 1%nat.
Proof. reflexivity. Qed.

(** ** Validation *)

Lemma symptomFormInvalid_rejected h f :
  symptomFormInvalid h f ->
  exists msg, SymptomTimeline.validateSymptom h f = Some msg.
Proof.
  unfold symptomFormInvalid, SymptomTimeline.validateSymptom.
  intros [H | [H | [H | H]]].
  - rewrite H. simpl. eauto.
  - rewrite H. destruct (String.eqb (SymptomTimeline.symptomId f) ""); simpl; eauto.
  - rewrite H. rewrite orb_true_r. simpl.
    destruct (String.eqb (SymptomTimeline.symptomId f) ""); eauto.
  - rewrite H. rewrite !orb_true_r.
    destruct (String.eqb (SymptomTimeline.symptomId f) ""); eauto.
Qed.

Lemma metricFormInvalid_rejected h f :
  metricFormInvalid h f ->
  exists msg, HealthDashboard.validateMetric h f = Some msg.
Proof.
  unfold metricFormInvalid, HealthDashboard.validateMetric.
  intros [H | [H | H]].
  - rewrite H. simpl. eauto.
  - rewrite H. destruct (String.eqb (HealthDashboard.metricType f) ""); simpl; eauto.
  - rewrite H.
    destruct (String.eqb (HealthDashboard.metricType f) ""); eauto.
    destruct (String.eqb (HealthDashboard.metricValue f) ""); eauto.
Qed.

(** C7: a submission of the symptom form or of the metric form that fails
    validation issues no request: the action returns with the page as it
    was, except for one error notification carrying the validation message. *)
Theorem C7_invalid_form_sends_nothing {J : Type}
  (h : JS.host) (userId : string) (settle : JS.settled J)
  (p : SymptomTimeline.page) (q : HealthDashboard.page) :
  (symptomFormInvalid h (SymptomTimeline.form p) ->
   exists msg,
     SymptomTimeline.saveSymptomRecord h settle p
       = SymptomTimeline.showNotification msg "error" p
     /\ SymptomTimeline.requests (SymptomTimeline.saveSymptomRecord h settle p)
        = SymptomTimeline.requests p
     /\ SymptomTimeline.notifications (SymptomTimeline.saveSymptomRecord h settle p)
        = SymptomTimeline.notifications p ++ [(msg, "error")])
  /\ (metricFormInvalid h (HealthDashboard.form q) ->
      exists msg,
        HealthDashboard.addHealthMetric h userId settle q
          = HealthDashboard.showNotification msg "error" q
        /\ HealthDashboard.requests (HealthDashboard.addHealthMetric h userId settle q)
           = HealthDashboard.requests q
        /\ HealthDashboard.notifications (HealthDashboard.addHealthMetric h userId settle q)
           = HealthDashboard.notifications q ++ [(msg, "error")]).
Proof.
  split.
  - intros H. destruct (symptomFormInvalid_rejected _ _ H) as [msg E].
    exists msg. unfold SymptomTimeline.saveSymptomRecord. rewrite E.
    repeat split.
  - intros H. destruct (metricFormInvalid_rejected _ _ H) as [msg E].
    exists msg. unfold HealthDashboard.addHealthMetric. rewrite E.
    repeat split.
Qed.

Lemma C7_witness :
  (exists msg,
     SymptomTimeline.saveSymptomRecord Examples.host (JS.Response true 200 (Some tt))
       (Examples.timelinePage Examples.severeForm None None)
     = SymptomTimeline.showNotification msg "error"
         (Examples.timelinePage Examples.severeForm None None)
     /\ SymptomTimeline.requests
          (SymptomTimeline.saveSymptomRecord Examples.host
             (JS.Response true 200 (Some tt))
             (Examples.timelinePage Examples.severeForm None None))
        = []
     /\ SymptomTimeline.notifications
          (SymptomTimeline.saveSymptomRecord Examples.host
             (JS.Response true 200 (Some tt))
             (Examples.timelinePage Examples.severeForm None None))
        = [] ++ [(msg, "error")])
  /\ (exists msg,
        HealthDashboard.addHealthMetric Examples.host "42"
          (JS.Response true 200 (Some tt))
          (Examples.dashboardPage Examples.badMetricForm)
        = HealthDashboard.showNotification msg "error"
            (Examples.dashboardPage Examples.badMetricForm)
        /\ HealthDashboard.requests
             (HealthDashboard.addHealthMetric Examples.host "42"
                (JS.Response true 200 (Some tt))
                (Examples.dashboardPage Examples.badMetricForm))
           = []
        /\ HealthDashboard.notifications
             (HealthDashboard.addHealthMetric Examples.host "42"
                (JS.Response true 200 (Some tt))
                (Examples.dashboardPage Examples.badMetricForm))
           = [] ++ [(msg, "error")]).
Proof.
  destruct (C7_invalid_form_sends_nothing Examples.host "42"
              (JS.Response true 200 (Some tt))
              (Examples.timelinePage Examples.severeForm None None)
              (Examples.dashboardPage Examples.badMetricForm)) as [Hs Hm].
  split.
  - apply Hs. right. right. right. reflexivity.
  - apply Hm. right. right. reflexivity.
Defined.

(** A severity that is not a number is outside the rejected cases: both
    comparisons of line 459 are false on NaN, and the request is sent. *)
Lemma non_numeric_severity_is_sent :
  SymptomTimeline.validateSymptom Examples.host Examples.vagueForm = None
  /\ List.length
       (SymptomTimeline.requests
          (SymptomTimeline.saveSymptomRecord Examples.host (@JS.Rejected unit)
             (Examples.timelinePage Examples.vagueForm None None))) = 1%nat.
Proof. split; reflexivity. Qed.

(** A valid form does send its request. *)
Lemma valid_metric_form_is_sent :
  List.length
    (HealthDashboard.requests
       (HealthDashboard.addHealthMetric Examples.host "42"
          (JS.Response true 200 (Some tt))
          (Examples.dashboardPage Examples.heartRateForm))) = 2%nat.
Proof. reflexivity. Qed.

(** ** The timeline query *)

Lemma urlencode_plain (s : string) : plain s -> JS.urlencode s = s.
Proof.
  unfold plain. induction s as [| c s IH]; [reflexivity|].
  simpl. intros H. inversion H as [| ? ? Hc Hs]; subst.
  rewrite Hc, (IH Hs). reflexivity.
Qed.

Lemma absent_params_start (a b : option string) :
  absent a -> SymptomTimeline.timelineParams a b = SymptomTimeline.timelineParams None b.
Proof. intros [-> | ->]; reflexivity. Qed.

Lemma absent_params_end (a b : option string) :
  absent b -> SymptomTimeline.timelineParams a b = SymptomTimeline.timelineParams a None.
Proof. intros [-> | ->]; reflexivity. Qed.

Lemma timelineUrl_absent_start user a b :
  absent a -> SymptomTimeline.timelineUrl user a b = SymptomTimeline.timelineUrl user None b.
Proof.
  intros H. unfold SymptomTimeline.timelineUrl.
  rewrite (absent_params_start a b H). reflexivity.
Qed.

Lemma timelineUrl_absent_end user a b :
  absent b -> SymptomTimeline.timelineUrl user a b = SymptomTimeline.timelineUrl user a None.
Proof.
  intros H. unfold SymptomTimeline.timelineUrl.
  rewrite (absent_params_end a b H). reflexivity.
Qed.

(** C9: when the timeline element is on the page, [fetchTimelineData] issues
    one GET, to the URL built from the two filter inputs.  Its query string
    holds exactly the provided bounds, each under its own name and in the
    URL encoding (which leaves an ISO date as it is): a bound that is absent
    or empty is left out, and with no bound there is no query string. *)
Theorem C9_timeline_query (p : SymptomTimeline.page) (user s e : string)
  (a b : option string) :
  (SymptomTimeline.container p <> None ->
   SymptomTimeline.requests (SymptomTimeline.fetchTimelineData p)
   = SymptomTimeline.requests p
     ++ [{| JS.method := "GET";
            JS.url := SymptomTimeline.timelineUrl (SymptomTimeline.userId p)
                        (SymptomTimeline.timelineStartDate p)
                        (SymptomTimeline.timelineEndDate p);
            JS.body := None |}])
  /\ (s <> "" -> e <> "" ->
      SymptomTimeline.timelineParams (Some s) (Some e)
        = [("start_date", s); ("end_date", e)]
      /\ SymptomTimeline.timelineUrl user (Some s) (Some e)
         = "/api/users/" +++ user +++ "/timeline?start_date=" +++ JS.urlencode s
             +++ "&end_date=" +++ JS.urlencode e)
  /\ (s <> "" -> absent b ->
      SymptomTimeline.timelineParams (Some s) b = [("start_date", s)]
      /\ SymptomTimeline.timelineUrl user (Some s) b
         = "/api/users/" +++ user +++ "/timeline?start_date=" +++ JS.urlencode s)
  /\ (absent a -> e <> "" ->
      SymptomTimeline.timelineParams a (Some e) = [("end_date", e)]
      /\ SymptomTimeline.timelineUrl user a (Some e)
         = "/api/users/" +++ user +++ "/timeline?end_date=" +++ JS.urlencode e)
  /\ (absent a -> absent b ->
      SymptomTimeline.timelineParams a b = []
      /\ SymptomTimeline.timelineUrl user a b
         = "/api/users/" +++ user +++ "/timeline")
  /\ (plain s -> JS.urlencode s = s).
Proof.
  repeat apply conj.
  - unfold SymptomTimeline.fetchTimelineData.
    destruct (SymptomTimeline.container p); [reflexivity | congruence].
  - intros Hs He. apply String.eqb_neq in Hs, He.
    unfold SymptomTimeline.timelineUrl, SymptomTimeline.timelineParams.
    rewrite Hs, He. split; reflexivity.
  - intros Hs Hb. apply String.eqb_neq in Hs.
    rewrite timelineUrl_absent_end, absent_params_end by exact Hb.
    unfold SymptomTimeline.timelineUrl, SymptomTimeline.timelineParams.
    rewrite Hs. split; reflexivity.
  - intros Ha He. apply String.eqb_neq in He.
    rewrite timelineUrl_absent_start, absent_params_start by exact Ha.
    unfold SymptomTimeline.timelineUrl, SymptomTimeline.timelineParams.
    rewrite He. split; reflexivity.
  - intros Ha Hb.
    rewrite timelineUrl_absent_start, absent_params_start by exact Ha.
    rewrite timelineUrl_absent_end, absent_params_end by exact Hb.
    split; reflexivity.
  - apply urlencode_plain.
Qed.

Lemma C9_witness :
  SymptomTimeline.requests
    (SymptomTimeline.fetchTimelineData
       (Examples.timelinePage Examples.emptySymptomForm
          (Some "2024-01-01") (Some "2024-01-31")))
  = [] ++ [{| JS.method := "GET";
              JS.url := "/api/users/42/timeline?start_date=2024-01-01&end_date=2024-01-31";
              JS.body := None |}].
Proof.
  apply (C9_timeline_query
           (Examples.timelinePage Examples.emptySymptomForm
              (Some "2024-01-01") (Some "2024-01-31"))
           "42" "2024-01-01" "2024-01-31" None None).
  discriminate.
Defined.

Lemma timeline_without_container_sends_nothing (p : SymptomTimeline.page) :
  SymptomTimeline.container p = None ->
  SymptomTimeline.requests (SymptomTimeline.fetchTimelineData p)
  = SymptomTimeline.requests p.
Proof.
  intros H. unfold SymptomTimeline.fetchTimelineData. rewrite H. reflexivity.
Qed.

(** A bound that is not an ISO date is percent-encoded in the query. *)
Lemma timeline_query_encodes :
  SymptomTimeline.timelineUrl "42" (Some "2024-01-01T10:30") None
  = "/api/users/42/timeline?start_date=2024-01-01T10%3A30".
Proof. reflexivity. Qed.

(** ** Objects as maps: grouping *)

Section Objects.
Context {B : Type}.
Implicit Types (o : JS.obj B) (k : string).

Lemma get_None o k : JS.get o k = None <-> ~ In k (map fst o).
Proof.
  induction o as [| [k' l] o IH]; simpl; [tauto|].
  destruct (String.eqb_spec k' k) as [-> | Hne].
  - split; [discriminate | tauto].
  - rewrite IH. tauto.
Qed.

Lemma get_In o k l : JS.get o k = Some l -> In (k, l) o.
Proof.
  induction o as [| [k' l'] o IH]; simpl; [discriminate|].
  destruct (String.eqb_spec k' k) as [-> | Hne].
  - intros [= ->]. auto.
  - auto.
Qed.

Lemma In_get o k l : NoDup (map fst o) -> In (k, l) o -> JS.get o k = Some l.
Proof.
  induction o as [| [k' l'] o IH]; simpl; [tauto|].
  intros Hnd [[= -> ->] | Hin].
  - rewrite String.eqb_refl. reflexivity.
  - inversion Hnd as [| ? ? Hk Hnd']; subst.
    destruct (String.eqb_spec k' k) as [-> | Hne].
    + exfalso. apply Hk. apply (in_map fst) in Hin. exact Hin.
    + auto.
Qed.

Lemma get_app o o' k :
  JS.get (o ++ o') k = match JS.get o k with
                       | Some l => Some l
                       | None => JS.get o' k
                       end.
Proof.
  induction o as [| [k' l] o IH]; simpl; [reflexivity|].
  destruct (String.eqb k' k); auto.
Qed.

Lemma keys_append o k (v : B) : map fst (JS.append o k v) = map fst o.
Proof.
  induction o as [| [k' l] o IH]; simpl; [reflexivity|].
  destruct (String.eqb k' k); simpl; congruence.
Qed.

Lemma get_append o k (v : B) k' :
  JS.get (JS.append o k v) k'
  = if String.eqb k k'
    then option_map (fun l => l ++ [v]) (JS.get o k)
    else JS.get o k'.
Proof.
  induction o as [| [k0 l] o IH]; simpl.
  - destruct (String.eqb k k'); reflexivity.
  - destruct (String.eqb_spec k0 k) as [-> | Hne]; simpl.
    + destruct (String.eqb_spec k k'); reflexivity.
    + destruct (String.eqb_spec k0 k') as [-> | Hne'].
      * destruct (String.eqb_spec k k'); [congruence | reflexivity].
      * exact IH.
Qed.

Lemma get_ensure o k k' :
  JS.get (JS.ensure o k) k'
  = match JS.get o k' with
    | Some l => Some l
    | None => if String.eqb k k' then Some [] else None
    end.
Proof.
  unfold JS.ensure. destruct (JS.get o k) as [l|] eqn:E.
  - destruct (JS.get o k') as [l'|] eqn:E'; [reflexivity|].
    destruct (String.eqb_spec k k') as [-> | _]; [congruence | reflexivity].
  - rewrite get_app. simpl. destruct (JS.get o k'); reflexivity.
Qed.

Lemma keys_ensure o k :
  map fst (JS.ensure o k)
  = map fst o ++ (if in_dec string_dec k (map fst o) then [] else [k]).
Proof.
  unfold JS.ensure. destruct (JS.get o k) as [l|] eqn:E.
  - destruct (in_dec string_dec k (map fst o)) as [_ | Hn].
    + rewrite app_nil_r. reflexivity.
    + apply get_None in Hn. congruence.
  - apply get_None in E.
    destruct (in_dec string_dec k (map fst o)) as [Hi | _]; [tauto|].
    rewrite map_app. reflexivity.
Qed.

Lemma NoDup_ensure o k : NoDup (map fst o) -> NoDup (map fst (JS.ensure o k)).
Proof.
  intros H. rewrite keys_ensure.
  destruct (in_dec string_dec k (map fst o)) as [Hi | Hn].
  - rewrite app_nil_r. exact H.
  - apply NoDup_app; [exact H | repeat constructor; simpl; tauto |].
    intros x Hx [<- | []]. exact (Hn Hx).
Qed.

Context {A : Type}.
Variable sel : A -> option (string * B).

Lemma collect_snoc (l : list A) (a : A) :
  JS.collect sel (l ++ [a])
  = match sel a with
    | Some (k, v) => JS.append (JS.ensure (JS.collect sel l) k) k v
    | None => JS.collect sel l
    end.
Proof. unfold JS.collect. rewrite fold_left_app. reflexivity. Qed.

Lemma picks_app k (l l' : list A) :
  JS.picks sel k (l ++ l') = JS.picks sel k l ++ JS.picks sel k l'.
Proof.
  induction l as [| a l IH]; simpl; [reflexivity|].
  destruct (sel a) as [[k' v]|]; [|exact IH].
  destruct (String.eqb k' k); simpl; congruence.
Qed.

Lemma collect_NoDup (l : list A) : NoDup (map fst (JS.collect sel l)).
Proof.
  induction l as [| a l IH] using rev_ind; [constructor|].
  rewrite collect_snoc. destruct (sel a) as [[k v]|]; [|exact IH].
  rewrite keys_append. apply NoDup_ensure, IH.
Qed.

(** The array found under a key holds exactly the values pushed under it,
    in array order; a key is present when something was pushed under it. *)
Lemma collect_get (l : list A) k :
  JS.get (JS.collect sel l) k
  = match JS.picks sel k l with
    | [] => None
    | vs => Some vs
    end.
Proof.
  induction l as [| a l IH] using rev_ind; [reflexivity|].
  rewrite collect_snoc, picks_app. simpl.
  destruct (sel a) as [[k' v]|]; [|rewrite app_nil_r; exact IH].
  rewrite get_append.
  destruct (String.eqb_spec k' k) as [-> | Hne].
  - rewrite get_ensure, IH, String.eqb_refl.
    destruct (JS.picks sel k l); reflexivity.
  - rewrite get_ensure, IH, app_nil_r.
    destruct (JS.picks sel k l); [|reflexivity].
    destruct (String.eqb_spec k' k); [congruence | reflexivity].
Qed.

Lemma picks_In k (l : list A) (v : B) :
  In v (JS.picks sel k l) <-> exists a, In a l /\ sel a = Some (k, v).
Proof.
  induction l as [| a l IH]; simpl.
  - split; [tauto | intros [? [[] _]]].
  - destruct (sel a) as [[k' v']|] eqn:E.
    + destruct (String.eqb_spec k' k) as [-> | Hne]; simpl; rewrite IH.
      * split.
        -- intros [<- | [b [Hb Eb]]]; eauto.
        -- intros [b [[<- | Hb] Eb]]; [left; congruence | eauto].
      * split.
        -- intros [b [Hb Eb]]; eauto.
        -- intros [b [[<- | Hb] Eb]]; [congruence | eauto].
    + rewrite IH. split.
      * intros [b [Hb Eb]]; eauto.
      * intros [b [[<- | Hb] Eb]]; [congruence | eauto].
Qed.

Lemma collect_entry (l : list A) k (vs : list B) :
  In (k, vs) (JS.collect sel l) -> vs = JS.picks sel k l /\ vs <> [].
Proof.
  intros H. apply In_get in H; [|apply collect_NoDup].
  rewrite collect_get in H.
  destruct (JS.picks sel k l); [discriminate|].
  injection H as <-. split; [reflexivity | discriminate].
Qed.

Lemma collect_key (l : list A) k :
  In k (map fst (JS.collect sel l)) <-> JS.picks sel k l <> [].
Proof.
  split.
  - intros H. apply in_map_iff in H. destruct H as [[k' vs] [<- Hin]].
    apply collect_entry in Hin. simpl. destruct Hin as [<- Hne]. exact Hne.
  - intros H. destruct (in_dec string_dec k (map fst (JS.collect sel l)))
      as [Hi | Hn]; [exact Hi|].
    apply get_None in Hn. rewrite collect_get in Hn.
    destruct (JS.picks sel k l); [congruence | discriminate].
Qed.
End Objects.

Lemma picks_filter {A} (key : A -> string) k (l : list A) :
  JS.picks (fun a => Some (key a, a)) k l
  = filter (fun a => String.eqb (key a) k) l.
Proof.
  induction l as [| a l IH]; simpl; [reflexivity|].
  destruct (String.eqb (key a) k); simpl; congruence.
Qed.

(** ** Sorting *)

Section Sorting.
Context {A : Type}.
Variable cmp : A -> A -> option Z.

Lemma insert_perm (a : A) (l : list A) : Permutation (JS.insert cmp a l) (a :: l).
Proof.
  induction l as [| b l IH]; simpl; [reflexivity|].
  destruct (JS.precedes cmp a b); [reflexivity|].
  rewrite IH. apply perm_swap.
Qed.

Lemma sort_fold_perm (l acc : list A) :
  Permutation (fold_left (fun acc a => JS.insert cmp a acc) l acc) (acc ++ l).
Proof.
  revert acc. induction l as [| a l IH]; intros acc; simpl.
  - rewrite app_nil_r. reflexivity.
  - rewrite IH, insert_perm. apply Permutation_middle.
Qed.

Lemma sort_perm (l : list A) : Permutation (JS.sort cmp l) l.
Proof. unfold JS.sort. apply (sort_fold_perm l []). Qed.

Lemma sort_In (l : list A) (a : A) : In a (JS.sort cmp l) <-> In a l.
Proof.
  split; apply Permutation_in; [apply sort_perm | symmetry; apply sort_perm].
Qed.

(** The comparator is consistent on the elements satisfying [ok]: there it
    is the difference of an integer rank. *)
Variable rank : A -> Z.
Variable ok : A -> Prop.
Hypothesis cmp_rank :
  forall a b, ok a -> ok b -> cmp a b = Some (rank a - rank b).

Lemma insert_sorted (a : A) (l : list A) :
  ok a -> Forall ok l ->
  StronglySorted (fun a b => rank a <= rank b) l -> StronglySorted (fun a b => rank a <= rank b) (JS.insert cmp a l).
Proof.
  intros Ha Hl Hs. induction Hs as [| b l Hs IH Hb]; simpl.
  - repeat constructor.
  - inversion Hl as [| ? ? Hokb Hokl]; subst.
    unfold JS.precedes. rewrite (cmp_rank a b Ha Hokb).
    destruct (Z.ltb_spec (rank a - rank b) 0) as [Hlt | Hge].
    + constructor; [constructor; assumption|].
      constructor; [lia|].
      eapply Forall_impl; [|exact Hb]. simpl. intros; lia.
    + constructor; [apply IH; assumption|].
      eapply Permutation_Forall; [symmetry; apply insert_perm|].
      constructor; [lia | exact Hb].
Qed.

Lemma sort_fold_sorted (l acc : list A) :
  Forall ok l -> Forall ok acc -> StronglySorted (fun a b => rank a <= rank b) acc ->
  StronglySorted (fun a b => rank a <= rank b) (fold_left (fun acc a => JS.insert cmp a acc) l acc).
Proof.
  revert acc. induction l as [| a l IH]; intros acc Hl Hacc Hs; simpl; [exact Hs|].
  inversion Hl as [| ? ? Ha Hl']; subst.
  apply IH; [exact Hl' | | apply insert_sorted; assumption].
  eapply Permutation_Forall; [symmetry; apply insert_perm|].
  constructor; assumption.
Qed.

Lemma sort_sorted (l : list A) :
  Forall ok l -> StronglySorted (fun a b => rank a <= rank b) (JS.sort cmp l).
Proof.
  intros H. unfold JS.sort. apply sort_fold_sorted; [exact H | | ]; constructor.
Qed.
End Sorting.


Lemma sorted_strict {A} (rank : A -> Z) (l : list A) :
  NoDup l ->
  (forall a b, In a l -> In b l -> rank a = rank b -> a = b) ->
  StronglySorted (fun a b => rank a <= rank b) l ->
  StronglySorted (fun a b => rank a < rank b) l.
Proof.
  intros Hnd Hinj Hs. induction Hs as [| a l Hs IH Ha]; [constructor|].
  inversion Hnd as [| ? ? Hnotin Hnd']; subst.
  constructor.
  - apply IH; [exact Hnd'|]. intros x y Hx Hy. apply Hinj; right; assumption.
  - rewrite Forall_forall in *. intros b Hb. specialize (Ha b Hb).
    destruct (Z.eq_dec (rank a) (rank b)) as [E | Hne]; [|simpl in *; lia].
    exfalso. apply Hnotin.
    rewrite (Hinj a b (or_introl eq_refl) (or_intror Hb) E). exact Hb.
Qed.

Lemma firstn_In {A} (n : nat) (l : list A) (a : A) :
  In a (firstn n l) -> In a l.
Proof.
  intros H. rewrite <- (firstn_skipn n l). apply in_or_app. left. exact H.
Qed.

Lemma firstn_NoDup {A} (n : nat) (l : list A) : NoDup l -> NoDup (firstn n l).
Proof.
  intros H. rewrite <- (firstn_skipn n l) in H.
  eapply NoDup_app_remove_r. exact H.
Qed.

Lemma sorted_firstn {A} (R : A -> A -> Prop) (n : nat) (l : list A) :
  StronglySorted R l -> StronglySorted R (firstn n l).
Proof.
  intros H. revert n. induction H as [| a l Hs IH Ha]; intros [| n]; simpl;
    try constructor.
  - apply IH.
  - rewrite Forall_forall in *. intros b Hb. apply Ha.
    eapply firstn_In; exact Hb.
Qed.

Lemma sorted_map {A B} (f : A -> B) (R : B -> B -> Prop) (l : list A) :
  StronglySorted (fun a b => R (f a) (f b)) l -> StronglySorted R (map f l).
Proof.
  induction 1 as [| a l Hs IH Ha]; simpl; constructor; [exact IH|].
  rewrite Forall_forall in *. intros b Hb.
  apply in_map_iff in Hb. destruct Hb as [x [<- Hx]]. auto.
Qed.

(** ** Property order of an object *)

Lemma own_order_perm {B} (o : JS.obj B) : Permutation (JS.own_order o) o.
Proof.
  unfold JS.own_order. rewrite sort_perm.
  induction o as [| e o IH]; simpl; [reflexivity|].
  destruct (JS.is_index (fst e)); simpl.
  - apply perm_skip, IH.
  - rewrite <- Permutation_middle. apply perm_skip, IH.
Qed.

Lemma keys_perm {B} (o : JS.obj B) : Permutation (JS.keys o) (map fst o).
Proof. unfold JS.keys. apply Permutation_map, own_order_perm. Qed.

Lemma keys_NoDup {B} (o : JS.obj B) : NoDup (map fst o) -> NoDup (JS.keys o).
Proof.
  intros H. eapply Permutation_NoDup; [symmetry; apply keys_perm | exact H].
Qed.

Lemma sorted_impl {A} (R R' : A -> A -> Prop) (l : list A) :
  (forall a b, R a b -> R' a b) -> StronglySorted R l -> StronglySorted R' l.
Proof.
  intros H. induction 1 as [| a l Hs IH Ha]; constructor; [exact IH|].
  eapply Forall_impl; [|exact Ha]. intros b. apply H.
Qed.

(** ** Grouping by date *)

Lemma sorted_app_cross {A} (R : A -> A -> Prop) (l1 l2 : list A) :
  StronglySorted R (l1 ++ l2) ->
  forall a b, In a l1 -> In b l2 -> R a b.
Proof.
  induction l1 as [| x l1 IH]; simpl; [tauto|].
  intros H a b Ha Hb. inversion H as [| ? ? Hs Hx]; subst.
  destruct Ha as [<- | Ha].
  - rewrite Forall_forall in Hx. apply Hx. apply in_or_app. right. exact Hb.
  - eapply IH; eassumption.
Qed.

Lemma firstn_full_or_all {A} (n : nat) (l : list A) (a : A) :
  In a l -> ~ In a (firstn n l) -> List.length (firstn n l) = n.
Proof.
  intros Ha Hn. rewrite length_firstn.
  destruct (Nat.le_gt_cases n (List.length l)) as [Hle | Hgt]; [lia|].
  exfalso. apply Hn. rewrite firstn_all2 by lia. exact Ha.
Qed.

Section DateGroups.
Context {A B : Type}.
Variable h : JS.host.
Variable sel : A -> option (string * B).
Variable l : list A.

Lemma sortedKeys_In k : In k (keysByDateDesc h sel l) <-> JS.picks sel k l <> [].
Proof.
  unfold keysByDateDesc. rewrite sort_In. rewrite <- collect_key.
  split; apply Permutation_in; [apply keys_perm | symmetry; apply keys_perm].
Qed.

Lemma sortedKeys_NoDup : NoDup (keysByDateDesc h sel l).
Proof.
  unfold keysByDateDesc.
  eapply Permutation_NoDup; [symmetry; apply sort_perm|].
  apply keys_NoDup, collect_NoDup.
Qed.

Lemma sortedKeys_get k :
  In k (keysByDateDesc h sel l) -> JS.get (JS.collect sel l) k = Some (JS.picks sel k l).
Proof.
  intros H. apply sortedKeys_In in H. rewrite collect_get.
  destruct (JS.picks sel k l); [congruence | reflexivity].
Qed.

Hypothesis keys_parse :
  forall a k v, In a l -> sel a = Some (k, v) -> JS.parseDate h k <> None.

Lemma sortedKeys_parse : Forall (fun k => JS.parseDate h k <> None) (keysByDateDesc h sel l).
Proof.
  apply Forall_forall. intros k Hk. apply sortedKeys_In in Hk.
  destruct (JS.picks sel k l) as [| v vs] eqn:E; [congruence|].
  assert (Hv : In v (JS.picks sel k l)) by (rewrite E; left; reflexivity).
  apply picks_In in Hv. destruct Hv as [a [Ha Ea]]. eauto.
Qed.

Lemma sortedKeys_descending :
  StronglySorted (fun a b => timeOf h a >= timeOf h b) (keysByDateDesc h sel l).
Proof.
  apply sorted_impl with (R := fun a b => - timeOf h a <= - timeOf h b);
    [intros; lia|].
  unfold keysByDateDesc.
  eapply (sort_sorted _ (fun k => - timeOf h k)
            (fun k => JS.parseDate h k <> None)).
  - intros a b Ha Hb. unfold timeOf.
    destruct (JS.parseDate h a); [|congruence].
    destruct (JS.parseDate h b); [|congruence].
    simpl. f_equal. lia.
  - eapply Permutation_Forall; [apply sort_perm | apply sortedKeys_parse].
Qed.

Lemma sortedKeys_strict :
  (forall a b, In a (keysByDateDesc h sel l) -> In b (keysByDateDesc h sel l) ->
     JS.parseDate h a = JS.parseDate h b -> a = b) ->
  StronglySorted (fun a b => timeOf h a > timeOf h b) (keysByDateDesc h sel l).
Proof.
  intros Hinj.
  apply sorted_impl with (R := fun a b => - timeOf h a < - timeOf h b);
    [intros; lia|].
  apply sorted_strict; [apply sortedKeys_NoDup | |].
  - intros a b Ha Hb E. apply Hinj; [exact Ha | exact Hb |].
    pose proof sortedKeys_parse as Hp. rewrite Forall_forall in Hp.
    pose proof (Hp a Ha) as Pa. pose proof (Hp b Hb) as Pb.
    unfold timeOf in E.
    destruct (JS.parseDate h a); [|congruence].
    destruct (JS.parseDate h b); [|congruence].
    f_equal. lia.
  - apply sorted_impl with (R := fun a b => timeOf h a >= timeOf h b);
      [intros; lia | apply sortedKeys_descending].
Qed.
End DateGroups.

Lemma symptomsByDate_collect (l : list HealthDashboard.symptom) :
  HealthDashboard.symptomsByDate l = JS.collect (fun s => Some (dateString s, s)) l.
Proof. reflexivity. Qed.

Lemma groupedAssessments_fold h (l : list HealthRiskPredictor.assessment) log o :
  fold_left (HealthRiskPredictor.groupStep h) l (log, o)
  = (log ++ map (fun _ => HealthRiskPredictor.missingDate) (undated l),
     fold_left
       (fun o a =>
          match (if JS.present (HealthRiskPredictor.assessment_date a)
                 then Some (HealthRiskPredictor.dateKey h a, a) else None) with
          | Some (k, v) => JS.append (JS.ensure o k) k v
          | None => o
          end)
       l o).
Proof.
  revert log o. induction l as [| a l IH]; intros log o; simpl.
  - rewrite app_nil_r. reflexivity.
  - unfold HealthRiskPredictor.groupStep at 2.
    destruct (JS.present (HealthRiskPredictor.assessment_date a)); simpl.
    + apply IH.
    + rewrite IH. rewrite <- app_assoc. reflexivity.
Qed.

Lemma groupedAssessments_collect h (l : list HealthRiskPredictor.assessment) :
  HealthRiskPredictor.groupedAssessments h l
  = (map (fun _ => HealthRiskPredictor.missingDate) (undated l),
     JS.collect
       (fun a => if JS.present (HealthRiskPredictor.assessment_date a)
                 then Some (HealthRiskPredictor.dateKey h a, a) else None)
       l).
Proof.
  unfold HealthRiskPredictor.groupedAssessments.
  rewrite groupedAssessments_fold. reflexivity.
Qed.

Lemma picks_dated h k (l : list HealthRiskPredictor.assessment) :
  JS.picks
    (fun a => if JS.present (HealthRiskPredictor.assessment_date a)
              then Some (HealthRiskPredictor.dateKey h a, a) else None)
    k l
  = filter (fun a => String.eqb (HealthRiskPredictor.dateKey h a) k) (dated l).
Proof.
  unfold dated. induction l as [| a l IH]; simpl; [reflexivity|].
  destruct (JS.present (HealthRiskPredictor.assessment_date a)); simpl; [|exact IH].
  destruct (String.eqb (HealthRiskPredictor.dateKey h a) k); congruence.
Qed.

Lemma summary_groups h (l : list HealthDashboard.symptom) :
  HealthDashboard.renderSymptomsSummary h (Some l)
  = map (fun d =>
           {| HealthDashboard.group_date := d;
              HealthDashboard.heading := JS.toLocaleDateString h (JS.parseDate h d);
              HealthDashboard.items :=
                match JS.get (HealthDashboard.symptomsByDate l) d with
                | Some ss => ss
                | None => []
                end |})
        (firstn 7 (HealthDashboard.sortedDates h l)).
Proof. destruct l; reflexivity. Qed.

Lemma allDated_keys h (l : list HealthDashboard.symptom) :
  allDated h l ->
  forall a k v, In a l -> Some (dateString a, a) = Some (k, v) ->
    JS.parseDate h k <> None.
Proof.
  unfold allDated. rewrite Forall_forall. intros H a k v Ha [= <- <-]. auto.
Qed.

Lemma oneStringPerDate_keys h (l : list HealthDashboard.symptom) :
  oneStringPerDate h l ->
  forall a b, In a (HealthDashboard.sortedDates h l) ->
    In b (HealthDashboard.sortedDates h l) ->
    JS.parseDate h a = JS.parseDate h b -> a = b.
Proof.
  intros H a b Ha Hb E.
  apply (sortedKeys_In h (fun s => Some (dateString s, s)) l) in Ha, Hb.
  rewrite picks_filter in Ha, Hb.
  destruct (filter (fun s => String.eqb (dateString s) a) l) as [| sa ?] eqn:Ea;
    [congruence|].
  destruct (filter (fun s => String.eqb (dateString s) b) l) as [| sb ?] eqn:Eb;
    [congruence|].
  assert (Ia : In sa (filter (fun s => String.eqb (dateString s) a) l))
    by (rewrite Ea; left; reflexivity).
  assert (Ib : In sb (filter (fun s => String.eqb (dateString s) b) l))
    by (rewrite Eb; left; reflexivity).
  apply filter_In in Ia, Ib. destruct Ia as [Ia Ka], Ib as [Ib Kb].
  apply String.eqb_eq in Ka, Kb. subst a b. apply H; assumption.
Qed.

Lemma dashboard_groups h (symptoms : list HealthDashboard.symptom) :
  allDated h symptoms ->
  let gs := HealthDashboard.renderSymptomsSummary h (Some symptoms) in
  mostRecentFirst h gs
  /\ NoDup (map HealthDashboard.group_date gs)
  /\ (oneStringPerDate h symptoms -> strictlyMostRecentFirst h gs)
  /\ (forall g, In g gs ->
        HealthDashboard.items g
        = filter (fun s => String.eqb (dateString s) (HealthDashboard.group_date g))
                 symptoms
        /\ HealthDashboard.items g <> []).
Proof.
  intros Hd gs. unfold gs. rewrite summary_groups.
  pose proof (allDated_keys h symptoms Hd) as Hk.
  repeat apply conj.
  - unfold mostRecentFirst. apply sorted_map. cbn [HealthDashboard.group_date]. apply sorted_firstn.
    apply (sortedKeys_descending h (fun s => Some (dateString s, s)) symptoms Hk).
  - rewrite map_map. cbn [HealthDashboard.group_date]. rewrite map_id. apply firstn_NoDup.
    apply (sortedKeys_NoDup h (fun s => Some (dateString s, s)) symptoms).
  - intros H1. unfold strictlyMostRecentFirst. apply sorted_map. cbn [HealthDashboard.group_date].
    apply sorted_firstn.
    apply (sortedKeys_strict h (fun s => Some (dateString s, s)) symptoms Hk).
    apply (oneStringPerDate_keys h symptoms H1).
  - intros g Hg. apply in_map_iff in Hg. destruct Hg as [d [<- Hin]].
    cbn [HealthDashboard.group_date HealthDashboard.items].
    apply firstn_In in Hin.
    pose proof (sortedKeys_get h (fun s => Some (dateString s, s)) symptoms d Hin) as G.
    pose proof (proj1 (sortedKeys_In h (fun s => Some (dateString s, s)) symptoms d) Hin) as N.
    rewrite symptomsByDate_collect, G. rewrite picks_filter in *. auto.
Qed.

Lemma predictor_groups h (l : list HealthRiskPredictor.assessment) :
  l <> [] ->
  HealthRiskPredictor.renderRiskAssessments h true (Some l)
  = ([JS.Log "Rendering risk assessments"]
       ++ map (fun _ => HealthRiskPredictor.missingDate) (undated l)
       ++ [JS.Log "Grouped assessments by dates"],
     HealthRiskPredictor.Groups
       (map (fun d =>
               (d, match JS.get
                           (JS.collect
                              (fun a => if JS.present (HealthRiskPredictor.assessment_date a)
                                        then Some (HealthRiskPredictor.dateKey h a, a)
                                        else None) l) d with
                   | Some l => l
                   | None => []
                   end))
            (JS.sort (HealthRiskPredictor.byDateDesc h)
               (JS.keys
                  (JS.collect
                     (fun a => if JS.present (HealthRiskPredictor.assessment_date a)
                               then Some (HealthRiskPredictor.dateKey h a, a)
                               else None) l))))).
Proof.
  intros Hl. destruct l as [| a l]; [congruence|].
  unfold HealthRiskPredictor.renderRiskAssessments.
  cbv beta iota delta [negb]. rewrite groupedAssessments_collect. reflexivity.
Qed.

Lemma allDaysParse_keys h (l : list HealthRiskPredictor.assessment) :
  allDaysParse h l ->
  forall a k v, In a l ->
    (if JS.present (HealthRiskPredictor.assessment_date a)
     then Some (HealthRiskPredictor.dateKey h a, a) else None) = Some (k, v) ->
    JS.parseDate h k <> None.
Proof.
  unfold allDaysParse, dated. rewrite Forall_forall. intros H a k v Ha E.
  destruct (JS.present (HealthRiskPredictor.assessment_date a)) eqn:P;
    [|discriminate].
  injection E as <- <-. apply H. apply filter_In. auto.
Qed.

Lemma predictor_day_groups h (l : list HealthRiskPredictor.assessment) :
  allDaysParse h l ->
  let days := groupsOf (snd (HealthRiskPredictor.renderRiskAssessments h true (Some l))) in
  daysMostRecentFirst h days
  /\ NoDup (map fst days)
  /\ (forall d items, In (d, items) days ->
        items = filter (fun a => String.eqb (HealthRiskPredictor.dateKey h a) d) (dated l)
        /\ items <> []).
Proof.
  intros Hd days. unfold days.
  destruct l as [| a0 l0]; [simpl; repeat split; try constructor; tauto|].
  set (l := a0 :: l0) in *.
  rewrite predictor_groups by discriminate. simpl.
  pose proof (allDaysParse_keys h l Hd) as Hk.
  repeat apply conj.
  - unfold daysMostRecentFirst. apply sorted_map. simpl.
    apply (sortedKeys_descending h _ l Hk).
  - rewrite map_map. simpl. rewrite map_id.
    apply (sortedKeys_NoDup h _ l).
  - intros d items Hin. apply in_map_iff in Hin. destruct Hin as [k [E Hin]].
    injection E as <- <-.
    pose proof (sortedKeys_get h _ l k Hin) as G.
    pose proof (proj1 (sortedKeys_In h _ l k) Hin) as N.
    rewrite G. rewrite picks_dated in *. auto.
Qed.

Lemma predictor_group_members h (l : list HealthRiskPredictor.assessment) d items :
  In (d, items)
     (groupsOf (snd (HealthRiskPredictor.renderRiskAssessments h true (Some l)))) ->
  items = filter (fun a => String.eqb (HealthRiskPredictor.dateKey h a) d) (dated l).
Proof.
  destruct l as [| a0 l0]; [simpl; tauto|].
  set (l := a0 :: l0). rewrite predictor_groups by discriminate. simpl.
  intros Hin. apply in_map_iff in Hin. destruct Hin as [k [E Hin]].
  injection E as <- <-.
  rewrite (sortedKeys_get h _ l k Hin). apply picks_dated.
Qed.

Lemma predictor_dated_is_grouped h (l : list HealthRiskPredictor.assessment) a :
  In a (dated l) ->
  exists items,
    In (HealthRiskPredictor.dateKey h a, items)
       (groupsOf (snd (HealthRiskPredictor.renderRiskAssessments h true (Some l))))
    /\ In a items.
Proof.
  intros Ha.
  destruct l as [| a0 l0]; [simpl in Ha; tauto|].
  set (l := a0 :: l0) in *. rewrite predictor_groups by discriminate. simpl.
  set (k := HealthRiskPredictor.dateKey h a).
  assert (Hf : In a (filter (fun b => String.eqb (HealthRiskPredictor.dateKey h b) k)
                            (dated l))).
  { apply filter_In. split; [exact Ha | apply String.eqb_refl]. }
  assert (Hk : In k (JS.sort (HealthRiskPredictor.byDateDesc h)
                       (JS.keys (JS.collect
                          (fun a => if JS.present (HealthRiskPredictor.assessment_date a)
                                    then Some (HealthRiskPredictor.dateKey h a, a)
                                    else None) l)))).
  { apply (sortedKeys_In h _ l k). rewrite picks_dated.
    intros E. rewrite E in Hf. exact Hf. }
  exists (filter (fun b => String.eqb (HealthRiskPredictor.dateKey h b) k) (dated l)).
  split; [|exact Hf].
  apply in_map_iff. exists k. split; [|exact Hk].
  rewrite (sortedKeys_get h _ l k Hk), picks_dated. reflexivity.
Qed.

(** The dashboard summary keeps the most recent date strings: a symptom whose
    date string is not shown is not more recent than any that is, and 7
    groups are then shown. *)
Lemma dashboard_cap h (symptoms : list HealthDashboard.symptom) :
  allDated h symptoms ->
  let gs := HealthDashboard.renderSymptomsSummary h (Some symptoms) in
  (List.length gs <= 7)%nat
  /\ (forall s, In s symptoms ->
        ~ In (dateString s) (map HealthDashboard.group_date gs) ->
        List.length gs = 7%nat
        /\ forall g, In g gs ->
             timeOf h (HealthDashboard.group_date g) >= timeOf h (dateString s)).
Proof.
  intros Hd gs. unfold gs. rewrite summary_groups.
  set (ks := HealthDashboard.sortedDates h symptoms).
  rewrite length_map, map_map. cbn [HealthDashboard.group_date]. rewrite map_id.
  split; [apply firstn_le_length|].
  intros s Hs Hout.
  assert (Hk : In (dateString s) ks).
  { apply (sortedKeys_In h (fun s => Some (dateString s, s)) symptoms).
    rewrite picks_filter. intros E.
    assert (Hin : In s (filter (fun a => String.eqb (dateString a) (dateString s)) symptoms))
      by (apply filter_In; split; [exact Hs | apply String.eqb_refl]).
    rewrite E in Hin. exact Hin. }
  split; [apply (firstn_full_or_all 7 ks (dateString s) Hk Hout)|].
  intros g Hg. apply in_map_iff in Hg. destruct Hg as [d [<- Hd7]].
  cbn [HealthDashboard.group_date].
  assert (Hrest : In (dateString s) (skipn 7 ks)).
  { rewrite <- (firstn_skipn 7 ks) in Hk. apply in_app_or in Hk. tauto. }
  pose proof (sortedKeys_descending h (fun s => Some (dateString s, s)) symptoms
                (allDated_keys h symptoms Hd)) as Hsorted.
  change (keysByDateDesc h (fun s0 => Some (dateString s0, s0)) symptoms) with ks in Hsorted.
  rewrite <- (firstn_skipn 7 ks) in Hsorted.
  exact (sorted_app_cross _ _ _ Hsorted d (dateString s) Hd7 Hrest).
Qed.

Lemma group_items {A B} (sel : A -> option (string * B)) (l : list A) k :
  match JS.get (JS.collect sel l) k with
  | Some vs => vs
  | None => []
  end = JS.picks sel k l.
Proof.
  rewrite collect_get. destruct (JS.picks sel k l); reflexivity.
Qed.

(** On a host that reads its day strings back in date order, the day strings
    of the risk list are sorted strictly. *)
Lemma predictor_keys_strict h (l : list HealthRiskPredictor.assessment) :
  daysReadBack h l ->
  StronglySorted (fun k k' => timeOf h k > timeOf h k')
    (keysByDateDesc h
       (fun a => if JS.present (HealthRiskPredictor.assessment_date a)
                 then Some (HealthRiskPredictor.dateKey h a, a) else None) l).
Proof.
  intros [Hparse Hback].
  apply (sortedKeys_strict h _ l (allDaysParse_keys h l Hparse)).
  intros k k' Hin Hin' E.
  apply (sortedKeys_In h _ l) in Hin, Hin'. rewrite picks_dated in Hin, Hin'.
  destruct (filter (fun a => String.eqb (HealthRiskPredictor.dateKey h a) k) (dated l))
    as [| a ?] eqn:Ea; [congruence|].
  destruct (filter (fun a => String.eqb (HealthRiskPredictor.dateKey h a) k') (dated l))
    as [| b ?] eqn:Eb; [congruence|].
  assert (Ia : In a (filter (fun a => String.eqb (HealthRiskPredictor.dateKey h a) k) (dated l)))
    by (rewrite Ea; left; reflexivity).
  assert (Ib : In b (filter (fun a => String.eqb (HealthRiskPredictor.dateKey h a) k') (dated l)))
    by (rewrite Eb; left; reflexivity).
  apply filter_In in Ia, Ib. destruct Ia as [Ia Ka], Ib as [Ib Kb].
  apply String.eqb_eq in Ka, Kb. subst k k'.
  apply (Hback a b Ia Ib). unfold timeOf. rewrite E. reflexivity.
Qed.

(** The day groups then run from the most recent assessments to the
    oldest. *)
Lemma predictor_newest_first h (l : list HealthRiskPredictor.assessment) :
  daysReadBack h l ->
  let days :=
    groupsOf (snd (HealthRiskPredictor.renderRiskAssessments h true (Some l))) in
  newestDayFirst h days /\ daysStrictlyMostRecentFirst h days.
Proof.
  intros Hrb days. unfold days. pose proof Hrb as [Hparse Hback].
  destruct l as [| a0 l0]; [split; constructor|].
  set (l := a0 :: l0) in *.
  rewrite predictor_groups by discriminate. cbn [snd groupsOf].
  pose proof (predictor_keys_strict h l Hrb) as Hstrict.
  assert (Hmem : forall k a,
            In a (snd (k, match JS.get
                                  (JS.collect
                                     (fun a => if JS.present (HealthRiskPredictor.assessment_date a)
                                               then Some (HealthRiskPredictor.dateKey h a, a)
                                               else None) l) k with
                          | Some vs => vs
                          | None => []
                          end)) ->
            In a (dated l) /\ HealthRiskPredictor.dateKey h a = k).
  { intros k a Ha. cbn [snd] in Ha.
    rewrite group_items, picks_dated in Ha.
    apply filter_In in Ha. destruct Ha as [Ha Ka].
    apply String.eqb_eq in Ka. tauto. }
  split.
  - unfold newestDayFirst. apply sorted_map.
    apply sorted_impl with (R := fun k k' => timeOf h k > timeOf h k');
      [|exact Hstrict].
    intros k k' Hgt a b Ha Hb.
    apply Hmem in Ha, Hb. destruct Ha as [Ha <-], Hb as [Hb <-].
    destruct (Hback a b Ha Hb) as [Hmono _].
    destruct (Z_le_gt_dec (assessedAt h a) (assessedAt h b)) as [Hle | Hgt'];
      [|exact Hgt'].
    apply Hmono in Hle. lia.
  - unfold daysStrictlyMostRecentFirst. apply sorted_map. exact Hstrict.
Qed.

(** C4 (as amended): when every date string parses (and none is the name of
    an inherited member, at which the grouping throws), the date groups of
    the dashboard summary have pairwise distinct date strings and come most
    recent first, strictly so when distinct strings denote distinct times;
    they are the groups of the 7 most recent date strings; each group holds
    the records of its date string in input order.  The day groups of the
    risk-assessment list have pairwise distinct day strings, each holding
    its assessments in input order; they are ordered by reading the day
    strings back, so that, on a host that reads its day strings back in
    date order, the days are strictly descending and every assessment of a
    group is strictly more recent than every assessment of the groups that
    follow. *)
Theorem C4_groups_most_recent_first_and_stable (h : JS.host)
  (symptoms : list HealthDashboard.symptom)
  (assessments : list HealthRiskPredictor.assessment) :
  allDated h symptoms ->
  ownDates symptoms ->
  daysReadBack h assessments ->
  let gs := HealthDashboard.renderSymptomsSummary h (Some symptoms) in
  let days :=
    groupsOf (snd (HealthRiskPredictor.renderRiskAssessments h true (Some assessments))) in
  (mostRecentFirst h gs
   /\ NoDup (map HealthDashboard.group_date gs)
   /\ (oneStringPerDate h symptoms -> strictlyMostRecentFirst h gs)
   /\ (List.length gs <= 7)%nat
   /\ (forall s, In s symptoms ->
         ~ In (dateString s) (map HealthDashboard.group_date gs) ->
         List.length gs = 7%nat
         /\ forall g, In g gs ->
              timeOf h (HealthDashboard.group_date g) >= timeOf h (dateString s))
   /\ (forall g, In g gs ->
         HealthDashboard.items g
         = filter (fun s => String.eqb (dateString s) (HealthDashboard.group_date g))
                  symptoms
         /\ HealthDashboard.items g <> []))
  /\ (newestDayFirst h days
      /\ daysStrictlyMostRecentFirst h days
      /\ NoDup (map fst days)
      /\ (forall a, In a (dated assessments) ->
            exists items, In (HealthRiskPredictor.dateKey h a, items) days)
      /\ (forall d items, In (d, items) days ->
            items = filter (fun a => String.eqb (HealthRiskPredictor.dateKey h a) d)
                           (dated assessments)
            /\ items <> [])).
Proof.
  intros Hs _ Ha gs days.
  destruct (dashboard_groups h symptoms Hs) as (G1 & G2 & G3 & G4).
  destruct (dashboard_cap h symptoms Hs) as (G5 & G6).
  pose proof Ha as [Hparse _].
  destruct (predictor_day_groups h assessments Hparse) as (D1 & D2 & D3).
  split.
  - split; [exact G1|]. split; [exact G2|]. split; [exact G3|].
    split; [exact G5|]. split; [exact G6 | exact G4].
  - destruct (predictor_newest_first h assessments Ha) as [N1 N2].
    split; [exact N1|]. split; [exact N2|].
    split; [exact D2|]. split; [|exact D3].
    intros a Hin. destruct (predictor_dated_is_grouped h assessments a Hin)
      as [items [Hi _]]. exists items. exact Hi.
Qed.

Lemma C4_witness :
  let gs := HealthDashboard.renderSymptomsSummary Examples.host
              (Some [Examples.coughJan1; Examples.feverJan2; Examples.headacheJan1]) in
  let days :=
    groupsOf (snd (HealthRiskPredictor.renderRiskAssessments Examples.host true
                     (Some [Examples.diabetesJan1; Examples.anemiaNoDate;
                            Examples.asthmaJan2]))) in
  (mostRecentFirst Examples.host gs
   /\ NoDup (map HealthDashboard.group_date gs)
   /\ (oneStringPerDate Examples.host
         [Examples.coughJan1; Examples.feverJan2; Examples.headacheJan1] ->
       strictlyMostRecentFirst Examples.host gs)
   /\ (List.length gs <= 7)%nat
   /\ (forall s, In s [Examples.coughJan1; Examples.feverJan2; Examples.headacheJan1] ->
         ~ In (dateString s) (map HealthDashboard.group_date gs) ->
         List.length gs = 7%nat
         /\ forall g, In g gs ->
              timeOf Examples.host (HealthDashboard.group_date g)
              >= timeOf Examples.host (dateString s))
   /\ (forall g, In g gs ->
         HealthDashboard.items g
         = filter (fun s => String.eqb (dateString s) (HealthDashboard.group_date g))
                  [Examples.coughJan1; Examples.feverJan2; Examples.headacheJan1]
         /\ HealthDashboard.items g <> []))
  /\ (newestDayFirst Examples.host days
      /\ daysStrictlyMostRecentFirst Examples.host days
      /\ NoDup (map fst days)
      /\ (forall a, In a (dated [Examples.diabetesJan1; Examples.anemiaNoDate;
                                 Examples.asthmaJan2]) ->
            exists items, In (HealthRiskPredictor.dateKey Examples.host a, items) days)
      /\ (forall d items, In (d, items) days ->
            items = filter (fun a => String.eqb (HealthRiskPredictor.dateKey Examples.host a) d)
                           (dated [Examples.diabetesJan1; Examples.anemiaNoDate;
                                   Examples.asthmaJan2])
            /\ items <> [])).
Proof.
  apply (C4_groups_most_recent_first_and_stable Examples.host
           [Examples.coughJan1; Examples.feverJan2; Examples.headacheJan1]
           [Examples.diabetesJan1; Examples.anemiaNoDate; Examples.asthmaJan2]).
  - repeat constructor; discriminate.
  - repeat constructor.
  - split; [repeat constructor; discriminate|].
    intros a b Ha Hb. simpl in Ha, Hb.
    destruct Ha as [<- | [<- | []]]; destruct Hb as [<- | [<- | []]];
      vm_compute; split; intros H; try reflexivity; try discriminate;
      exfalso; apply H; reflexivity.
Defined.

(** On a host with a day-first locale the day strings do not read back in
    date order, and the older assessment comes first. *)
Lemma risk_list_day_first_host_example :
  snd (HealthRiskPredictor.renderRiskAssessments Examples.dayFirstHost true
         (Some [Examples.fluFeb1; Examples.goutJan3]))
  = HealthRiskPredictor.Groups
      [("03/01/2024", [Examples.goutJan3]); ("01/02/2024", [Examples.fluFeb1])]
  /\ assessedAt Examples.dayFirstHost Examples.goutJan3
     < assessedAt Examples.dayFirstHost Examples.fluFeb1.
Proof. split; reflexivity. Qed.

(** The date groups of three symptoms, computed. *)
Lemma summary_example :
  map (fun g => (HealthDashboard.group_date g, HealthDashboard.heading g,
                 HealthDashboard.items g))
      (HealthDashboard.renderSymptomsSummary Examples.host
         (Some [Examples.coughJan1; Examples.feverJan2; Examples.headacheJan1]))
  = [("2024-01-02", "1/2/2024", [Examples.feverJan2]);
     ("2024-01-01", "1/1/2024", [Examples.coughJan1; Examples.headacheJan1])].
Proof. reflexivity. Qed.

(** C4, counterexample: two dated records whose date strings differ but
    denote the same time form two groups of equal date, so the groups are not
    strictly descending by date. *)
Lemma C4_counterexample :
  allDated Examples.host [Examples.coughJan1; Examples.nauseaJan1Utc]
  /\ map (fun g => (HealthDashboard.group_date g,
                    timeOf Examples.host (HealthDashboard.group_date g),
                    HealthDashboard.items g))
         (HealthDashboard.renderSymptomsSummary Examples.host
            (Some [Examples.coughJan1; Examples.nauseaJan1Utc]))
     = [("2024-01-01", 1704067200000, [Examples.coughJan1]);
        ("2024-01-01T00:00:00.000Z", 1704067200000, [Examples.nauseaJan1Utc])]
  /\ ~ strictlyMostRecentFirst Examples.host
         (HealthDashboard.renderSymptomsSummary Examples.host
            (Some [Examples.coughJan1; Examples.nauseaJan1Utc])).
Proof.
  split; [repeat constructor; discriminate|].
  split; [reflexivity|].
  unfold strictlyMostRecentFirst. intros H.
  inversion H as [| g gs Hs Hf]; subst.
  inversion Hf as [| g' gs' Hgt _]; subst.
  vm_compute in Hgt. discriminate.
Qed.

(** ** Records without a date *)

Lemma symptomsByDate_keeps_all (l : list HealthDashboard.symptom) s :
  In s l ->
  exists ss, JS.get (HealthDashboard.symptomsByDate l) (dateString s) = Some ss
             /\ In s ss.
Proof.
  intros Hs. rewrite symptomsByDate_collect, collect_get, picks_filter.
  assert (Hf : In s (filter (fun a => String.eqb (dateString a) (dateString s)) l)).
  { apply filter_In. split; [exact Hs | apply String.eqb_refl]. }
  destruct (filter (fun a => String.eqb (dateString a) (dateString s)) l) as [| x xs];
    [destruct Hf|].
  eexists. split; [reflexivity | exact Hf].
Qed.

(** C8 (as amended): in the risk-assessment list, an assessment whose date
    is missing (absent, null or empty) is in no group, and the console holds
    one warning for each such assessment; an assessment whose date is present
    and parses is in the group of its day.  The dashboard summary has no such
    check: every symptom, dated or not, is collected under the string of its
    date field, and nothing is written to the console (the date strings
    being no names of inherited members such as "constructor", at which the
    grouping throws). *)
Theorem C8_missing_assessment_date_skipped_with_warning (h : JS.host)
  (assessments : list HealthRiskPredictor.assessment)
  (symptoms : list HealthDashboard.symptom) :
  assessments <> [] ->
  let r := HealthRiskPredictor.renderRiskAssessments h true (Some assessments) in
  (forall a d items, In (d, items) (groupsOf (snd r)) -> In a items ->
     JS.present (HealthRiskPredictor.assessment_date a) = true)
  /\ fst r = [JS.Log "Rendering risk assessments"]
             ++ map (fun _ => HealthRiskPredictor.missingDate) (undated assessments)
             ++ [JS.Log "Grouped assessments by dates"]
  /\ (forall a, In a assessments ->
        JS.present (HealthRiskPredictor.assessment_date a) = true ->
        JS.newDate h (HealthRiskPredictor.assessment_date a) <> None ->
        exists items,
          In (HealthRiskPredictor.dateKey h a, items) (groupsOf (snd r))
          /\ In a items)
  /\ (ownDates symptoms ->
      forall s, In s symptoms ->
        exists ss,
          JS.get (HealthDashboard.symptomsByDate symptoms) (dateString s) = Some ss
          /\ In s ss).
Proof.
  intros Hne r. repeat apply conj.
  - intros a d items Hin Ha. apply predictor_group_members in Hin. subst items.
    apply filter_In in Ha. destruct Ha as [Ha _].
    apply filter_In in Ha. tauto.
  - unfold r. rewrite predictor_groups by exact Hne. reflexivity.
  - intros a Ha Hp _. apply predictor_dated_is_grouped.
    apply filter_In. auto.
  - intros _ s Hs. apply symptomsByDate_keeps_all, Hs.
Qed.

Lemma C8_witness :
  let r := HealthRiskPredictor.renderRiskAssessments Examples.host true
             (Some [Examples.diabetesJan1; Examples.anemiaNoDate; Examples.asthmaJan2]) in
  (forall a d items, In (d, items) (groupsOf (snd r)) -> In a items ->
     JS.present (HealthRiskPredictor.assessment_date a) = true)
  /\ fst r = [JS.Log "Rendering risk assessments"]
             ++ map (fun _ => HealthRiskPredictor.missingDate)
                    (undated [Examples.diabetesJan1; Examples.anemiaNoDate;
                              Examples.asthmaJan2])
             ++ [JS.Log "Grouped assessments by dates"]
  /\ (forall a, In a [Examples.diabetesJan1; Examples.anemiaNoDate; Examples.asthmaJan2] ->
        JS.present (HealthRiskPredictor.assessment_date a) = true ->
        JS.newDate Examples.host (HealthRiskPredictor.assessment_date a) <> None ->
        exists items,
          In (HealthRiskPredictor.dateKey Examples.host a, items) (groupsOf (snd r))
          /\ In a items)
  /\ (forall s, In s [Examples.coughJan1; Examples.rashNoDate] ->
        exists ss,
          JS.get (HealthDashboard.symptomsByDate [Examples.coughJan1; Examples.rashNoDate])
                 (dateString s) = Some ss
          /\ In s ss).
Proof.
  destruct (C8_missing_assessment_date_skipped_with_warning Examples.host
              [Examples.diabetesJan1; Examples.anemiaNoDate; Examples.asthmaJan2]
              [Examples.coughJan1; Examples.rashNoDate])
    as (H1 & H2 & H3 & H4); [discriminate|].
  split; [exact H1|]. split; [exact H2|]. split; [exact H3|].
  apply H4. repeat constructor.
Defined.

(** The view and the console for three assessments, computed: the undated
    assessment is left out and one warning is logged. *)
Lemma assessments_example :
  HealthRiskPredictor.renderRiskAssessments Examples.host true
    (Some [Examples.diabetesJan1; Examples.anemiaNoDate; Examples.asthmaJan2])
  = ([JS.Log "Rendering risk assessments";
      JS.Warn "Assessment missing assessment_date:";
      JS.Log "Grouped assessments by dates"],
     HealthRiskPredictor.Groups
       [("1/2/2024", [Examples.asthmaJan2]); ("1/1/2024", [Examples.diabetesJan1])]).
Proof. reflexivity. Qed.

(** C8, counterexample: the dashboard summary renders a symptom that has no
    date, under the key "undefined" and the heading "Invalid Date"; it is
    neither excluded nor reported. *)
Lemma C8_counterexample :
  map (fun g => (HealthDashboard.group_date g, HealthDashboard.heading g,
                 HealthDashboard.items g))
      (HealthDashboard.renderSymptomsSummary Examples.host (Some [Examples.rashNoDate]))
  = [("undefined", "Invalid Date", [Examples.rashNoDate])]
  /\ exists g,
       In g (HealthDashboard.renderSymptomsSummary Examples.host
               (Some [Examples.rashNoDate]))
       /\ In Examples.rashNoDate (HealthDashboard.items g).
Proof.
  split; [reflexivity|].
  eexists. split; [left; reflexivity | left; reflexivity].
Qed.

(** An assessment whose date is present but does not parse is not skipped
    either: [toLocaleDateString] answers "Invalid Date" without throwing, so
    the assessment is grouped under that key and no error is logged. *)
Lemma predictor_unparsable_date_is_grouped :
  HealthRiskPredictor.renderRiskAssessments Examples.host true
    (Some [Examples.goutBadDate])
  = ([JS.Log "Rendering risk assessments";
      JS.Log "Grouped assessments by dates"],
     HealthRiskPredictor.Groups [("Invalid Date", [Examples.goutBadDate])]).
Proof. reflexivity. Qed.

(** ** Chart series *)

Lemma indexed_In {A} (l : list A) n i (a : A) :
  In (i, a) (HealthDashboard.indexed n l) -> In a l.
Proof.
  revert n. induction l as [| b l IH]; intros n; simpl; [tauto|].
  intros [[= _ ->] | H]; [left; reflexivity | right; eapply IH; exact H].
Qed.

Lemma byDatetimeDesc_rank h (a b : HealthDashboard.health_symptom) :
  JS.newDate h (HealthDashboard.datetime a) <> None ->
  JS.newDate h (HealthDashboard.datetime b) <> None ->
  HealthDashboard.byDatetimeDesc h a b
  = Some ((fun s => - match JS.newDate h (HealthDashboard.datetime s) with
                      | Some t => t
                      | None => 0
                      end) a
          - (fun s => - match JS.newDate h (HealthDashboard.datetime s) with
                        | Some t => t
                        | None => 0
                        end) b).
Proof.
  unfold HealthDashboard.byDatetimeDesc. intros Ha Hb.
  destruct (JS.newDate h (HealthDashboard.datetime a)); [|congruence].
  destruct (JS.newDate h (HealthDashboard.datetime b)); [|congruence].
  simpl. f_equal. lia.
Qed.



(** The grouping of [renderSymptomChart] throws exactly when a symptom is
    named after an inherited member; otherwise it is the shared loop. *)
Lemma grouped_collect h (l : list HealthDashboard.health_symptom) :
  HealthDashboard.grouped h l
  = if existsb (fun s => JS.inherited (nameOf s)) l then None
    else Some (JS.collect (fun s => Some (nameOf s, pointOf h s)) l).
Proof.
  induction l as [| a l IH] using rev_ind; [reflexivity|].
  unfold HealthDashboard.grouped in *. rewrite fold_left_app. cbn [fold_left].
  rewrite IH, existsb_app. cbn [existsb]. rewrite orb_false_r.
  destruct (existsb (fun s => JS.inherited (nameOf s)) l); [reflexivity|].
  cbn [orb]. unfold JS.group. fold (nameOf a).
  destruct (JS.inherited (nameOf a)); [reflexivity|].
  rewrite collect_snoc. reflexivity.
Qed.

Lemma renderSymptomChart_some h (l : list HealthDashboard.health_symptom) chart :
  HealthDashboard.renderSymptomChart h l = Some chart ->
  existsb (fun s => JS.inherited (nameOf s)) l = false
  /\ chart = HealthDashboard.datasets
               (JS.collect (fun s => Some (nameOf s, pointOf h s)) l).
Proof.
  unfold HealthDashboard.renderSymptomChart. rewrite grouped_collect.
  destruct (existsb (fun s => JS.inherited (nameOf s)) l); [discriminate|].
  intros [= <-]. split; reflexivity.
Qed.








(** The chart of three symptoms, computed: the Fever series runs from the first
    day to the second. *)
Lemma symptom_chart_example :
  option_map
    (map (fun sr => (HealthDashboard.label sr,
                     map pointTime (HealthDashboard.points sr),
                     HealthDashboard.series_borderColor sr)))
    (HealthDashboard.dashboardSymptomChart Examples.host
       [Examples.feverDay1; Examples.feverDay2; Examples.coughDay3])
  = Some [("Cough", [1704240000000], "#5E936C");
          ("Fever", [1704067200000; 1704153600000], "#FF6B6B")].
Proof. reflexivity. Qed.

(** Two symptoms of different names recorded at the same instant: each
    series has distinct times, yet the order of the series and their colours
    follow the order of the payload. *)
Lemma symptom_chart_tie_example :
  option_map
    (map (fun sr => (HealthDashboard.label sr, HealthDashboard.series_borderColor sr)))
    (HealthDashboard.dashboardSymptomChart Examples.host
       [Examples.feverDay1; Examples.coughDay1])
  = Some [("Fever", "#5E936C"); ("Cough", "#FF6B6B")]
  /\ option_map
       (map (fun sr => (HealthDashboard.label sr, HealthDashboard.series_borderColor sr)))
       (HealthDashboard.dashboardSymptomChart Examples.host
          [Examples.coughDay1; Examples.feverDay1])
     = Some [("Cough", "#5E936C"); ("Fever", "#FF6B6B")].
Proof. split; reflexivity. Qed.


(** ** Timeline datasets *)

Lemma le_zero_not_positive (n : JS.number) :
  JS.le n (JS.of_Z 0) = true -> JS.gt n (JS.of_Z 0) = false.
Proof.
  destruct n as [q | | |]; simpl; try discriminate; try reflexivity.
  intros ->. reflexivity.
Qed.

Lemma nowherePositive_hasPositive d :
  nowherePositive d -> SymptomTimeline.hasPositive d = false.
Proof.
  unfold nowherePositive, SymptomTimeline.hasPositive. intros H.
  destruct (SymptomTimeline.data d) as [pts|]; [|reflexivity].
  specialize (H pts).
  destruct (existsb SymptomTimeline.positive pts) eqn:E; [|reflexivity].
  apply existsb_exists in E. destruct E as [[p|] [Hin Hp]]; [|discriminate].
  destruct (H p eq_refl Hin) as [Hy | [n [Hy Hle]]];
    unfold SymptomTimeline.positive in Hp; rewrite Hy in Hp; [discriminate|].
  rewrite (le_zero_not_positive _ Hle) in Hp. discriminate.
Qed.

Lemma somewherePositive_hasPositive d :
  somewherePositive d -> SymptomTimeline.hasPositive d = true.
Proof.
  intros (pts & p & n & Hd & Hin & Hy & Hgt).
  unfold SymptomTimeline.hasPositive. rewrite Hd.
  apply existsb_exists. exists (Some p). split; [exact Hin|].
  unfold SymptomTimeline.positive. rewrite Hy. exact Hgt.
Qed.

Lemma boundDatasets_ready c lbls f :
  SymptomTimeline.container_present c = true ->
  SymptomTimeline.context_available c = true ->
  SymptomTimeline.boundDatasets
    (SymptomTimeline.renderTimeline c
       (Some {| SymptomTimeline.labels := Some lbls;
                SymptomTimeline.datasets := f |}))
  = SymptomTimeline.chartDatasets f.
Proof.
  intros Hc Hx. unfold SymptomTimeline.renderTimeline.
  rewrite Hc, Hx. unfold SymptomTimeline.context_available in Hx.
  destruct (SymptomTimeline.getContext c); try discriminate. simpl.
  destruct f as [| | l]; try reflexivity.
  simpl. destruct (filter SymptomTimeline.hasPositive l); reflexivity.
Qed.

Lemma boundDatasets_subset c d x :
  In x (SymptomTimeline.boundDatasets (SymptomTimeline.renderTimeline c d)) ->
  In x (SymptomTimeline.chartDatasets
          (match d with
           | Some t => SymptomTimeline.datasets t
           | None => SymptomTimeline.NoDatasets
           end)).
Proof.
  unfold SymptomTimeline.renderTimeline.
  destruct (SymptomTimeline.container_present c); simpl; [|tauto].
  destruct (SymptomTimeline.getContext c); simpl; try tauto;
    (destruct d as [t|]; simpl; [|tauto]);
    (destruct (SymptomTimeline.labels t); simpl; [|tauto]);
    (destruct (SymptomTimeline.datasets t) as [| | ds]; simpl; try tauto);
    (destruct (filter SymptomTimeline.hasPositive ds) eqn:E; simpl; tauto).
Qed.

Lemma someAbove_existsb pts b :
  SymptomTimeline.someAbove pts = Some b -> existsb SymptomTimeline.positive pts = b.
Proof.
  induction pts as [| [pt|] pts IH];
    cbn [SymptomTimeline.someAbove existsb].
  - intros [= <-]. reflexivity.
  - destruct (SymptomTimeline.positive (Some pt));
      [intros [= <-]; reflexivity | exact IH].
  - discriminate.
Qed.

Lemma listed_ensure (o : JS.obj SymptomTimeline.dataset) k :
  listed (JS.ensure o k) = listed o.
Proof.
  unfold listed, JS.ensure. destruct (JS.get o k); [reflexivity|].
  rewrite map_app, concat_app. simpl. rewrite app_nil_r. reflexivity.
Qed.

Lemma listed_append (o : JS.obj SymptomTimeline.dataset) k v x :
  JS.get o k <> None ->
  In x (listed (JS.append o k v)) <-> x = v \/ In x (listed o).
Proof.
  unfold listed. induction o as [| [k' l] o IH]; simpl; [congruence|].
  destruct (String.eqb_spec k' k) as [-> | Hne]; simpl; intros Hg.
  - rewrite !in_app_iff. simpl. intuition congruence.
  - rewrite !in_app_iff, (IH Hg). tauto.
Qed.

Lemma get_ensure_some {B} (o : JS.obj B) k : JS.get (JS.ensure o k) k <> None.
Proof.
  rewrite get_ensure, String.eqb_refl. destruct (JS.get o k); discriminate.
Qed.

(** When the loop of [updateSymptomsList] completes, the datasets listed are
    those already listed and the datasets with a positive point. *)
Lemma categories_listed (ds : list SymptomTimeline.dataset) o o' x :
  SymptomTimeline.categories o ds = Some o' ->
  In x (listed o') <->
  In x (listed o) \/ (In x ds /\ SymptomTimeline.hasPositive x = true).
Proof.
  revert o. induction ds as [| d ds IH]; intros o; simpl.
  - intros [= <-]. tauto.
  - destruct (SymptomTimeline.data d) as [pts|] eqn:Ed; [|discriminate].
    destruct (SymptomTimeline.someAbove pts) as [[|]|] eqn:Es; [| |discriminate];
      (destruct (JS.inherited (SymptomTimeline.category d)); [try discriminate|]);
      intros H; apply IH in H; rewrite H; clear H;
      apply someAbove_existsb in Es.
    + rewrite listed_append by apply get_ensure_some. rewrite listed_ensure.
      split.
      * intros [[-> | Hx] | [Hx Hp]]; [right; split; [left; reflexivity|] | tauto | tauto].
        unfold SymptomTimeline.hasPositive. rewrite Ed. exact Es.
      * intros [Hx | [[-> | Hx] Hp]]; tauto.
    + split; [tauto|].
      intros [Hx | [[<- | Hx] Hp]]; [tauto | | tauto].
      unfold SymptomTimeline.hasPositive in Hp. rewrite Ed in Hp. congruence.
    + rewrite listed_ensure. split; [tauto|].
      intros [Hx | [[<- | Hx] Hp]]; [tauto | | tauto].
      unfold SymptomTimeline.hasPositive in Hp. rewrite Ed in Hp. congruence.
Qed.

(** C1: of the datasets handed to [renderTimeline], one whose points all have
    [y <= 0] or no [y] is never among the datasets bound to the chart, and
    one with a point of [y > 0] is kept by the filter as it is, with all its
    points, and bound to the chart whenever the chart can be drawn (the
    canvas is there and the payload has labels).  The symptom list under the
    chart, when its loop completes, lists the same datasets. *)
Theorem C1_timeline_dataset_filter
  (c : SymptomTimeline.canvas) (lbls : option (list string))
  (ds : list SymptomTimeline.dataset) (d : SymptomTimeline.dataset) :
  In d ds ->
  let payload := Some {| SymptomTimeline.labels := lbls;
                         SymptomTimeline.datasets := SymptomTimeline.Datasets ds |} in
  let bound := SymptomTimeline.boundDatasets (SymptomTimeline.renderTimeline c payload) in
  (nowherePositive d -> ~ In d bound)
  /\ (somewherePositive d ->
      In d (SymptomTimeline.chartDatasets (SymptomTimeline.Datasets ds))
      /\ (SymptomTimeline.container_present c = true ->
          SymptomTimeline.context_available c = true ->
          lbls <> None ->
          In d bound))
  /\ (forall o, SymptomTimeline.categories [] ds = Some o ->
        (nowherePositive d -> ~ In d (listed o))
        /\ (somewherePositive d -> In d (listed o))).
Proof.
  intros Hin payload bound.
  assert (Hcat : forall o, SymptomTimeline.categories [] ds = Some o ->
            (nowherePositive d -> ~ In d (listed o))
            /\ (somewherePositive d -> In d (listed o))).
  { intros o Ho. split.
    - intros Hno Hl. apply (categories_listed ds [] o d Ho) in Hl.
      destruct Hl as [[] | [_ Hp]].
      rewrite (nowherePositive_hasPositive _ Hno) in Hp. discriminate.
    - intros Hpos. apply (categories_listed ds [] o d Ho). right.
      split; [exact Hin | apply somewherePositive_hasPositive, Hpos]. }
  split; [|split; [|exact Hcat]].
  - intros Hno Hb. apply boundDatasets_subset in Hb. simpl in Hb.
    apply filter_In in Hb. destruct Hb as [_ Hb].
    rewrite (nowherePositive_hasPositive _ Hno) in Hb. discriminate.
  - intros Hpos.
    assert (Hf : In d (SymptomTimeline.chartDatasets (SymptomTimeline.Datasets ds))).
    { simpl. apply filter_In. split; [exact Hin|].
      apply somewherePositive_hasPositive, Hpos. }
    split; [exact Hf|].
    intros Hc Hx Hl. destruct lbls as [l|]; [|congruence].
    unfold bound, payload. rewrite boundDatasets_ready; auto.
Qed.

Lemma C1_witness :
  ~ In Examples.cough
      (SymptomTimeline.boundDatasets
         (SymptomTimeline.renderTimeline Examples.readyCanvas
            (Some {| SymptomTimeline.labels := Some ["2024-01-01"];
                     SymptomTimeline.datasets :=
                       SymptomTimeline.Datasets [Examples.headache; Examples.cough] |})))
  /\ In Examples.headache
      (SymptomTimeline.boundDatasets
         (SymptomTimeline.renderTimeline Examples.readyCanvas
            (Some {| SymptomTimeline.labels := Some ["2024-01-01"];
                     SymptomTimeline.datasets :=
                       SymptomTimeline.Datasets [Examples.headache; Examples.cough] |}))).
Proof.
  split.
  - apply (C1_timeline_dataset_filter Examples.readyCanvas (Some ["2024-01-01"])
             [Examples.headache; Examples.cough] Examples.cough).
    + simpl. auto.
    + intros pts p Hd Hp. injection Hd as <-. right.
      simpl in Hp. destruct Hp as [Hp | [Hp | []]]; injection Hp as <-;
        (eexists; split; [reflexivity | reflexivity]).
  - apply (C1_timeline_dataset_filter Examples.readyCanvas (Some ["2024-01-01"])
             [Examples.headache; Examples.cough] Examples.headache).
    + simpl. auto.
    + eexists _, _, _. split; [reflexivity|]. split; [right; left; reflexivity|].
      split; reflexivity.
    + reflexivity.
    + reflexivity.
    + discriminate.
Defined.



(** * Further properties of the modules *)

(** ** The cap of the dashboard summary *)

(** X1: the dashboard summary shows at most 7 date groups, and they are the
    most recent ones: when every date string parses, a symptom whose date is
    not shown is not more recent than any date shown, and then exactly 7
    groups are shown. *)
Theorem X1_summary_keeps_the_most_recent_dates (h : JS.host)
  (symptoms : list HealthDashboard.symptom) :
  allDated h symptoms ->
  let gs := HealthDashboard.renderSymptomsSummary h (Some symptoms) in
  (List.length gs <= 7)%nat
  /\ (forall s, In s symptoms ->
        ~ In (dateString s) (map HealthDashboard.group_date gs) ->
        List.length gs = 7%nat
        /\ forall g, In g gs ->
             timeOf h (HealthDashboard.group_date g) >= timeOf h (dateString s)).
Proof.
  intros Hd gs. unfold gs. rewrite summary_groups.
  set (ks := HealthDashboard.sortedDates h symptoms).
  rewrite length_map, map_map. cbn [HealthDashboard.group_date]. rewrite map_id.
  split; [apply firstn_le_length|].
  intros s Hs Hout.
  assert (Hk : In (dateString s) ks).
  { apply (sortedKeys_In h (fun s => Some (dateString s, s)) symptoms).
    rewrite picks_filter. intros E.
    assert (Hin : In s (filter (fun a => String.eqb (dateString a) (dateString s)) symptoms))
      by (apply filter_In; split; [exact Hs | apply String.eqb_refl]).
    rewrite E in Hin. exact Hin. }
  split; [apply (firstn_full_or_all 7 ks (dateString s) Hk Hout)|].
  intros g Hg. apply in_map_iff in Hg. destruct Hg as [d [<- Hd7]].
  cbn [HealthDashboard.group_date].
  assert (Hrest : In (dateString s) (skipn 7 ks)).
  { rewrite <- (firstn_skipn 7 ks) in Hk. apply in_app_or in Hk. tauto. }
  pose proof (sortedKeys_descending h (fun s => Some (dateString s, s)) symptoms
                (allDated_keys h symptoms Hd)) as Hsorted.
  change (keysByDateDesc h (fun s0 => Some (dateString s0, s0)) symptoms) with ks in Hsorted.
  rewrite <- (firstn_skipn 7 ks) in Hsorted.
  exact (sorted_app_cross _ _ _ Hsorted d (dateString s) Hd7 Hrest).
Qed.

Lemma X1_witness :
  let gs := HealthDashboard.renderSymptomsSummary Examples.januaryHost
              (Some Examples.nineDays) in
  (List.length gs <= 7)%nat
  /\ (forall s, In s Examples.nineDays ->
        ~ In (dateString s) (map HealthDashboard.group_date gs) ->
        List.length gs = 7%nat
        /\ forall g, In g gs ->
             timeOf Examples.januaryHost (HealthDashboard.group_date g)
             >= timeOf Examples.januaryHost (dateString s)).
Proof.
  apply (X1_summary_keeps_the_most_recent_dates Examples.januaryHost
           Examples.nineDays).
  repeat constructor; discriminate.
Defined.

(** Of nine days, the two oldest are not shown. *)
Lemma summary_of_nine_days :
  map HealthDashboard.group_date
    (HealthDashboard.renderSymptomsSummary Examples.januaryHost
       (Some Examples.nineDays))
  = ["2024-01-09"; "2024-01-08"; "2024-01-07"; "2024-01-06"; "2024-01-05";
     "2024-01-04"; "2024-01-03"].
Proof. reflexivity. Qed.

(** ** Accounting for every record *)

Section Values.
Context {A B : Type}.
Variable sel : A -> option (string * B).

(** The values pushed by the loop, in array order. *)
Lemma append_values (o : JS.obj B) k (v : B) :
  JS.get o k <> None ->
  Permutation (flat_map snd (JS.append o k v)) (v :: flat_map snd o).
Proof.
  induction o as [| [k' l] o IH]; simpl; [congruence|].
  destruct (String.eqb_spec k' k) as [-> | Hne]; simpl; intros Hg.
  - rewrite <- app_assoc. simpl.
    rewrite <- Permutation_middle. reflexivity.
  - rewrite (IH Hg). symmetry. apply Permutation_middle.
Qed.

Lemma ensure_values (o : JS.obj B) k :
  flat_map snd (JS.ensure o k) = flat_map snd o.
Proof.
  unfold JS.ensure. destruct (JS.get o k); [reflexivity|].
  rewrite flat_map_app. simpl. rewrite app_nil_r. reflexivity.
Qed.

Lemma collect_values (l : list A) :
  Permutation (flat_map snd (JS.collect sel l))
    (flat_map (fun a => match sel a with
                        | Some (_, v) => [v]
                        | None => []
                        end) l).
Proof.
  induction l as [| a l IH] using rev_ind; [reflexivity|].
  rewrite collect_snoc, flat_map_app. simpl. rewrite app_nil_r.
  destruct (sel a) as [[k v]|].
  - rewrite append_values by apply get_ensure_some.
    rewrite ensure_values, IH. apply Permutation_cons_append.
  - rewrite app_nil_r. exact IH.
Qed.
End Values.

Lemma entries_of_keys {B} (o : JS.obj B) :
  NoDup (map fst o) ->
  map (fun k => (k, match JS.get o k with Some l => l | None => [] end)) (map fst o)
  = o.
Proof.
  induction o as [| [k l] o IH]; simpl; [reflexivity|].
  intros Hnd. inversion Hnd as [| ? ? Hk Hnd']; subst.
  rewrite String.eqb_refl. f_equal.
  etransitivity; [|exact (IH Hnd')]. apply map_ext_in.
  intros k' Hk'. destruct (String.eqb_spec k k') as [-> | _]; [tauto | reflexivity].
Qed.

Lemma groups_values {B} (o : JS.obj B) (ks : list string) :
  NoDup (map fst o) -> Permutation ks (map fst o) ->
  Permutation
    (flat_map snd
       (map (fun k => (k, match JS.get o k with Some l => l | None => [] end)) ks))
    (flat_map snd o).
Proof.
  intros Hnd Hp.
  etransitivity; [apply Permutation_flat_map, Permutation_map, Hp|].
  rewrite (entries_of_keys o Hnd). reflexivity.
Qed.

Lemma dated_values (h : JS.host) (l : list HealthRiskPredictor.assessment) :
  flat_map (fun a => match (if JS.present (HealthRiskPredictor.assessment_date a)
                            then Some (HealthRiskPredictor.dateKey h a, a)
                            else None) with
                     | Some (_, v) => [v]
                     | None => []
                     end) l
  = dated l.
Proof.
  unfold dated. induction l as [| a l IH]; simpl; [reflexivity|].
  destruct (JS.present (HealthRiskPredictor.assessment_date a)); simpl; congruence.
Qed.

Lemma dated_undated_perm (l : list HealthRiskPredictor.assessment) :
  Permutation (dated l ++ undated l) l.
Proof.
  unfold dated, undated. induction l as [| a l IH]; simpl; [reflexivity|].
  destruct (JS.present (HealthRiskPredictor.assessment_date a)); simpl.
  - apply perm_skip, IH.
  - rewrite <- Permutation_middle. apply perm_skip, IH.
Qed.

(** X2: the risk-assessment list accounts for every assessment exactly
    once: the assessments shown, group after group, together with the
    assessments skipped for a missing date are a rearrangement of the input;
    none is shown twice and none vanishes. *)
Theorem X2_risk_list_shows_each_dated_assessment_once (h : JS.host)
  (l : list HealthRiskPredictor.assessment) :
  let shown :=
    flat_map snd
      (groupsOf (snd (HealthRiskPredictor.renderRiskAssessments h true (Some l)))) in
  Permutation shown (dated l)
  /\ Permutation (shown ++ undated l) l.
Proof.
  intros shown.
  assert (H : Permutation shown (dated l)).
  { unfold shown. destruct l as [| a0 l0]; [reflexivity|].
    set (l := a0 :: l0). rewrite predictor_groups by discriminate.
    cbn [snd groupsOf].
    rewrite groups_values.
    - rewrite collect_values, dated_values. reflexivity.
    - apply collect_NoDup.
    - rewrite sort_perm. apply keys_perm. }
  split; [exact H|]. rewrite H. apply dated_undated_perm.
Qed.

(** ** Charts *)

Lemma indexed_fst {A} (n : nat) (l : list A) :
  map fst (HealthDashboard.indexed n l) = seq n (List.length l).
Proof.
  revert n. induction l as [| a l IH]; intros n; simpl; [reflexivity|].
  rewrite IH. reflexivity.
Qed.

Lemma indexed_snd {A} (n : nat) (l : list A) :
  map snd (HealthDashboard.indexed n l) = l.
Proof.
  revert n. induction l as [| a l IH]; intros n; simpl; [reflexivity|].
  rewrite IH. reflexivity.
Qed.

(** X3: [renderMetricsCharts] creates one chart per metric, on the canvases
    numbered 0, 1, 2, ... in payload order (so no two charts share a canvas),
    and in each chart the labels and the values are aligned, one of each per
    sample. *)
Theorem X3_metric_charts_use_distinct_canvases
  (metrics : list HealthDashboard.metric) :
  let charts := HealthDashboard.renderMetricsCharts (Some metrics) in
  map HealthDashboard.canvas charts = seq 0 (List.length metrics)
  /\ NoDup (map HealthDashboard.canvas charts)
  /\ Forall2 (fun m c =>
                List.length (HealthDashboard.chart_labels c)
                = List.length (HealthDashboard.data m)
                /\ List.length (HealthDashboard.chart_values c)
                   = List.length (HealthDashboard.data m))
             metrics charts.
Proof.
  intros charts. unfold charts, HealthDashboard.renderMetricsCharts.
  assert (E : map HealthDashboard.canvas
                (map (fun im => HealthDashboard.metricChart (fst im) (snd im))
                     (HealthDashboard.indexed 0 metrics))
              = seq 0 (List.length metrics)).
  { rewrite map_map. cbn [HealthDashboard.canvas HealthDashboard.metricChart].
    apply indexed_fst. }
  split; [exact E|]. split; [rewrite E; apply seq_NoDup|].
  clear E charts. generalize 0%nat.
  induction metrics as [| m ms IH]; intros n; simpl; constructor.
  - unfold HealthDashboard.metricChart.
    cbn [HealthDashboard.chart_labels HealthDashboard.chart_values].
    rewrite !length_map. split; reflexivity.
  - apply IH.
Qed.

Lemma sorted_groups_values {B} (cmp : B -> B -> option Z) (n : nat)
  (es : list (string * list B)) :
  Permutation
    (flat_map (fun ie => JS.sort cmp (snd (snd ie))) (HealthDashboard.indexed n es))
    (flat_map snd es).
Proof.
  revert n. induction es as [| e es IH]; intros n; simpl; [reflexivity|].
  apply Permutation_app; [apply sort_perm | apply IH].
Qed.

Lemma points_of_symptoms h (l : list HealthDashboard.health_symptom) :
  flat_map (fun s => match Some (nameOf s, pointOf h s) with
                     | Some (_, v) => [v]
                     | None => []
                     end) l
  = map (pointOf h) l.
Proof. induction l as [| a l IH]; simpl; congruence. Qed.

(** X4: [renderSymptomChart] plots every symptom exactly once: the series
    carry distinct labels, one per symptom name of the payload, none is
    empty, and all their points together are a rearrangement of the points
    of the symptoms.  The one exception is a payload with a symptom named
    after a member that every object inherits (such as "constructor"): the
    grouping then throws and no chart is created. *)
Theorem X4_symptom_chart_plots_each_symptom_once (h : JS.host)
  (symptoms : list HealthDashboard.health_symptom) :
  (HealthDashboard.renderSymptomChart h symptoms = None
   <-> exists s, In s symptoms /\ JS.inherited (nameOf s) = true)
  /\ (forall chart,
        HealthDashboard.renderSymptomChart h symptoms = Some chart ->
        NoDup (map HealthDashboard.label chart)
        /\ (forall s, In s symptoms ->
              In (nameOf s) (map HealthDashboard.label chart))
        /\ (forall sr, In sr chart -> HealthDashboard.points sr <> [])
        /\ Permutation (flat_map HealthDashboard.points chart)
             (map (pointOf h) symptoms)).
Proof.
  split.
  - unfold HealthDashboard.renderSymptomChart. rewrite grouped_collect.
    destruct (existsb (fun s => JS.inherited (nameOf s)) symptoms) eqn:E.
    + split; [intros _ | reflexivity].
      apply existsb_exists in E. exact E.
    + split; [discriminate|]. intros Hex.
      apply existsb_exists in Hex. congruence.
  - intros chart Hc. apply renderSymptomChart_some in Hc. destruct Hc as [_ ->].
    unfold HealthDashboard.datasets.
    set (sel := fun s => Some (nameOf s, pointOf h s)).
    set (G := JS.collect sel symptoms).
    assert (Hlabels : map HealthDashboard.label
              (map (fun ie =>
                      {| HealthDashboard.label := fst (snd ie);
                         HealthDashboard.points := JS.sort HealthDashboard.byTime (snd (snd ie));
                         HealthDashboard.series_borderColor :=
                           nth (fst ie mod 8) HealthDashboard.colorList "";
                         HealthDashboard.series_backgroundColor :=
                           nth (fst ie mod 8) HealthDashboard.colorList "" +++ "33" |})
                   (HealthDashboard.indexed 0 (JS.entries G)))
            = JS.keys G).
    { rewrite map_map. cbn [HealthDashboard.label]. unfold JS.keys, JS.entries.
      etransitivity; [|apply f_equal, (indexed_snd 0 (JS.own_order G))].
      rewrite map_map. reflexivity. }
    repeat apply conj.
    + rewrite Hlabels. apply keys_NoDup, collect_NoDup.
    + intros s Hs. rewrite Hlabels.
      apply (Permutation_in _ (Permutation_sym (keys_perm G))).
      apply collect_key. intros E.
      assert (Hp : In (pointOf h s) (JS.picks sel (nameOf s) symptoms)).
      { apply picks_In. exists s. split; [exact Hs | reflexivity]. }
      rewrite E in Hp. exact Hp.
    + intros sr Hsr. apply in_map_iff in Hsr. destruct Hsr as [[i [k pts]] [<- Hin]].
      cbn [HealthDashboard.points fst snd].
      apply indexed_In in Hin. unfold JS.entries in Hin.
      apply (Permutation_in _ (own_order_perm G)) in Hin.
      apply collect_entry in Hin. destruct Hin as [_ Hne].
      intros E. apply Hne.
      pose proof (sort_perm HealthDashboard.byTime pts) as P. rewrite E in P.
      apply Permutation_nil in P. exact P.
    + rewrite flat_map_concat_map, map_map. cbn [HealthDashboard.points].
      rewrite <- flat_map_concat_map, sorted_groups_values.
      unfold JS.entries.
      etransitivity; [apply Permutation_flat_map, own_order_perm|].
      unfold G. rewrite collect_values. unfold sel. rewrite points_of_symptoms.
      reflexivity.
Qed.

(** A symptom named "constructor" leaves the page without a chart. *)
Lemma symptom_chart_inherited_name_example :
  HealthDashboard.renderSymptomChart Examples.host
    [Examples.feverDay1; Examples.healthSymptom "constructor" 2 "2024-01-02"]
  = None.
Proof. reflexivity. Qed.

(** ** The life of a request *)

(** X5: whatever the outcome of the request (success, failure, and whether
    or not the list container is on the page), [predictRisks] ends with the
    button enabled and carrying the label it had before the click, and with
    the lifestyle inputs untouched; while the request is in flight the button
    is disabled, shows the spinner, and exactly one POST has been issued. *)
Theorem X5_predict_button_is_always_restored {J : Type} (userId : string)
  (settle : JS.settled J) (p : HealthRiskPredictor.page) :
  let busy := HealthRiskPredictor.predictRisks_begin userId p in
  let done := HealthRiskPredictor.predictRisks userId settle p in
  (HealthRiskPredictor.riskPredictBtn busy
     = {| HealthRiskPredictor.innerHTML := HealthRiskPredictor.analyzing;
          HealthRiskPredictor.disabled := true |}
   /\ exists body,
        HealthRiskPredictor.requests busy
        = HealthRiskPredictor.requests p
          ++ [{| JS.method := "POST";
                 JS.url := "/api/users/" +++ userId +++ "/predict-health-risks";
                 JS.body := Some body |}])
  /\ HealthRiskPredictor.riskPredictBtn done
     = {| HealthRiskPredictor.innerHTML :=
            HealthRiskPredictor.innerHTML (HealthRiskPredictor.riskPredictBtn p);
          HealthRiskPredictor.disabled := false |}
  /\ HealthRiskPredictor.lifestyleForm done = HealthRiskPredictor.lifestyleForm p.
Proof.
  intros busy done. split; [split; [reflexivity | eexists; reflexivity]|].
  unfold done, HealthRiskPredictor.predictRisks.
  destruct settle as [| [|] status [j|]]; cbn [JS.unwrap]; try (split; reflexivity).
  unfold HealthRiskPredictor.predictionDone, HealthRiskPredictor.fetchRiskAssessments.
  cbn. destruct (HealthRiskPredictor.riskAssessmentsContainer p); split; reflexivity.
Qed.

(** X6: when the prediction succeeds, the success notification is shown and
    the list is refetched (the container shows the spinner, a GET follows the
    POST); but if the list container is not on the page, refetching throws
    inside the success handler and the user is shown the success notification
    followed by the error notification, with no refetch. *)
Theorem X6_prediction_success_refetches_or_reports_twice {J : Type}
  (userId : string) (settle : JS.settled J) (p : HealthRiskPredictor.page) :
  JS.unwrap settle <> None ->
  let done := HealthRiskPredictor.predictRisks userId settle p in
  (HealthRiskPredictor.riskAssessmentsContainer p <> None ->
   HealthRiskPredictor.notifications done
   = HealthRiskPredictor.notifications p
     ++ [("Health risk assessment completed successfully", "success")]
   /\ HealthRiskPredictor.riskAssessmentsContainer done
      = Some HealthRiskPredictor.loadingAssessments
   /\ map JS.method (HealthRiskPredictor.requests done)
      = map JS.method (HealthRiskPredictor.requests p) ++ ["POST"; "GET"])
  /\ (HealthRiskPredictor.riskAssessmentsContainer p = None ->
      HealthRiskPredictor.notifications done
      = HealthRiskPredictor.notifications p
        ++ [("Health risk assessment completed successfully", "success");
            ("Error performing risk assessment. Please try again.", "error")]
      /\ map JS.method (HealthRiskPredictor.requests done)
         = map JS.method (HealthRiskPredictor.requests p) ++ ["POST"]).
Proof.
  intros Hok done. unfold done, HealthRiskPredictor.predictRisks.
  destruct settle as [| [|] status [j|]]; cbn [JS.unwrap] in *; try congruence.
  unfold HealthRiskPredictor.predictionDone, HealthRiskPredictor.fetchRiskAssessments.
  cbn. destruct (HealthRiskPredictor.riskAssessmentsContainer p) as [c|].
  - split; [|congruence]. intros _. cbn. rewrite !map_app, <- !app_assoc.
    repeat split.
  - split; [congruence|]. intros _. cbn. rewrite !map_app, <- !app_assoc.
    repeat split.
Qed.

Lemma X6_witness :
  HealthRiskPredictor.notifications
    (HealthRiskPredictor.predictRisks "42" (JS.Response true 200 (Some tt))
       Examples.absentContainerPage)
  = [] ++ [("Health risk assessment completed successfully", "success");
           ("Error performing risk assessment. Please try again.", "error")]
  /\ map JS.method
       (HealthRiskPredictor.requests
          (HealthRiskPredictor.predictRisks "42" (JS.Response true 200 (Some tt))
             Examples.absentContainerPage))
     = ["POST"].
Proof.
  apply (X6_prediction_success_refetches_or_reports_twice "42"
           (JS.Response true 200 (Some tt)) Examples.absentContainerPage).
  - discriminate.
  - reflexivity.
Defined.

(** X7: a metric or a symptom that the server accepts resets its form, shows
    one success notification and refetches the view: after the POST comes one
    GET, carrying the date filters that are set at that moment.  The symptom
    form is hidden; the metric modal is closed.  The date of the form is
    either left empty or one the host can read (as the pre-filled date
    is). *)
Theorem X7_accepted_submission_resets_and_refetches {J : Type}
  (h : JS.host) (userId : string) (settle : JS.settled J)
  (p : SymptomTimeline.page) (q : HealthDashboard.page) :
  JS.unwrap settle <> None ->
  (SymptomTimeline.validateSymptom h (SymptomTimeline.form p) = None ->
   (SymptomTimeline.symptomDatetime (SymptomTimeline.form p) = ""
    \/ JS.parseDate h (SymptomTimeline.symptomDatetime (SymptomTimeline.form p))
       <> None) ->
   SymptomTimeline.container p <> None ->
   let p' := SymptomTimeline.saveSymptomRecord h settle p in
   SymptomTimeline.form p' = SymptomTimeline.form_defaults p
   /\ SymptomTimeline.form_visible p' = false
   /\ SymptomTimeline.notifications p'
      = SymptomTimeline.notifications p
        ++ [("Symptom recorded successfully", "success")]
   /\ map (fun r => (JS.method r, JS.url r)) (SymptomTimeline.requests p')
      = map (fun r => (JS.method r, JS.url r)) (SymptomTimeline.requests p)
        ++ [("POST", "/api/users/" +++ SymptomTimeline.userId p +++ "/symptoms");
            ("GET", SymptomTimeline.timelineUrl (SymptomTimeline.userId p)
                      (SymptomTimeline.timelineStartDate p)
                      (SymptomTimeline.timelineEndDate p))])
  /\ (HealthDashboard.validateMetric h (HealthDashboard.form q) = None ->
      (HealthDashboard.metricDate (HealthDashboard.form q) = ""
       \/ JS.parseDate h (HealthDashboard.metricDate (HealthDashboard.form q))
          <> None) ->
      let q' := HealthDashboard.addHealthMetric h userId settle q in
      HealthDashboard.form q' = HealthDashboard.form_defaults q
      /\ HealthDashboard.modal_open q' = false
      /\ HealthDashboard.loading q' = true
      /\ HealthDashboard.notifications q'
         = HealthDashboard.notifications q
           ++ [("Health metric added successfully", "success")]
      /\ map (fun r => (JS.method r, JS.url r)) (HealthDashboard.requests q')
         = map (fun r => (JS.method r, JS.url r)) (HealthDashboard.requests q)
           ++ [("POST", "/api/users/" +++ userId +++ "/health-metrics");
               ("GET", "/api/users/" +++ userId +++ "/health-dashboard"
                         +++ HealthDashboard.dateQuery
                               (HealthDashboard.dashboardStartDate q)
                               (HealthDashboard.dashboardEndDate q))]).
Proof.
  intros Hok.
  destruct (JS.unwrap settle) as [j|] eqn:Hu; [clear Hok | congruence].
  split.
  - intros Hv Hd Hc p'. unfold p', SymptomTimeline.saveSymptomRecord.
    rewrite Hv, Hu.
    assert (Hsent : forall stamp,
              let r := SymptomTimeline.symptomSaved
                         (SymptomTimeline.fetch
                            {| JS.method := "POST";
                               JS.url := "/api/users/" +++ SymptomTimeline.userId p
                                           +++ "/symptoms";
                               JS.body :=
                                 Some {| SymptomTimeline.symptom_id :=
                                           JS.parseInt h (JS.VString
                                             (SymptomTimeline.symptomId (SymptomTimeline.form p)));
                                         SymptomTimeline.severity :=
                                           JS.parseInt h (JS.VString
                                             (SymptomTimeline.symptomSeverity (SymptomTimeline.form p)));
                                         SymptomTimeline.body_notes :=
                                           SymptomTimeline.symptomNotes (SymptomTimeline.form p);
                                         SymptomTimeline.medication_taken :=
                                           SymptomTimeline.medicationTaken (SymptomTimeline.form p);
                                         SymptomTimeline.doctor_visited :=
                                           SymptomTimeline.doctorVisited (SymptomTimeline.form p);
                                         SymptomTimeline.recorded_at := stamp |} |} p) in
              SymptomTimeline.form r = SymptomTimeline.form_defaults p
              /\ SymptomTimeline.form_visible r = false
              /\ SymptomTimeline.notifications r
                 = SymptomTimeline.notifications p
                   ++ [("Symptom recorded successfully", "success")]
              /\ map (fun r => (JS.method r, JS.url r)) (SymptomTimeline.requests r)
                 = map (fun r => (JS.method r, JS.url r)) (SymptomTimeline.requests p)
                   ++ [("POST", "/api/users/" +++ SymptomTimeline.userId p +++ "/symptoms");
                       ("GET", SymptomTimeline.timelineUrl (SymptomTimeline.userId p)
                                 (SymptomTimeline.timelineStartDate p)
                                 (SymptomTimeline.timelineEndDate p))]).
    { intros stamp.
      unfold SymptomTimeline.symptomSaved, SymptomTimeline.fetchTimelineData. cbn.
      destruct (SymptomTimeline.container p); [|congruence]. cbn.
      repeat split. rewrite <- app_assoc, map_app. reflexivity. }
    destruct (String.eqb_spec
                (SymptomTimeline.symptomDatetime (SymptomTimeline.form p)) "")
      as [_ | Hne]; [apply Hsent|].
    destruct Hd as [Hd | Hd]; [congruence|].
    destruct (JS.parseDate h (SymptomTimeline.symptomDatetime (SymptomTimeline.form p)));
      [apply Hsent | congruence].
  - intros Hv Hd q'. unfold q', HealthDashboard.addHealthMetric.
    rewrite Hv, Hu.
    assert (Hsent : forall stamp,
              let r := HealthDashboard.metricAdded userId
                         (HealthDashboard.fetch
                            {| JS.method := "POST";
                               JS.url := "/api/users/" +++ userId +++ "/health-metrics";
                               JS.body :=
                                 Some {| HealthDashboard.metric_type :=
                                           HealthDashboard.metricType (HealthDashboard.form q);
                                         HealthDashboard.body_value :=
                                           JS.parseFloat h
                                             (HealthDashboard.metricValue (HealthDashboard.form q));
                                         HealthDashboard.body_unit :=
                                           HealthDashboard.metricUnit (HealthDashboard.form q);
                                         HealthDashboard.source := "manual";
                                         HealthDashboard.recorded_at := stamp |} |} q) in
              HealthDashboard.form r = HealthDashboard.form_defaults q
              /\ HealthDashboard.modal_open r = false
              /\ HealthDashboard.loading r = true
              /\ HealthDashboard.notifications r
                 = HealthDashboard.notifications q
                   ++ [("Health metric added successfully", "success")]
              /\ map (fun r => (JS.method r, JS.url r)) (HealthDashboard.requests r)
                 = map (fun r => (JS.method r, JS.url r)) (HealthDashboard.requests q)
                   ++ [("POST", "/api/users/" +++ userId +++ "/health-metrics");
                       ("GET", "/api/users/" +++ userId +++ "/health-dashboard"
                                 +++ HealthDashboard.dateQuery
                                       (HealthDashboard.dashboardStartDate q)
                                       (HealthDashboard.dashboardEndDate q))]).
    { intros stamp.
      unfold HealthDashboard.metricAdded, HealthDashboard.fetchDashboardData. cbn.
      repeat split. rewrite <- app_assoc, map_app. reflexivity. }
    destruct (String.eqb_spec (HealthDashboard.metricDate (HealthDashboard.form q)) "")
      as [_ | Hne]; [apply Hsent|].
    destruct Hd as [Hd | Hd]; [congruence|].
    destruct (JS.parseDate h (HealthDashboard.metricDate (HealthDashboard.form q)));
      [apply Hsent | congruence].
Qed.

Lemma X7_witness :
  (let p' := SymptomTimeline.saveSymptomRecord Examples.host
               (JS.Response true 201 (Some tt))
               (Examples.timelinePage Examples.mildFormDated (Some "2024-01-01") None) in
   SymptomTimeline.form p' = Examples.emptySymptomForm
   /\ SymptomTimeline.form_visible p' = false
   /\ SymptomTimeline.notifications p'
      = [] ++ [("Symptom recorded successfully", "success")]
   /\ map (fun r => (JS.method r, JS.url r)) (SymptomTimeline.requests p')
      = [("POST", "/api/users/42/symptoms");
         ("GET", "/api/users/42/timeline?start_date=2024-01-01")])
  /\ (let q' := HealthDashboard.addHealthMetric Examples.host "42"
                  (JS.Response true 201 (Some tt))
                  (Examples.dashboardPage Examples.heartRateForm) in
      HealthDashboard.form q' = Examples.emptyMetricForm
      /\ HealthDashboard.modal_open q' = false
      /\ HealthDashboard.loading q' = true
      /\ HealthDashboard.notifications q'
         = [] ++ [("Health metric added successfully", "success")]
      /\ map (fun r => (JS.method r, JS.url r)) (HealthDashboard.requests q')
         = [("POST", "/api/users/42/health-metrics");
            ("GET", "/api/users/42/health-dashboard")]).
Proof.
  destruct (X7_accepted_submission_resets_and_refetches Examples.host "42"
              (JS.Response true 201 (Some tt))
              (Examples.timelinePage Examples.mildFormDated (Some "2024-01-01") None)
              (Examples.dashboardPage Examples.heartRateForm)) as [Hp Hq];
    [discriminate|].
  split.
  - apply Hp; [reflexivity | right; discriminate | discriminate].
  - apply Hq; [reflexivity | right; discriminate].
Defined.

(** X8: a date the host cannot parse aborts the submission of a valid form
    before anything is sent: [toISOString] throws, so no request is issued,
    no notification is shown and the form keeps its content. *)
Theorem X8_unparsable_date_aborts_silently {J : Type}
  (h : JS.host) (userId : string) (settle : JS.settled J)
  (p : SymptomTimeline.page) (q : HealthDashboard.page) :
  (SymptomTimeline.validateSymptom h (SymptomTimeline.form p) = None ->
   SymptomTimeline.symptomDatetime (SymptomTimeline.form p) <> "" ->
   JS.parseDate h (SymptomTimeline.symptomDatetime (SymptomTimeline.form p)) = None ->
   let p' := SymptomTimeline.saveSymptomRecord h settle p in
   SymptomTimeline.requests p' = SymptomTimeline.requests p
   /\ SymptomTimeline.notifications p' = SymptomTimeline.notifications p
   /\ SymptomTimeline.form p' = SymptomTimeline.form p
   /\ SymptomTimeline.uncaught p' = S (SymptomTimeline.uncaught p))
  /\ (HealthDashboard.validateMetric h (HealthDashboard.form q) = None ->
      HealthDashboard.metricDate (HealthDashboard.form q) <> "" ->
      JS.parseDate h (HealthDashboard.metricDate (HealthDashboard.form q)) = None ->
      let q' := HealthDashboard.addHealthMetric h userId settle q in
      HealthDashboard.requests q' = HealthDashboard.requests q
      /\ HealthDashboard.notifications q' = HealthDashboard.notifications q
      /\ HealthDashboard.form q' = HealthDashboard.form q
      /\ HealthDashboard.uncaught q' = S (HealthDashboard.uncaught q)).
Proof.
  split.
  - intros Hv Hne Hp p'. unfold p', SymptomTimeline.saveSymptomRecord.
    apply String.eqb_neq in Hne. rewrite Hv, Hne, Hp. repeat split.
  - intros Hv Hne Hp q'. unfold q', HealthDashboard.addHealthMetric.
    apply String.eqb_neq in Hne. rewrite Hv, Hne, Hp. repeat split.
Qed.

Lemma X8_witness :
  (let p' := SymptomTimeline.saveSymptomRecord Examples.host
               (JS.Response true 201 (Some tt))
               (Examples.timelinePage Examples.mildFormBadDate None None) in
   SymptomTimeline.requests p' = []
   /\ SymptomTimeline.notifications p' = []
   /\ SymptomTimeline.form p' = Examples.mildFormBadDate
   /\ SymptomTimeline.uncaught p' = 1%nat)
  /\ (let q' := HealthDashboard.addHealthMetric Examples.host "42"
                  (JS.Response true 201 (Some tt))
                  (Examples.dashboardPage Examples.undatedMetricForm) in
      HealthDashboard.requests q' = []
      /\ HealthDashboard.notifications q' = []
      /\ HealthDashboard.form q' = Examples.undatedMetricForm
      /\ HealthDashboard.uncaught q' = 1%nat).
Proof.
  destruct (X8_unparsable_date_aborts_silently Examples.host "42"
              (JS.Response true 201 (Some tt))
              (Examples.timelinePage Examples.mildFormBadDate None None)
              (Examples.dashboardPage Examples.undatedMetricForm)) as [Hp Hq].
  split.
  - apply Hp; [reflexivity | discriminate | reflexivity].
  - apply Hq; [reflexivity | discriminate | reflexivity].
Defined.

(** X9: what the two validations accept.  The symptom form is accepted
    exactly when a symptom is chosen, the severity is not empty and, read as
    a number, is neither below 1 nor above 10: for a finite severity, exactly
    when 1 <= severity <= 10, both ends included.  The metric form is
    accepted exactly when a type is chosen and the value is not empty and
    reads as a number. *)
Theorem X9_what_validation_accepts (h : JS.host)
  (f : SymptomTimeline.symptom_form) (g : HealthDashboard.metric_form) :
  (SymptomTimeline.validateSymptom h f = None <-> ~ symptomFormInvalid h f)
  /\ (forall q, JS.toNumber h (SymptomTimeline.symptomSeverity f) = JS.Num q ->
        (SymptomTimeline.validateSymptom h f = None
         <-> SymptomTimeline.symptomId f <> ""
             /\ SymptomTimeline.symptomSeverity f <> ""
             /\ (1 <= q <= 10)%Q))
  /\ (HealthDashboard.validateMetric h g = None <-> ~ metricFormInvalid h g).
Proof.
  assert (Hs : SymptomTimeline.validateSymptom h f = None <-> ~ symptomFormInvalid h f).
  { split.
    - intros Hv Hi. destruct (symptomFormInvalid_rejected _ _ Hi) as [msg E].
      congruence.
    - unfold symptomFormInvalid, SymptomTimeline.validateSymptom. intros Hn.
      destruct (String.eqb_spec (SymptomTimeline.symptomId f) "") as [E | _];
        [tauto|].
      destruct (String.eqb_spec (SymptomTimeline.symptomSeverity f) "") as [E | _];
        [tauto|].
      destruct (JS.lt (JS.toNumber h (SymptomTimeline.symptomSeverity f)) (JS.of_Z 1));
        [tauto|].
      destruct (JS.gt (JS.toNumber h (SymptomTimeline.symptomSeverity f)) (JS.of_Z 10));
        [tauto | reflexivity]. }
  split; [exact Hs | split].
  - intros q Hq. rewrite Hs. unfold symptomFormInvalid. rewrite Hq.
    unfold JS.gt, JS.lt, JS.of_Z.
    assert (H1 : negb (Qle_bool (inject_Z 1) q) = true <-> ~ (1 <= q)%Q).
    { rewrite negb_true_iff, <- not_true_iff_false, Qle_bool_iff. reflexivity. }
    assert (H10 : negb (Qle_bool q (inject_Z 10)) = true <-> ~ (q <= 10)%Q).
    { rewrite negb_true_iff, <- not_true_iff_false, Qle_bool_iff. reflexivity. }
    rewrite H1, H10.
    destruct (Qlt_le_dec q 1) as [Ha | Ha].
    { apply Qlt_not_le in Ha. tauto. }
    destruct (Qlt_le_dec 10 q) as [Hb | Hb].
    { apply Qlt_not_le in Hb. tauto. }
    tauto.
  - split.
    + intros Hv Hi. destruct (metricFormInvalid_rejected _ _ Hi) as [msg E].
      congruence.
    + unfold metricFormInvalid, HealthDashboard.validateMetric. intros Hn.
      destruct (String.eqb_spec (HealthDashboard.metricType g) "") as [E | _];
        [tauto|].
      destruct (String.eqb_spec (HealthDashboard.metricValue g) "") as [E | _];
        [tauto|].
      destruct (JS.toNumber h (HealthDashboard.metricValue g)); tauto.
Qed.

(** ** Query strings *)

(** X10: the dashboard builds its date query exactly as the timeline does:
    for the same two bounds both URLs end in the same query string, which
    holds the non-empty bounds and nothing else; and [fetchDashboardData]
    shows the spinner and issues one GET for that URL, leaving the rest of
    the page as it was. *)
Theorem X10_dashboard_query_agrees_with_timeline (user s e : string)
  (q : HealthDashboard.page) :
  SymptomTimeline.timelineUrl user (Some s) (Some e)
  = "/api/users/" +++ user +++ "/timeline" +++ HealthDashboard.dateQuery s e
  /\ HealthDashboard.dateQuery "" "" = ""
  /\ (s <> "" -> HealthDashboard.dateQuery s "" = "?start_date=" +++ JS.urlencode s)
  /\ (e <> "" -> HealthDashboard.dateQuery "" e = "?end_date=" +++ JS.urlencode e)
  /\ (s <> "" -> e <> "" ->
      HealthDashboard.dateQuery s e
      = "?start_date=" +++ JS.urlencode s +++ "&end_date=" +++ JS.urlencode e)
  /\ (let q' := HealthDashboard.fetchDashboardData user q in
      HealthDashboard.requests q'
      = HealthDashboard.requests q
        ++ [{| JS.method := "GET";
               JS.url := "/api/users/" +++ user +++ "/health-dashboard"
                           +++ HealthDashboard.dateQuery
                                 (HealthDashboard.dashboardStartDate q)
                                 (HealthDashboard.dashboardEndDate q);
               JS.body := None |}]
      /\ HealthDashboard.loading q' = true
      /\ HealthDashboard.form q' = HealthDashboard.form q
      /\ HealthDashboard.notifications q' = HealthDashboard.notifications q).
Proof.
  repeat apply conj; try reflexivity.
  - intros Hs. apply String.eqb_neq in Hs. unfold HealthDashboard.dateQuery.
    rewrite Hs. reflexivity.
  - intros He. apply String.eqb_neq in He. unfold HealthDashboard.dateQuery.
    rewrite He. reflexivity.
  - intros Hs He. apply String.eqb_neq in Hs, He. unfold HealthDashboard.dateQuery.
    rewrite Hs, He. reflexivity.
Qed.

Lemma unreserved_not_delimiter (c : ascii) :
  JS.unreserved c = true -> delimiter c = false.
Proof.
  destruct c as [[] [] [] [] [] [] [] []]; vm_compute; congruence.
Qed.

Lemma hex_digits_not_delimiter (c : ascii) :
  delimiter (JS.hex_digit (N_of_ascii c / 16)) = false
  /\ delimiter (JS.hex_digit (N_of_ascii c mod 16)) = false.
Proof.
  destruct c as [[] [] [] [] [] [] [] []]; vm_compute; split; reflexivity.
Qed.

Lemma urlencode_no_delimiter (c : ascii) (s : string) :
  delimiter c = true -> occurrences c (JS.urlencode s) = 0%nat.
Proof.
  intros Hc. induction s as [| a s IH]; [reflexivity|].
  cbn [JS.urlencode].
  destruct (JS.unreserved a) eqn:Ua.
  - cbn [occurrences]. rewrite IH.
    destruct (Ascii.eqb_spec a c) as [-> | _]; [|reflexivity].
    apply unreserved_not_delimiter in Ua. congruence.
  - destruct (N_of_ascii a =? 32)%N.
    + cbn [occurrences]. rewrite IH.
      destruct (Ascii.eqb_spec "+"%char c) as [<- | _]; [discriminate | reflexivity].
    + destruct (hex_digits_not_delimiter a) as [H1 H2].
      cbn [occurrences]. rewrite IH.
      destruct (Ascii.eqb_spec "%"%char c) as [<- | _]; [discriminate|].
      destruct (Ascii.eqb_spec (JS.hex_digit (N_of_ascii a / 16)) c) as [<- | _];
        [congruence|].
      destruct (Ascii.eqb_spec (JS.hex_digit (N_of_ascii a mod 16)) c) as [<- | _];
        [congruence | reflexivity].
Qed.

Lemma occurrences_app (c : ascii) (s t : string) :
  occurrences c (s +++ t) = (occurrences c s + occurrences c t)%nat.
Proof.
  induction s as [| a s IH]; [reflexivity|].
  simpl. rewrite IH. lia.
Qed.

(** X11: whatever is typed into the date filters, the query string has one
    "=" per bound that is sent and one "&" between two bounds, and no "?",
    "#" or space: the encoding of a bound contains none of these, so a
    bound cannot add a parameter of its own. *)
Theorem X11_filter_bounds_cannot_inject_parameters (a b : option string)
  (s : string) (c : ascii) :
  let query := JS.serialize (SymptomTimeline.timelineParams a b) in
  (delimiter c = true -> occurrences c (JS.urlencode s) = 0%nat)
  /\ occurrences "="%char query = List.length (SymptomTimeline.timelineParams a b)
  /\ occurrences "&"%char query = pred (List.length (SymptomTimeline.timelineParams a b))
  /\ occurrences "?"%char query = 0%nat
  /\ occurrences "#"%char query = 0%nat
  /\ occurrences " "%char query = 0%nat.
Proof.
  intros query. split; [apply urlencode_no_delimiter|].
  unfold query, SymptomTimeline.timelineParams.
  destruct a as [x|]; [destruct (String.eqb x "")|];
    (destruct b as [y|]; [destruct (String.eqb y "")|]);
    cbn -[JS.urlencode occurrences String.append];
    repeat (rewrite ?occurrences_app, ?urlencode_no_delimiter by reflexivity);
    repeat split.
Qed.

(** ** Display names and colours *)

Lemma lookup_map (f : string -> string) (table : list (string * string)) k :
  HealthDashboard.lookup (map (fun e => (fst e, f (snd e))) table) k
  = option_map f (HealthDashboard.lookup table k).
Proof.
  induction table as [| [k' v] table IH]; [reflexivity|].
  simpl. destruct (String.eqb k' k); [reflexivity | exact IH].
Qed.

Lemma inherited_cases (t : string) :
  JS.inherited t = true -> In t JS.inheritedNames.
Proof.
  unfold JS.inherited. intros H. apply existsb_exists in H.
  destruct H as [k [Hk E]]. apply String.eqb_eq in E. subst k. exact Hk.
Qed.

(** X12: the tables of the dashboard are consistent: a metric type has a
    display name exactly when it has a colour of its own, and a device type
    has a display name exactly when it has an icon of its own.  A type
    without an entry falls back to grey, or to the microchip icon, unless it
    names a member that every object inherits (such as "constructor"): the
    four helpers then hand on that member instead of a string. *)
Theorem X12_name_and_colour_tables_agree (t alpha : string) :
  (HealthDashboard.lookup HealthDashboard.metricNames t = None
   <-> HealthDashboard.lookup HealthDashboard.metricColors t = None)
  /\ (HealthDashboard.lookup HealthDashboard.deviceNames t = None
      <-> HealthDashboard.lookup HealthDashboard.deviceIcons t = None)
  /\ (HealthDashboard.lookup HealthDashboard.metricNames t = None ->
      JS.inherited t = false ->
      HealthDashboard.getMetricColor t alpha
      = JS.Chars ("rgba(128, 128, 128, " +++ alpha +++ ")"))
  /\ (HealthDashboard.lookup HealthDashboard.deviceNames t = None ->
      JS.inherited t = false ->
      HealthDashboard.getDeviceIcon t = JS.Chars "microchip")
  /\ (JS.inherited t = true ->
      HealthDashboard.formatMetricName t = JS.Builtin t
      /\ HealthDashboard.getMetricColor t alpha = JS.Builtin t
      /\ HealthDashboard.getDeviceIcon t = JS.Builtin t
      /\ HealthDashboard.formatDeviceName t = JS.Builtin t).
Proof.
  assert (Hm : HealthDashboard.lookup HealthDashboard.metricNames t = None
               <-> HealthDashboard.lookup HealthDashboard.metricColors t = None).
  { unfold HealthDashboard.metricNames, HealthDashboard.metricColors.
    cbn [HealthDashboard.lookup].
    repeat match goal with
           | |- context [String.eqb ?k t] => destruct (String.eqb k t)
           end; split; congruence. }
  assert (Hd : HealthDashboard.lookup HealthDashboard.deviceNames t = None
               <-> HealthDashboard.lookup HealthDashboard.deviceIcons t = None).
  { unfold HealthDashboard.deviceNames, HealthDashboard.deviceIcons.
    cbn [HealthDashboard.lookup].
    repeat match goal with
           | |- context [String.eqb ?k t] => destruct (String.eqb k t)
           end; split; congruence. }
  split; [exact Hm|]. split; [exact Hd|]. split; [|split].
  - intros H Hi. apply Hm in H.
    unfold HealthDashboard.getMetricColor, HealthDashboard.lookupOr.
    rewrite (lookup_map (fun c => "rgba(" +++ c +++ ", " +++ alpha +++ ")")).
    rewrite H, Hi. reflexivity.
  - intros H Hi. apply Hd in H.
    unfold HealthDashboard.getDeviceIcon, HealthDashboard.lookupOr.
    rewrite H, Hi. reflexivity.
  - intros Hi.
    unfold HealthDashboard.formatMetricName, HealthDashboard.getMetricColor,
      HealthDashboard.getDeviceIcon, HealthDashboard.formatDeviceName,
      HealthDashboard.lookupOr.
    rewrite (lookup_map (fun c => "rgba(" +++ c +++ ", " +++ alpha +++ ")")), Hi.
    assert (Hn : HealthDashboard.lookup HealthDashboard.metricNames t = None
                 /\ HealthDashboard.lookup HealthDashboard.deviceNames t = None).
    { apply inherited_cases in Hi. simpl in Hi.
      repeat (destruct Hi as [<- | Hi]; [split; reflexivity|]).
      destruct Hi. }
    destruct Hn as [Hn1 Hn2].
    rewrite Hn1, (proj1 Hm Hn1), Hn2, (proj1 Hd Hn2). repeat split.
Qed.

Lemma spaces_length (s : string) :
  String.length (HealthDashboard.spaces s) = String.length s.
Proof. induction s as [| c s IH]; simpl; congruence. Qed.

Lemma capitalize_length (inside : bool) (s : string) :
  String.length (HealthDashboard.capitalize inside s) = String.length s.
Proof.
  revert inside. induction s as [| c s IH]; intros inside; simpl; [reflexivity|].
  rewrite IH. reflexivity.
Qed.

Lemma upper_not_underscore (c : ascii) :
  c <> "_"%char -> HealthDashboard.upper c <> "_"%char.
Proof.
  destruct c as [[] [] [] [] [] [] [] []]; vm_compute; congruence.
Qed.

Lemma spaces_no_underscore (s : string) :
  occurrences "_"%char (HealthDashboard.spaces s) = 0%nat.
Proof.
  induction s as [| c s IH]; [reflexivity|].
  cbn [HealthDashboard.spaces occurrences]. rewrite IH.
  destruct (Ascii.eqb_spec c "_"%char) as [-> | Hne]; [reflexivity|].
  destruct (Ascii.eqb_spec c "_"%char); [congruence | reflexivity].
Qed.

Lemma capitalize_no_underscore (inside : bool) (s : string) :
  occurrences "_"%char s = 0%nat ->
  occurrences "_"%char (HealthDashboard.capitalize inside s) = 0%nat.
Proof.
  revert inside. induction s as [| c s IH]; intros inside; [reflexivity|].
  cbn [HealthDashboard.capitalize occurrences].
  destruct (Ascii.eqb_spec c "_"%char) as [-> | Hne]; [discriminate|].
  intros H. rewrite (IH _ H).
  destruct (HealthDashboard.is_word c && negb inside); cbn.
  - destruct (Ascii.eqb_spec (HealthDashboard.upper c) "_"%char) as [E | _];
      [|reflexivity].
    exfalso. exact (upper_not_underscore c Hne E).
  - destruct (Ascii.eqb_spec c "_"%char); [congruence | reflexivity].
Qed.

(** X13: a metric or device type that has no display name and names no
    inherited member is shown under a derived name of the same length in
    which no underscore is left; such a relationship is shown under a
    derived name of the same length. *)
Theorem X13_derived_names_keep_length_and_drop_underscores (t : string) :
  (HealthDashboard.lookup HealthDashboard.metricNames t = None ->
   JS.inherited t = false ->
   exists s, HealthDashboard.formatMetricName t = JS.Chars s
             /\ String.length s = String.length t
             /\ occurrences "_"%char s = 0%nat)
  /\ (HealthDashboard.lookup HealthDashboard.deviceNames t = None ->
      JS.inherited t = false ->
      exists s, HealthDashboard.formatDeviceName t = JS.Chars s
                /\ String.length s = String.length t
                /\ occurrences "_"%char s = 0%nat)
  /\ (HealthDashboard.lookup FamilyProfiles.relationshipLabels t = None ->
      JS.inherited t = false ->
      exists s, FamilyProfiles.formatRelationship t = JS.Chars s
                /\ String.length s = String.length t).
Proof.
  unfold HealthDashboard.formatMetricName, HealthDashboard.formatDeviceName,
    FamilyProfiles.formatRelationship, HealthDashboard.lookupOr.
  repeat apply conj; intros H Hi; rewrite H, Hi; eexists;
    (split; [reflexivity|]).
  - split; [rewrite capitalize_length, spaces_length; reflexivity|].
    apply capitalize_no_underscore, spaces_no_underscore.
  - split; [rewrite capitalize_length, spaces_length; reflexivity|].
    apply capitalize_no_underscore, spaces_no_underscore.
  - apply capitalize_length.
Qed.

Lemma X13_witness :
  exists s, HealthDashboard.formatMetricName "resting_heart_rate" = JS.Chars s
            /\ String.length s = String.length "resting_heart_rate"
            /\ occurrences "_"%char s = 0%nat.
Proof.
  apply (X13_derived_names_keep_length_and_drop_underscores "resting_heart_rate");
    reflexivity.
Defined.

(** The derived names of three unknown types, and what a type named after an
    inherited member gives. *)
Lemma derived_names_example :
  HealthDashboard.formatMetricName "resting_heart_rate"
  = JS.Chars "Resting Heart Rate"
  /\ HealthDashboard.formatDeviceName "oura_ring" = JS.Chars "Oura Ring"
  /\ FamilyProfiles.formatRelationship "step-mother" = JS.Chars "Step-Mother"
  /\ HealthDashboard.formatMetricName "constructor" = JS.Builtin "constructor"
  /\ HealthDashboard.getMetricColor "toString" "1" = JS.Builtin "toString".
Proof. repeat split. Qed.

(** X14: the BMI badge is red ('danger') exactly for the categories that
    contain "Obese"; a missing or empty category is shown as 'N/A' with the
    neutral class; a category that is neither a string nor falsy makes the
    renderer throw. *)
Theorem X14_bmi_badge_class (c : string) (v : JS.value) :
  (HealthDashboard.bmiClass (JS.VString c) = Some "danger"
   <-> JS.includes c "Obese" = true)
  /\ (JS.truthy v = false -> HealthDashboard.bmiClass v = Some "secondary")
  /\ (JS.truthy v = true -> (forall s, v <> JS.VString s) ->
      HealthDashboard.bmiClass v = None).
Proof.
  split; [|split].
  - unfold HealthDashboard.bmiClass, JS.or_else. cbn [JS.truthy].
    destruct (String.eqb_spec c "") as [-> | Hne]; cbn [negb];
      [split; intros E; vm_compute in E; discriminate E|].
    destruct (String.eqb_spec c "Normal weight") as [-> | _];
      [split; intros E; vm_compute in E; discriminate E|].
    destruct (String.eqb_spec c "Underweight") as [-> | _];
      [split; intros E; vm_compute in E; discriminate E|].
    destruct (String.eqb_spec c "Overweight") as [-> | _];
      [split; intros E; vm_compute in E; discriminate E|].
    destruct (JS.includes c "Obese"); split; congruence.
  - intros H. unfold HealthDashboard.bmiClass, JS.or_else. rewrite H. reflexivity.
  - intros H Hs. unfold HealthDashboard.bmiClass, JS.or_else. rewrite H.
    destruct v; try reflexivity. exfalso. eapply Hs. reflexivity.
Qed.

(** ** The symptom list under the timeline *)


Lemma firstAbove_none (l : list (option SymptomTimeline.point)) :
  SymptomTimeline.firstAbove l = Some None ->
  existsb SymptomTimeline.positive l = false.
Proof.
  induction l as [| [q|] l IH]; cbn [SymptomTimeline.firstAbove existsb];
    [reflexivity | | discriminate].
  destruct (SymptomTimeline.positive (Some q)); [discriminate|].
  exact IH.
Qed.

Lemma existsb_rev {A} (f : A -> bool) (l : list A) :
  existsb f (rev l) = existsb f l.
Proof.
  induction l as [| a l IH]; [reflexivity|].
  simpl. rewrite existsb_app, IH. simpl. rewrite orb_false_r. apply orb_comm.
Qed.

Lemma listItems_labels (ds : list SymptomTimeline.dataset) items :
  SymptomTimeline.listItems ds = Some items ->
  Forall (fun d => SymptomTimeline.hasPositive d = true) ds ->
  map SymptomTimeline.item_label items = map SymptomTimeline.label ds.
Proof.
  revert items. induction ds as [| d ds IH]; intros items;
    cbn [SymptomTimeline.listItems].
  - intros [= <-] _. reflexivity.
  - intros H Hall. inversion Hall as [| ? ? Hd Hds]; subst.
    unfold SymptomTimeline.hasPositive in Hd.
    destruct (SymptomTimeline.data d) as [pts|]; [|discriminate].
    destruct (SymptomTimeline.lastRecord pts) as [[pt|]|] eqn:Hl; [| |discriminate].
    + destruct (SymptomTimeline.listItems ds) as [rest|]; [|discriminate].
      injection H as <-. simpl. f_equal. apply IH; [reflexivity | exact Hds].
    + apply firstAbove_none in Hl. rewrite existsb_rev in Hl. congruence.
Qed.


Lemma categories_values (ds : list SymptomTimeline.dataset) o o' :
  SymptomTimeline.categories o ds = Some o' ->
  Permutation (flat_map snd o')
    (flat_map snd o ++ filter SymptomTimeline.hasPositive ds).
Proof.
  revert o. induction ds as [| d ds IH]; intros o;
    cbn [SymptomTimeline.categories filter].
  - intros [= <-]. rewrite app_nil_r. reflexivity.
  - unfold SymptomTimeline.hasPositive at 1.
    destruct (SymptomTimeline.data d) as [pts|] eqn:Ed; [|discriminate].
    destruct (SymptomTimeline.someAbove pts) as [[|]|] eqn:Es; [| |discriminate];
      (destruct (JS.inherited (SymptomTimeline.category d)); [try discriminate|]);
      intros H; apply IH in H; rewrite H; clear H;
      apply someAbove_existsb in Es; rewrite Es.
    + rewrite append_values by apply get_ensure_some.
      rewrite ensure_values. simpl. apply Permutation_middle.
    + reflexivity.
    + rewrite ensure_values. reflexivity.
Qed.

Lemma categories_NoDup (ds : list SymptomTimeline.dataset) o o' :
  SymptomTimeline.categories o ds = Some o' ->
  NoDup (map fst o) -> NoDup (map fst o').
Proof.
  revert o. induction ds as [| d ds IH]; intros o;
    cbn [SymptomTimeline.categories].
  - intros [= <-]. tauto.
  - destruct (SymptomTimeline.data d) as [pts|]; [|discriminate].
    destruct (SymptomTimeline.someAbove pts) as [[|]|]; [| |discriminate];
      (destruct (JS.inherited (SymptomTimeline.category d)); [try discriminate|]);
      intros H Hnd; apply (IH _ H).
    + rewrite keys_append. apply NoDup_ensure, Hnd.
    + exact Hnd.
    + apply NoDup_ensure, Hnd.
Qed.

Lemma categoryGroups_spec (es : list (string * list SymptomTimeline.dataset)) groups :
  SymptomTimeline.categoryGroups es = Some groups ->
  Forall (fun d => SymptomTimeline.hasPositive d = true) (flat_map snd es) ->
  map SymptomTimeline.item_label (flat_map snd groups)
  = map SymptomTimeline.label (flat_map snd es)
  /\ Forall (fun g => snd g <> []) groups
  /\ (forall c, In c (map fst groups) -> In c (map fst es))
  /\ (NoDup (map fst es) -> NoDup (map fst groups)).
Proof.
  revert groups. induction es as [| [c ds] es IH]; intros groups;
    cbn [SymptomTimeline.categoryGroups].
  - intros [= <-] _. repeat split; simpl; auto; constructor.
  - cbn [flat_map snd]. intros H Hall. apply Forall_app in Hall.
    destruct Hall as [Hds Hes].
    destruct ds as [| d ds'].
    + destruct (IH _ H Hes) as (E & Hne & Hin & Hnd).
      repeat split; auto.
      * intros k Hk. right. auto.
      * intros N. inversion N; subst. auto.
    + destruct (SymptomTimeline.listItems (d :: ds')) as [items|] eqn:Hi;
        [|discriminate].
      destruct (SymptomTimeline.categoryGroups es) as [gs|]; [|discriminate].
      injection H as <-.
      destruct (IH _ eq_refl Hes) as (E & Hne & Hin & Hnd).
      pose proof (listItems_labels _ _ Hi Hds) as L.
      repeat split.
      * cbn [flat_map snd]. rewrite !map_app, E, L. reflexivity.
      * constructor; [|exact Hne]. cbn [snd]. intros N. rewrite N in L.
        discriminate.
      * intros k [<- | Hk]; [left; reflexivity | right; auto].
      * intros N. inversion N as [| ? ? Hc Hes']; subst. simpl.
        constructor; [|auto]. intros Hk. apply Hc. auto.
Qed.

(** X16: the symptom list agrees with the chart: when it is drawn, it shows
    one entry for each dataset that is bound to the chart (those with a
    positive point) and for no other, under category headings that are
    pairwise distinct and never empty. *)
Theorem X16_symptom_list_matches_the_chart (d : SymptomTimeline.timeline_data)
  (groups : list (string * list SymptomTimeline.list_item)) :
  SymptomTimeline.updateSymptomsList (Some d) = SymptomTimeline.Listed groups ->
  Permutation
    (map SymptomTimeline.item_label (flat_map snd groups))
    (map SymptomTimeline.label
       (SymptomTimeline.chartDatasets (SymptomTimeline.datasets d)))
  /\ NoDup (map fst groups)
  /\ Forall (fun g => snd g <> []) groups.
Proof.
  unfold SymptomTimeline.updateSymptomsList.
  destruct (SymptomTimeline.datasets d) as [| | [| d0 ds]]; try discriminate.
  destruct (SymptomTimeline.categories [] (d0 :: ds)) as [o|] eqn:Ho;
    [|discriminate].
  destruct (SymptomTimeline.categoryGroups (JS.entries o)) as [gs|] eqn:Hg;
    [|discriminate].
  intros [= <-].
  pose proof (categories_values _ _ _ Ho) as Hv. simpl app in Hv.
  pose proof (categories_NoDup _ _ _ Ho (NoDup_nil _)) as Hnd.
  assert (Hperm : Permutation (flat_map snd (JS.entries o))
                    (filter SymptomTimeline.hasPositive (d0 :: ds))).
  { unfold JS.entries. rewrite (own_order_perm o). exact Hv. }
  assert (Hall : Forall (fun x => SymptomTimeline.hasPositive x = true)
                   (flat_map snd (JS.entries o))).
  { apply Forall_forall. intros x Hx.
    apply (Permutation_in _ Hperm) in Hx. apply filter_In in Hx. tauto. }
  destruct (categoryGroups_spec _ _ Hg Hall) as (E & Hne & _ & Hk).
  repeat split.
  - rewrite E. apply Permutation_map. exact Hperm.
  - apply Hk. apply keys_NoDup in Hnd. exact Hnd.
  - exact Hne.
Qed.

Lemma X16_witness :
  Permutation
    (map SymptomTimeline.item_label
       (flat_map snd [("Neurological",
                       [SymptomTimeline.listItem Examples.headache
                          {| SymptomTimeline.x := "2024-01-02";
                             SymptomTimeline.y := Some (JS.of_Z 4);
                             SymptomTimeline.record_id := JS.VNumber (JS.of_Z 1);
                             SymptomTimeline.notes := JS.VUndefined |}])]))
    (map SymptomTimeline.label
       (SymptomTimeline.chartDatasets
          (SymptomTimeline.Datasets [Examples.headache; Examples.cough])))
  /\ NoDup ["Neurological"]
  /\ Forall (fun g : string * list SymptomTimeline.list_item => snd g <> [])
       [("Neurological",
         [SymptomTimeline.listItem Examples.headache
            {| SymptomTimeline.x := "2024-01-02";
               SymptomTimeline.y := Some (JS.of_Z 4);
               SymptomTimeline.record_id := JS.VNumber (JS.of_Z 1);
               SymptomTimeline.notes := JS.VUndefined |}])].
Proof.
  apply (X16_symptom_list_matches_the_chart
           {| SymptomTimeline.labels := Some ["2024-01-01"];
              SymptomTimeline.datasets :=
                SymptomTimeline.Datasets [Examples.headache; Examples.cough] |}).
  reflexivity.
Defined.

(** ** The symptom cards of the page script *)

(** X17: the page script shows one card per symptom of the payload, the
    most recent first when the times are valid; the message 'No symptoms
    recorded yet.' is shown exactly when there is no symptom. *)
Theorem X17_symptom_cards_most_recent_first (h : JS.host)
  (symptoms : list HealthDashboard.health_symptom) :
  (HealthDashboard.symptomTimeline h (Some symptoms) = HealthDashboard.NoSymptomsYet
   <-> symptoms = [])
  /\ HealthDashboard.symptomTimeline h None = HealthDashboard.NoSymptomsYet
  /\ (forall cards,
        HealthDashboard.symptomTimeline h (Some symptoms) = HealthDashboard.Cards cards ->
        Permutation cards (map (HealthDashboard.symptomCard h) symptoms)
        /\ (timed h symptoms ->
            StronglySorted (fun c c' => cardTime c >= cardTime c') cards)).
Proof.
  unfold HealthDashboard.symptomTimeline.
  pose proof (sort_perm (HealthDashboard.byDatetimeDesc h) symptoms) as Hp.
  split; [|split; [reflexivity|]].
  - destruct (JS.sort (HealthDashboard.byDatetimeDesc h) symptoms) as [| a l] eqn:E.
    + apply Permutation_nil in Hp. tauto.
    + split; [discriminate|]. intros ->. apply Permutation_sym, Permutation_nil in Hp.
      discriminate.
  - intros cards H.
    assert (Hc : cards = map (HealthDashboard.symptomCard h)
                           (JS.sort (HealthDashboard.byDatetimeDesc h) symptoms)).
    { destruct (JS.sort (HealthDashboard.byDatetimeDesc h) symptoms);
        [discriminate | congruence]. }
    subst cards. split; [apply Permutation_map, Hp|].
    intros Ht. apply sorted_map.
    apply sorted_impl
      with (R := fun a b =>
                   - match JS.newDate h (HealthDashboard.datetime a) with
                     | Some t => t | None => 0 end
                   <= - match JS.newDate h (HealthDashboard.datetime b) with
                        | Some t => t | None => 0 end).
    + intros a b. unfold cardTime, HealthDashboard.symptomCard.
      cbn [HealthDashboard.card_time]. lia.
    + apply (sort_sorted _
               (fun s => - match JS.newDate h (HealthDashboard.datetime s) with
                           | Some t => t | None => 0 end)
               (fun s => JS.newDate h (HealthDashboard.datetime s) <> None));
        [|exact Ht].
      intros a b Ha Hb. apply byDatetimeDesc_rank; assumption.
Qed.

(** ** The hospital finder of the page script *)

(** X18: however the search for hospitals ends (no geolocation, a refused
    position, a rejected request, an error response, a body that is not
    JSON, a list of hospitals), the button is enabled again with its
    original label.  The error line under the map is filled exactly when no
    position was obtained; with a position the map is shown, centred on the
    user's marker.  Neither the list nor the error line keeps anything of
    an earlier search. *)
Theorem X18_hospital_search_always_releases_the_button
  (answer : HealthDashboard.located) (f g : HealthDashboard.finder) :
  let f' := HealthDashboard.handleFindHospitals answer f in
  HealthDashboard.find_disabled f' = false
  /\ HealthDashboard.find_label f' = HealthDashboard.FindNearbyHospitals
  /\ (HealthDashboard.mapError f' = ""
      <-> exists lat lon s, answer = HealthDashboard.Position lat lon s)
  /\ (forall lat lon s,
        answer = HealthDashboard.Position lat lon s ->
        HealthDashboard.map_visible f' = true
        /\ HealthDashboard.map_center f' = Some (lat, lon)
        /\ HealthDashboard.userMarker f' = Some (lat, lon))
  /\ HealthDashboard.hospitalList (HealthDashboard.handleFindHospitals answer g)
     = HealthDashboard.hospitalList f'
  /\ HealthDashboard.mapError (HealthDashboard.handleFindHospitals answer g)
     = HealthDashboard.mapError f'.
Proof.
  intros f'. subst f'.
  destruct answer as [| | lat lon s].
  - cbn. repeat split; try discriminate.
    intros (? & ? & ? & ?). discriminate.
  - cbn. repeat split; try discriminate.
    intros (? & ? & ? & ?). discriminate.
  - assert (Hp : exists a b c, HealthDashboard.Position lat lon s
                               = HealthDashboard.Position a b c)
      by (exists lat, lon, s; reflexivity).
    destruct s as [| [] st [[hs | e] |]]; cbn;
      (split; [reflexivity|]); (split; [reflexivity|]);
      (split; [split; [intros _; exact Hp | reflexivity]|]);
      (split; [intros a b c [= <- <- <-]; cbn; repeat split | split; reflexivity]).
Qed.

(** X19: a list of hospitals replaces the markers and the list of the
    previous search, one marker and one link per hospital (an empty list
    gives the line 'No hospitals found nearby.').  A search that fails
    shows the error alone in the list and logs it; unless the failure is an
    object answered with an [ok] status, the markers of the previous search
    stay on the map.  An error response shows the text of its [error]
    field when there is one. *)
Theorem X19_hospital_markers_and_list (lat lon : JS.number)
  (f : HealthDashboard.finder) :
  (forall st hs,
     let f' := HealthDashboard.handleFindHospitals
                 (HealthDashboard.Position lat lon
                    (JS.Response true st (Some (HealthDashboard.HospitalArray hs)))) f in
     HealthDashboard.hospitalMarkers f'
     = map (fun hp => (HealthDashboard.hospital_lat hp,
                       HealthDashboard.hospital_lon hp,
                       HealthDashboard.hospital_name hp)) hs
     /\ (hs = [] ->
         HealthDashboard.hospitalList f' = [HealthDashboard.NoHospitals])
     /\ (hs <> [] ->
         HealthDashboard.hospitalList f'
         = map (fun hp => HealthDashboard.HospitalLink
                            (HealthDashboard.googleMapsLink hp)
                            (HealthDashboard.hospital_name hp)
                            (HealthDashboard.hospital_address hp)) hs)
     /\ HealthDashboard.finder_console f' = HealthDashboard.finder_console f)
  /\ (forall s,
        (forall st hs,
           s <> JS.Response true st (Some (HealthDashboard.HospitalArray hs))) ->
        let f' := HealthDashboard.handleFindHospitals
                    (HealthDashboard.Position lat lon s) f in
        (exists m, HealthDashboard.hospitalList f' = [HealthDashboard.ErrorEntry m])
        /\ HealthDashboard.finder_console f'
           = HealthDashboard.finder_console f
               ++ [JS.Error "Error finding hospitals:"]
        /\ ((forall st e,
               s <> JS.Response true st (Some (HealthDashboard.ErrorObject e))) ->
            HealthDashboard.hospitalMarkers f' = HealthDashboard.hospitalMarkers f))
  /\ (forall st e,
        e <> "" ->
        HealthDashboard.hospitalList
          (HealthDashboard.handleFindHospitals
             (HealthDashboard.Position lat lon
                (JS.Response false st
                   (Some (HealthDashboard.ErrorObject (JS.Str e))))) f)
        = [HealthDashboard.ErrorEntry (HealthDashboard.Literal e)]).
Proof.
  repeat apply conj.
  - intros st hs. cbn. repeat split.
    + intros ->. reflexivity.
    + destruct hs; [congruence | reflexivity].
  - intros s Hs.
    destruct s as [| [] st [[hs | e] |]]; cbn;
      try (exfalso; apply (Hs st hs); reflexivity);
      (split; [eexists; reflexivity|]); (split; [reflexivity|]);
      intros He; try reflexivity.
    exfalso. apply (He st e). reflexivity.
  - intros st e He. cbn.
    destruct (String.eqb_spec e "") as [-> | _]; [congruence | reflexivity].
Qed.

Lemma uri_unreserved_not_delimiter (c : ascii) :
  JS.uri_unreserved c = true -> delimiter c = false.
Proof.
  destruct c as [[] [] [] [] [] [] [] []]; vm_compute; congruence.
Qed.

Lemma encodeURIComponent_no_delimiter (c : ascii) (s : string) :
  delimiter c = true -> occurrences c (JS.encodeURIComponent s) = 0%nat.
Proof.
  intros Hc. induction s as [| a s IH]; [reflexivity|].
  cbn [JS.encodeURIComponent].
  destruct (JS.uri_unreserved a) eqn:Ua.
  - cbn [occurrences]. rewrite IH.
    destruct (Ascii.eqb_spec a c) as [-> | _]; [|reflexivity].
    apply uri_unreserved_not_delimiter in Ua. congruence.
  - destruct (hex_digits_not_delimiter a) as [H1 H2].
    cbn [occurrences]. rewrite IH.
    destruct (Ascii.eqb_spec "%"%char c) as [<- | _]; [discriminate|].
    destruct (Ascii.eqb_spec (JS.hex_digit (N_of_ascii a / 16)) c) as [<- | _];
      [congruence|].
    destruct (Ascii.eqb_spec (JS.hex_digit (N_of_ascii a mod 16)) c) as [<- | _];
      [congruence | reflexivity].
Qed.

(** X20: whatever the name and the address of a hospital, its link has the
    delimiters of the template and no other: one "?", one "&", two "=", no
    "#" and no space.  The name and the address cannot add a parameter to
    the link or cut it short. *)
Theorem X20_hospital_link_keeps_its_shape (hp : HealthDashboard.hospital) :
  let link := HealthDashboard.googleMapsLink hp in
  occurrences "?"%char link = 1%nat
  /\ occurrences "&"%char link = 1%nat
  /\ occurrences "="%char link = 2%nat
  /\ occurrences "#"%char link = 0%nat
  /\ occurrences " "%char link = 0%nat.
Proof.
  unfold HealthDashboard.googleMapsLink.
  cbv zeta. repeat split;
    rewrite occurrences_app, encodeURIComponent_no_delimiter by reflexivity;
    reflexivity.
Qed.

(** ** The quick symptom form of the page script *)

(** X21: the quick symptom form is posted as it is, without any check of
    its fields: every submission sends exactly one request.  An [ok]
    response (its body is not read) resets the form, closes the dialog and
    refreshes the dashboard once; anything else leaves the form and the
    dialog as they are and shows one alert. *)
Theorem X21_quick_symptom_form_is_posted_unchecked {J : Type} (now : string)
  (settle : JS.settled J) (p : HealthDashboard.quick_page) :
  let p' := HealthDashboard.handleAddSymptom now settle p in
  HealthDashboard.quick_requests p'
  = HealthDashboard.quick_requests p
      ++ [{| JS.method := "POST"; JS.url := "/api/user/symptom";
             JS.body :=
               Some {| HealthDashboard.q_symptom :=
                         HealthDashboard.symptomName (HealthDashboard.quick p);
                       HealthDashboard.q_severity :=
                         HealthDashboard.quickSeverity (HealthDashboard.quick p);
                       HealthDashboard.q_notes :=
                         HealthDashboard.quickNotes (HealthDashboard.quick p);
                       HealthDashboard.q_datetime := now |} |}]
  /\ ((exists st j, settle = JS.Response true st j) ->
      HealthDashboard.quick p' = HealthDashboard.quick_defaults p
      /\ HealthDashboard.quick_modal_open p' = false
      /\ HealthDashboard.refreshes p' = S (HealthDashboard.refreshes p)
      /\ HealthDashboard.alerts p' = HealthDashboard.alerts p
      /\ HealthDashboard.quick_console p' = HealthDashboard.quick_console p)
  /\ ((forall st j, settle <> JS.Response true st j) ->
      HealthDashboard.quick p' = HealthDashboard.quick p
      /\ HealthDashboard.quick_modal_open p' = HealthDashboard.quick_modal_open p
      /\ HealthDashboard.refreshes p' = HealthDashboard.refreshes p
      /\ HealthDashboard.alerts p'
         = HealthDashboard.alerts p ++ ["Could not add symptom. Please try again."]).
Proof.
  intros p'. subst p'.
  destruct settle as [| [] st j]; cbn; (split; [reflexivity|]); split.
  - intros (? & ? & ?). discriminate.
  - intros _. repeat split.
  - intros _. repeat split.
  - intros H. exfalso. apply (H st j). reflexivity.
  - intros (? & ? & ?). discriminate.
  - intros _. repeat split.
Qed.

(** ** The timeline chart *)

(** X22: the timeline chart is created exactly when the canvas element is
    there, its [getContext] does not throw, the payload has labels and at
    least one dataset has a positive point.  It is then created with the
    labels of the payload and with those datasets only, and its height is 50
    pixels per dataset but never less than 400.  A context that is [null]
    is not noticed: the chart is then created on [null]. *)
Theorem X22_chart_is_drawn_exactly_for_usable_data (c : SymptomTimeline.canvas)
  (d : option SymptomTimeline.timeline_data) :
  (forall ctx ls ds ht,
     SymptomTimeline.renderTimeline c d = SymptomTimeline.Chart ctx ls ds ht ->
     SymptomTimeline.container_present c = true
     /\ SymptomTimeline.getContext c <> SymptomTimeline.ContextThrows
     /\ (ctx = false <-> SymptomTimeline.getContext c = SymptomTimeline.NullContext)
     /\ (exists dd, d = Some dd
                    /\ SymptomTimeline.labels dd = Some ls
                    /\ ds = SymptomTimeline.chartDatasets (SymptomTimeline.datasets dd))
     /\ ds <> []
     /\ 400 <= ht
     /\ 50 * Z.of_nat (List.length ds) <= ht
     /\ (ht = 400 \/ ht = 50 * Z.of_nat (List.length ds)))
  /\ (forall dd ls,
        SymptomTimeline.container_present c = true ->
        SymptomTimeline.getContext c <> SymptomTimeline.ContextThrows ->
        d = Some dd ->
        SymptomTimeline.labels dd = Some ls ->
        SymptomTimeline.chartDatasets (SymptomTimeline.datasets dd) <> [] ->
        exists ht,
          SymptomTimeline.renderTimeline c d
          = SymptomTimeline.Chart (SymptomTimeline.context_available c) ls
              (SymptomTimeline.chartDatasets (SymptomTimeline.datasets dd)) ht)
  /\ (SymptomTimeline.container_present c = true ->
      SymptomTimeline.getContext c = SymptomTimeline.ContextThrows ->
      SymptomTimeline.renderTimeline c d = SymptomTimeline.CanvasUnavailable).
Proof.
  unfold SymptomTimeline.renderTimeline, SymptomTimeline.context_available.
  split; [|split].
  - intros ctx ls ds ht.
    destruct (SymptomTimeline.container_present c); [|discriminate].
    cbn [negb]. cbv iota.
    destruct (SymptomTimeline.getContext c) eqn:Eg; [discriminate | |];
      (destruct d as [dd|]; [|discriminate]);
      (destruct (SymptomTimeline.labels dd) as [ls'|] eqn:Hl; [|discriminate]);
      (destruct (SymptomTimeline.datasets dd) as [| | l] eqn:Ef;
         cbn [SymptomTimeline.chartDatasets]; try discriminate);
      (destruct (filter SymptomTimeline.hasPositive l) as [| a r] eqn:El;
         [discriminate|]);
      rewrite <- El; set (fl := filter SymptomTimeline.hasPositive l) in *;
      intros H; injection H as <- <- <- <-;
      (split; [reflexivity|]); (split; [discriminate|]);
      (split; [split; congruence|]);
      (split; [exists dd; repeat split; [exact Hl | rewrite Ef; reflexivity]|]);
      (split; [rewrite El; discriminate|]); lia.
  - intros dd ls -> Hg -> Hl Hne. cbn [negb]. cbv iota. rewrite Hl.
    destruct (SymptomTimeline.getContext c); [congruence | |];
      (destruct (SymptomTimeline.datasets dd) as [| | l];
         cbn [SymptomTimeline.chartDatasets] in *; try congruence);
      (destruct (filter SymptomTimeline.hasPositive l) as [| a r];
         [congruence | eexists; reflexivity]).
  - intros -> ->. reflexivity.
Qed.

(** ** The family forms *)

(** X23: a family form is sent only when its two required fields are
    filled: the member form needs a relative and a relationship, the history
    form a condition and a relationship.  A form that lacks one of them
    sends nothing, stays as it is with its dialog open, and gives one error
    notice. *)
Theorem X23_family_forms_are_sent_only_when_filled {J : Type} (h : JS.host)
  (userId : string) (settle : JS.settled J) (p : FamilyProfiles.page) :
  (FamilyProfiles.validateMember (FamilyProfiles.memberForm p) = None
   <-> FamilyProfiles.relativeId (FamilyProfiles.memberForm p) <> ""
       /\ FamilyProfiles.relationshipType (FamilyProfiles.memberForm p) <> "")
  /\ (FamilyProfiles.validateHistory (FamilyProfiles.historyForm p) = None
      <-> FamilyProfiles.conditionName (FamilyProfiles.historyForm p) <> ""
          /\ FamilyProfiles.historyRelationship (FamilyProfiles.historyForm p) <> "")
  /\ (FamilyProfiles.validateMember (FamilyProfiles.memberForm p) <> None ->
      let p' := FamilyProfiles.saveFamilyMember h userId settle p in
      FamilyProfiles.requests p' = FamilyProfiles.requests p
      /\ FamilyProfiles.memberForm p' = FamilyProfiles.memberForm p
      /\ FamilyProfiles.memberModal_open p' = FamilyProfiles.memberModal_open p
      /\ exists m, FamilyProfiles.notifications p'
                   = FamilyProfiles.notifications p ++ [(m, "error")])
  /\ (FamilyProfiles.validateHistory (FamilyProfiles.historyForm p) <> None ->
      let p' := FamilyProfiles.saveHealthHistory h userId settle p in
      FamilyProfiles.requests p' = FamilyProfiles.requests p
      /\ FamilyProfiles.historyForm p' = FamilyProfiles.historyForm p
      /\ FamilyProfiles.historyModal_open p' = FamilyProfiles.historyModal_open p
      /\ exists m, FamilyProfiles.notifications p'
                   = FamilyProfiles.notifications p ++ [(m, "error")]).
Proof.
  unfold FamilyProfiles.saveFamilyMember, FamilyProfiles.saveHealthHistory,
    FamilyProfiles.validateMember, FamilyProfiles.validateHistory.
  repeat apply conj.
  - destruct (String.eqb_spec (FamilyProfiles.relativeId (FamilyProfiles.memberForm p)) "");
      [intros; discriminate|].
    destruct (String.eqb_spec (FamilyProfiles.relationshipType (FamilyProfiles.memberForm p)) "");
      [intros; discriminate | auto].
  - intros [Ha Hb].
    destruct (String.eqb_spec (FamilyProfiles.relativeId (FamilyProfiles.memberForm p)) "");
      [contradiction|].
    destruct (String.eqb_spec (FamilyProfiles.relationshipType (FamilyProfiles.memberForm p)) "");
      [contradiction | reflexivity].
  - destruct (String.eqb_spec (FamilyProfiles.conditionName (FamilyProfiles.historyForm p)) "");
      [intros; discriminate|].
    destruct (String.eqb_spec (FamilyProfiles.historyRelationship (FamilyProfiles.historyForm p)) "");
      [intros; discriminate | auto].
  - intros [Ha Hb].
    destruct (String.eqb_spec (FamilyProfiles.conditionName (FamilyProfiles.historyForm p)) "");
      [contradiction|].
    destruct (String.eqb_spec (FamilyProfiles.historyRelationship (FamilyProfiles.historyForm p)) "");
      [contradiction | reflexivity].
  - destruct (String.eqb (FamilyProfiles.relativeId (FamilyProfiles.memberForm p)) "");
      [|destruct (String.eqb (FamilyProfiles.relationshipType (FamilyProfiles.memberForm p)) "");
        [|congruence]];
      intros _; cbn; repeat split; eexists; reflexivity.
  - destruct (String.eqb (FamilyProfiles.conditionName (FamilyProfiles.historyForm p)) "");
      [|destruct (String.eqb (FamilyProfiles.historyRelationship (FamilyProfiles.historyForm p)) "");
        [|congruence]];
      intros _; cbn; repeat split; eexists; reflexivity.
Qed.

(** X24: a family form that passes its check is posted once.  When the
    request fails, the form and its dialog stay as they are and one error
    notice is given.  When it succeeds, the submitted form alone is reset
    and its dialog closed (the other form keeps its content), one success
    notice is given and the family dashboard is fetched again.  An empty
    age of diagnosis is left out of the body, it is not sent as a number. *)
Theorem X24_family_submission_outcome {J : Type} (h : JS.host)
  (userId : string) (settle : JS.settled J) (p : FamilyProfiles.page) :
  (FamilyProfiles.validateMember (FamilyProfiles.memberForm p) = None ->
   let p' := FamilyProfiles.saveFamilyMember h userId settle p in
   let post :=
     {| JS.method := "POST";
        JS.url := "/api/users/" +++ userId +++ "/family-members";
        JS.body :=
          Some (FamilyProfiles.MemberBody
                  (JS.parseInt h
                     (JS.VString (FamilyProfiles.relativeId (FamilyProfiles.memberForm p))))
                  (FamilyProfiles.relationshipType (FamilyProfiles.memberForm p))
                  (FamilyProfiles.accessLevel (FamilyProfiles.memberForm p))) |} in
   FamilyProfiles.historyForm p' = FamilyProfiles.historyForm p
   /\ FamilyProfiles.historyModal_open p' = FamilyProfiles.historyModal_open p
   /\ (JS.unwrap settle = None ->
       FamilyProfiles.requests p' = FamilyProfiles.requests p ++ [post]
       /\ FamilyProfiles.memberForm p' = FamilyProfiles.memberForm p
       /\ FamilyProfiles.memberModal_open p' = FamilyProfiles.memberModal_open p
       /\ FamilyProfiles.notifications p'
          = FamilyProfiles.notifications p
              ++ [("Error adding family member. Please try again.", "error")])
   /\ (JS.unwrap settle <> None ->
       FamilyProfiles.requests p'
       = FamilyProfiles.requests p
           ++ [post;
               {| JS.method := "GET";
                  JS.url := "/api/users/" +++ userId +++ "/family-dashboard";
                  JS.body := None |}]
       /\ FamilyProfiles.memberForm p' = FamilyProfiles.memberForm_defaults p
       /\ FamilyProfiles.memberModal_open p' = false
       /\ FamilyProfiles.loading p' = true
       /\ FamilyProfiles.notifications p'
          = FamilyProfiles.notifications p
              ++ [("Family member added successfully", "success")]))
  /\ (FamilyProfiles.validateHistory (FamilyProfiles.historyForm p) = None ->
      let p' := FamilyProfiles.saveHealthHistory h userId settle p in
      let f := FamilyProfiles.historyForm p in
      let post (age : option JS.number) :=
        {| JS.method := "POST";
           JS.url := "/api/users/" +++ userId +++ "/family-history";
           JS.body :=
             Some (FamilyProfiles.HistoryBody (FamilyProfiles.conditionName f)
                     (FamilyProfiles.historyRelationship f) age
                     (FamilyProfiles.historyNotes f)) |} in
      FamilyProfiles.memberForm p' = FamilyProfiles.memberForm p
      /\ FamilyProfiles.memberModal_open p' = FamilyProfiles.memberModal_open p
      /\ (exists age,
            firstn 1 (skipn (List.length (FamilyProfiles.requests p))
                        (FamilyProfiles.requests p'))
            = [post age]
            /\ (FamilyProfiles.ageAtDiagnosis f = "" <-> age = None))
      /\ (JS.unwrap settle = None ->
          List.length (FamilyProfiles.requests p')
          = S (List.length (FamilyProfiles.requests p))
          /\ FamilyProfiles.historyForm p' = FamilyProfiles.historyForm p
          /\ FamilyProfiles.historyModal_open p'
             = FamilyProfiles.historyModal_open p
          /\ FamilyProfiles.notifications p'
             = FamilyProfiles.notifications p
                 ++ [("Error adding family health history. Please try again.",
                      "error")])
      /\ (JS.unwrap settle <> None ->
          map JS.method (FamilyProfiles.requests p')
          = map JS.method (FamilyProfiles.requests p) ++ ["POST"; "GET"]
          /\ FamilyProfiles.historyForm p' = FamilyProfiles.historyForm_defaults p
          /\ FamilyProfiles.historyModal_open p' = false
          /\ FamilyProfiles.loading p' = true
          /\ FamilyProfiles.notifications p'
             = FamilyProfiles.notifications p
                 ++ [("Family health history added successfully", "success")])).
Proof.
  unfold FamilyProfiles.saveFamilyMember, FamilyProfiles.saveHealthHistory.
  split; intros ->; cbv zeta.
  - destruct (JS.unwrap settle) as [j|]; cbn;
      (split; [reflexivity|]); (split; [reflexivity|]); split; intros H;
      try congruence; repeat split.
    rewrite <- app_assoc. reflexivity.
  - assert (Hskip : forall (A : Type) (l r : list A),
               skipn (List.length l) (l ++ r) = r).
    { intros A l r. induction l as [| a l IH]; [reflexivity | exact IH]. }
    destruct (JS.unwrap settle) as [j|]; cbn;
      (split; [reflexivity|]); (split; [reflexivity|]); (split; [|split]);
      try (intros H; congruence).
    + eexists. rewrite <- app_assoc, Hskip. split; [reflexivity|].
      destruct (String.eqb_spec
                  (FamilyProfiles.ageAtDiagnosis (FamilyProfiles.historyForm p)) "");
        split; congruence.
    + intros _. repeat split.
      rewrite !map_app. rewrite <- app_assoc. reflexivity.
    + eexists. rewrite Hskip. split; [reflexivity|].
      destruct (String.eqb_spec
                  (FamilyProfiles.ageAtDiagnosis (FamilyProfiles.historyForm p)) "");
        split; congruence.
    + intros _. repeat split. rewrite length_app. simpl. lia.
Qed.

(** X25: the family health history shows its placeholder exactly when the
    payload has no history or one without any relationship.  Otherwise it
    shows one section per relationship, in the order of the keys of the
    object, under the formatted name of the relationship, and the sections
    together hold every recorded condition once. *)
Theorem X25_family_history_keeps_every_condition
  (history : option (JS.obj FamilyProfiles.history_entry)) :
  (FamilyProfiles.renderFamilyHealthHistory history = FamilyProfiles.NoHistory
   <-> history = None \/ history = Some [])
  /\ (forall o sections,
        history = Some o ->
        FamilyProfiles.renderFamilyHealthHistory history
        = FamilyProfiles.History sections ->
        map fst sections = map FamilyProfiles.formatRelationship (JS.keys o)
        /\ List.length sections = List.length o
        /\ Permutation (flat_map snd sections) (flat_map snd o)).
Proof.
  unfold FamilyProfiles.renderFamilyHealthHistory. split.
  - destruct history as [o|]; [|tauto].
    pose proof (keys_perm o) as Hp.
    destruct (JS.keys o) as [| k ks] eqn:Ek.
    + apply Permutation_nil in Hp. destruct o; [tauto | discriminate].
    + split; [discriminate|]. intros [H | H]; [discriminate|].
      injection H as ->. vm_compute in Ek. discriminate.
  - intros o sections -> H.
    assert (Hs : sections
                 = map (fun e => (FamilyProfiles.formatRelationship (fst e), snd e))
                     (JS.entries o)).
    { destruct (JS.keys o); [discriminate | congruence]. }
    subst sections. clear H. unfold JS.keys, JS.entries.
    pose proof (own_order_perm o) as Hp.
    repeat split.
    + rewrite !map_map. reflexivity.
    + rewrite length_map. apply Permutation_length, Hp.
    + transitivity (flat_map snd (JS.own_order o));
        [|apply Permutation_flat_map, Hp].
      clear Hp. generalize (JS.own_order o). intros l.
      induction l as [| e l IH]; [reflexivity|].
      simpl. apply Permutation_app_head, IH.
Qed.

(** ** Failures that are handled *)

(** X26: when the request of [predictRisks] or of [addHealthMetric] fails
    (the fetch rejects, the status is not ok, or the body is not JSON), the
    trigger control ends with its original label and enabled, not with the
    spinner; exactly one error notification is shown; and the form inputs are
    as they were. *)
Theorem X26_handled_failure_restores_control {J : Type}
  (h : JS.host) (userId : string) (settle : JS.settled J)
  (p : HealthRiskPredictor.page) (q : HealthDashboard.page) :
  JS.unwrap settle = None ->
  let p' := HealthRiskPredictor.predictRisks userId settle p in
  let q' := HealthDashboard.addHealthMetric h userId settle q in
  (HealthRiskPredictor.innerHTML (HealthRiskPredictor.riskPredictBtn p')
     = HealthRiskPredictor.innerHTML (HealthRiskPredictor.riskPredictBtn p)
   /\ HealthRiskPredictor.disabled (HealthRiskPredictor.riskPredictBtn p') = false
   /\ HealthRiskPredictor.lifestyleForm p' = HealthRiskPredictor.lifestyleForm p
   /\ HealthRiskPredictor.notifications p'
      = HealthRiskPredictor.notifications p
        ++ [("Error performing risk assessment. Please try again.", "error")])
  /\ (HealthDashboard.form q' = HealthDashboard.form q
      /\ HealthDashboard.submit_enabled q' = HealthDashboard.submit_enabled q
      /\ HealthDashboard.loading q' = HealthDashboard.loading q
      /\ (HealthDashboard.requests q' <> HealthDashboard.requests q ->
          HealthDashboard.notifications q'
          = HealthDashboard.notifications q
            ++ [("Error adding health metric. Please try again.", "error")])).
Proof.
  intros Hfail p' q'. split.
  - unfold p', HealthRiskPredictor.predictRisks. rewrite Hfail.
    destruct settle as [| ok status json]; repeat split.
  - unfold q', HealthDashboard.addHealthMetric.
    destruct (HealthDashboard.validateMetric h (HealthDashboard.form q)) as [msg|].
    { repeat split. simpl. intros F. congruence. }
    rewrite Hfail.
    destruct (String.eqb (HealthDashboard.metricDate (HealthDashboard.form q)) "").
    { repeat split. }
    destruct (JS.parseDate h (HealthDashboard.metricDate (HealthDashboard.form q))).
    { repeat split. }
    repeat split. simpl. intros F. congruence.
Qed.

Lemma X26_witness :
  let p' := HealthRiskPredictor.predictRisks "42" (JS.Response false 500 (Some tt))
              Examples.predictorPage in
  let q' := HealthDashboard.addHealthMetric Examples.host "42"
              (JS.Response false 500 (Some tt))
              (Examples.dashboardPage Examples.heartRateForm) in
  (HealthRiskPredictor.innerHTML (HealthRiskPredictor.riskPredictBtn p')
     = [JS.Text "Predict Health Risks"]
   /\ HealthRiskPredictor.disabled (HealthRiskPredictor.riskPredictBtn p') = false
   /\ HealthRiskPredictor.lifestyleForm p'
      = HealthRiskPredictor.lifestyleForm Examples.predictorPage
   /\ HealthRiskPredictor.notifications p'
      = [] ++ [("Error performing risk assessment. Please try again.", "error")])
  /\ (HealthDashboard.form q' = Examples.heartRateForm
      /\ HealthDashboard.submit_enabled q' = true
      /\ HealthDashboard.loading q' = false
      /\ (HealthDashboard.requests q' <> [] ->
          HealthDashboard.notifications q'
          = [] ++ [("Error adding health metric. Please try again.", "error")])).
Proof.
  apply (X26_handled_failure_restores_control Examples.host "42"
           (JS.Response false 500 (Some tt)) Examples.predictorPage
           (Examples.dashboardPage Examples.heartRateForm)).
  reflexivity.
Defined.
